(** * FoundryVTT-Toolbox, ldb-access: dump and rebuild of a LevelDB store

    A shallow embedding of [dump_leveldb_to_json.py] and
    [rebuild_leveldb_from_json.py], and the properties of the value codec,
    the folder-path resolution, the record placement, the id allocation and
    the merge that the specification states.

    Conventions of the embedding:
    - a Python [str] is the list of its code points ([pystr]), a Python
      [bytes] a list of [byte];
    - a Python [dict] is an association list in insertion order (order
      matters to [json.dumps]); dictionaries used only as maps (the folder
      index, the memo, the merged records) are [gmap]s, sets are [gset]s;
    - a call that can raise returns [res]: [Ok v] or [Raise e]; [OutOfFuel]
      is no exception of the program but a loop still running when the
      fuel of the model ran out;
    - Python floats are outside the model: a JSON text with a float literal
      makes [json_loads] answer [Raise Unmodelled], and so does [str()] of a
      list or dict. No theorem takes such an answer for behaviour of the
      program. *)

From Stdlib Require Import ZArith NArith Lia Ascii String List.
From Stdlib Require Import DecimalPos DecimalN DecimalZ DecimalFacts.
From Stdlib.Strings Require Import Byte.
From stdpp Require Import gmap list strings sorting.

Abbreviation pystr := (list N) (only parsing).
Abbreviation bytes := (list byte) (only parsing).

(** ** Exceptions *)

Inductive exn : Set :=
| UnicodeDecodeError
| UnicodeEncodeError
| JSONDecodeError
| BinasciiError
| ValueError
| FileNotFoundError
| IsADirectoryError
| RecursionError
| OutOfFuel
| Unmodelled.

Inductive res (A : Type) : Type :=
| Ok (a : A)
| Raise (e : exn).

Arguments Ok {A} a.
Arguments Raise {A} e.

Definition res_bind {A B : Type} (f : A → res B) (m : res A) : res B :=
  match m with
  | Ok a => f a
  | Raise e => Raise e
  end.

#[global] Instance res_mbind : MBind res := @res_bind.
#[global] Instance res_mret : MRet res := @Ok.

Definition is_ok {A : Type} (m : res A) : bool :=
  match m with Ok _ => true | Raise _ => false end.

(** ** Text literals *)

(** The code points of an ASCII literal. *)
Definition txt (s : string) : pystr :=
  map N_of_ascii (list_ascii_of_string s).

Definition to_byte (n : N) : byte := default x00 (Byte.of_N n).

#[global] Instance byte_eq_decision : EqDecision byte := Byte.byte_eq_dec.

(** ** The UTF-8 codec ([bytes.decode("utf-8")], [str.encode("utf-8")])

    Strict, as Python's: no overlong forms, no surrogates, nothing above
    U+10FFFF. Written on byte values; shifts and masks of disjoint bit
    fields are spelled as multiplications, quotients and remainders. *)

Definition is_cont (b : N) : bool := ((128 <=? b) && (b <=? 191))%N.

Fixpoint utf8_decode_N (bs : list N) : option pystr :=
  match bs with
  | [] => Some []
  | b0 :: r0 =>
    if (b0 <? 128)%N then cons b0 <$> utf8_decode_N r0
    else if ((194 <=? b0) && (b0 <=? 223))%N then
      match r0 with
      | b1 :: r1 =>
        if is_cont b1
        then cons ((b0 - 192) * 64 + (b1 - 128))%N <$> utf8_decode_N r1
        else None
      | _ => None
      end
    else if ((224 <=? b0) && (b0 <=? 239))%N then
      match r0 with
      | b1 :: b2 :: r2 =>
        if is_cont b1 && is_cont b2
           && (negb (b0 =? 224)%N || (160 <=? b1)%N)
           && (negb (b0 =? 237)%N || (b1 <=? 159)%N)
        then cons ((b0 - 224) * 4096 + (b1 - 128) * 64 + (b2 - 128))%N
               <$> utf8_decode_N r2
        else None
      | _ => None
      end
    else if ((240 <=? b0) && (b0 <=? 244))%N then
      match r0 with
      | b1 :: b2 :: b3 :: r3 =>
        if is_cont b1 && is_cont b2 && is_cont b3
           && (negb (b0 =? 240)%N || (144 <=? b1)%N)
           && (negb (b0 =? 244)%N || (b1 <=? 143)%N)
        then cons ((b0 - 240) * 262144 + (b1 - 128) * 4096
                   + (b2 - 128) * 64 + (b3 - 128))%N
               <$> utf8_decode_N r3
        else None
      | _ => None
      end
    else None
  end.

Definition utf8_encode_cp (c : N) : option (list N) :=
  if (c <? 128)%N then Some [c]
  else if (c <? 2048)%N then Some [192 + c / 64; 128 + c mod 64]%N
  else if (c <? 65536)%N then
    if ((55296 <=? c) && (c <=? 57343))%N then None
    else Some [224 + c / 4096; 128 + (c / 64) mod 64; 128 + c mod 64]%N
  else if (c <? 1114112)%N then
    Some [240 + c / 262144; 128 + (c / 4096) mod 64;
          128 + (c / 64) mod 64; 128 + c mod 64]%N
  else None.

Fixpoint utf8_encode_N (s : pystr) : option (list N) :=
  match s with
  | [] => Some []
  | c :: s' =>
    match utf8_encode_cp c, utf8_encode_N s' with
    | Some bs, Some r => Some (bs ++ r)
    | _, _ => None
    end
  end.

Definition utf8_decode (raw : bytes) : option pystr :=
  utf8_decode_N (map Byte.to_N raw).

Definition utf8_encode (s : pystr) : res bytes :=
  match utf8_encode_N s with
  | Some bs => Ok (map to_byte bs)
  | None => Raise UnicodeEncodeError
  end.

(** ** Base64 ([base64.b64encode], [base64.b64decode]) *)

(** [table_b2a_base64]. *)
Definition b64char (i : N) : N :=
  if (i <? 26)%N then (65 + i)%N
  else if (i <? 52)%N then (97 + (i - 26))%N
  else if (i <? 62)%N then (48 + (i - 52))%N
  else if (i =? 62)%N then 43%N
  else 47%N.

(** [table_a2b_base64]: the sextet of an alphabet character. *)
Definition b64val (c : N) : option N :=
  if ((65 <=? c) && (c <=? 90))%N then Some (c - 65)%N
  else if ((97 <=? c) && (c <=? 122))%N then Some (c - 97 + 26)%N
  else if ((48 <=? c) && (c <=? 57))%N then Some (c - 48 + 52)%N
  else if (c =? 43)%N then Some 62%N
  else if (c =? 47)%N then Some 63%N
  else None.

(** [binascii.b2a_base64(raw, newline=False)]: three bytes give four
    characters, the tail is padded with [=] (61). *)
Fixpoint b2a_base64 (bs : list N) : pystr :=
  match bs with
  | [] => []
  | [a] => [b64char (a / 4); b64char ((a mod 4) * 16); 61; 61]%N
  | [a; b] =>
    [b64char (a / 4); b64char ((a mod 4) * 16 + b / 16);
     b64char ((b mod 16) * 4); 61]%N
  | a :: b :: c :: r =>
    [b64char (a / 4); b64char ((a mod 4) * 16 + b / 16);
     b64char ((b mod 16) * 4 + c / 64); b64char (c mod 64)]%N
    ++ b2a_base64 r
  end.

Definition b64encode (raw : bytes) : pystr :=
  b2a_base64 (map Byte.to_N raw).

(** [binascii.a2b_base64] in its default, non-strict mode: characters outside
    the alphabet are skipped, a pad sequence that completes the current quad
    ends the input, and a quad left open at the end is an error. *)
Fixpoint a2b_base64 (s : pystr) (quad_pos : nat) (leftchar : N) (pads : nat)
  : option (list N) :=
  match s with
  | [] => if decide (quad_pos = 0) then Some [] else None
  | ch :: s' =>
    if (ch =? 61)%N then
      if decide (2 ≤ quad_pos ∧ 4 ≤ quad_pos + S pads) then Some []
      else a2b_base64 s' quad_pos leftchar
             (if decide (2 ≤ quad_pos) then S pads else pads)
    else
      match b64val ch with
      | None => a2b_base64 s' quad_pos leftchar pads
      | Some v =>
        match quad_pos with
        | 0 => a2b_base64 s' 1 v 0
        | 1 => cons (leftchar * 4 + v / 16)%N <$> a2b_base64 s' 2 (v mod 16)%N 0
        | 2 => cons (leftchar * 16 + v / 4)%N <$> a2b_base64 s' 3 (v mod 4)%N 0
        | _ => cons (leftchar * 64 + v)%N <$> a2b_base64 s' 0 0%N 0
        end
      end
  end.

(** [base64.b64decode(s)] of a [str]: a non-ASCII character is a
    [ValueError], malformed padding a [binascii.Error]. *)
Definition b64decode (s : pystr) : res bytes :=
  if forallb (λ c, c <? 128)%N s then
    match a2b_base64 s 0 0%N 0 with
    | Some bs => Ok (map to_byte bs)
    | None => Raise BinasciiError
    end
  else Raise ValueError.

(** ** JSON values and the Python operations on them *)

#[local] Set Warnings "-register-all".

Inductive json : Type :=
| JNull
| JBool (b : bool)
| JInt (n : Z)
| JStr (s : pystr)
| JArr (items : list json)
| JObj (fields : list (pystr * json)).

Abbreviation pydict := (list (pystr * json)) (only parsing).

(** [d.get(k)]. *)
Fixpoint dict_get {V : Type} (k : pystr) (d : list (pystr * V)) : option V :=
  match d with
  | [] => None
  | (k', v) :: d' => if decide (k = k') then Some v else dict_get k d'
  end.

(** [d[k] = v]: an existing key keeps its position, a new one goes last. *)
Fixpoint dict_set {V : Type} (k : pystr) (v : V) (d : list (pystr * V))
  : list (pystr * V) :=
  match d with
  | [] => [(k, v)]
  | (k', v') :: d' =>
    if decide (k = k') then (k, v) :: d' else (k', v') :: dict_set k v d'
  end.

(** [dict(pairs)]. *)
Definition dict_of_pairs {V : Type} (ps : list (pystr * V)) : list (pystr * V) :=
  foldl (λ d kv, dict_set kv.1 kv.2 d) [] ps.

Definition dict_keys {V : Type} (d : list (pystr * V)) : list pystr := d.*1.

(** Truth value of a value ([bool(v)], as in [x or y] and [if not x]). *)
Definition truthy (v : json) : bool :=
  match v with
  | JNull => false
  | JBool b => b
  | JInt n => negb (n =? 0)%Z
  | JStr s => negb (bool_decide (s = []))
  | JArr l => negb (bool_decide (l = []))
  | JObj d => negb (bool_decide (d = []))
  end.

Definition is_str (v : json) : bool :=
  match v with JStr _ => true | _ => false end.

Definition is_dict (v : json) : bool :=
  match v with JObj _ => true | _ => false end.


Definition uint_chars (d : Decimal.uint) : pystr :=
  (fix go (d : Decimal.uint) : pystr :=
     match d with
     | Decimal.Nil => []
     | Decimal.D0 d => 48%N :: go d
     | Decimal.D1 d => 49%N :: go d
     | Decimal.D2 d => 50%N :: go d
     | Decimal.D3 d => 51%N :: go d
     | Decimal.D4 d => 52%N :: go d
     | Decimal.D5 d => 53%N :: go d
     | Decimal.D6 d => 54%N :: go d
     | Decimal.D7 d => 55%N :: go d
     | Decimal.D8 d => 56%N :: go d
     | Decimal.D9 d => 57%N :: go d
     end) d.

(** [repr] of an [int]. *)
Definition int_repr (n : Z) : pystr :=
  match n with
  | Z0 => [48%N]
  | Zpos p => uint_chars (N.to_uint (Npos p))
  | Zneg p => 45%N :: uint_chars (N.to_uint (Npos p))
  end.

(** [str(v)]; the [repr] of a list or dict is not modelled. *)
Definition py_str (v : json) : res pystr :=
  match v with
  | JNull => Ok (txt "None")
  | JBool true => Ok (txt "True")
  | JBool false => Ok (txt "False")
  | JInt n => Ok (int_repr n)
  | JStr s => Ok s
  | JArr _ | JObj _ => Raise Unmodelled
  end.

(** ** [json.dumps]

    With [ensure_ascii=False] only the quote, the backslash and the control
    characters below U+0020 are escaped. *)

Definition hex_digit (n : N) : N := if (n <? 10)%N then (48 + n)%N else (87 + n)%N.

Definition escape_char (c : N) : pystr :=
  if (c =? 34)%N then [92; 34]%N
  else if (c =? 92)%N then [92; 92]%N
  else if (c =? 10)%N then [92; 110]%N
  else if (c =? 13)%N then [92; 114]%N
  else if (c =? 9)%N then [92; 116]%N
  else if (c =? 8)%N then [92; 98]%N
  else if (c =? 12)%N then [92; 102]%N
  else if (c <? 32)%N then [92; 117; 48; 48; hex_digit (c / 16); hex_digit (c mod 16)]%N
  else [c].

Fixpoint escape_chars (s : pystr) : pystr :=
  match s with
  | [] => []
  | c :: s' => escape_char c ++ escape_chars s'
  end.

(** [encode_basestring]: the JSON string literal of [s]. *)
Definition quote (s : pystr) : pystr := 34%N :: escape_chars s ++ [34%N].

(** [json.dumps(v, ensure_ascii=False, separators=(",", ":"))]. *)
Fixpoint json_dumps (v : json) : pystr :=
  match v with
  | JNull => txt "null"
  | JBool true => txt "true"
  | JBool false => txt "false"
  | JInt n => int_repr n
  | JStr s => quote s
  | JArr items =>
    match items with
    | [] => [91; 93]%N
    | x :: r =>
      91%N :: json_dumps x ++
        (fix rest (l : list json) : pystr :=
           match l with
           | [] => [93%N]
           | y :: l' => 44%N :: json_dumps y ++ rest l'
           end) r
    end
  | JObj fields =>
    match fields with
    | [] => [123; 125]%N
    | (k, x) :: r =>
      123%N :: quote k ++ 58%N :: json_dumps x ++
        (fix rest (l : list (pystr * json)) : pystr :=
           match l with
           | [] => [125%N]
           | (k', y) :: l' => 44%N :: quote k' ++ 58%N :: json_dumps y ++ rest l'
           end) r
    end
  end.

Definition newline_indent (level : nat) : pystr :=
  10%N :: repeat 32%N (2 * level).

(** [json.dumps(v, ensure_ascii=False, indent=2)], at nesting [level]. *)
Fixpoint json_dumps_indent (level : nat) (v : json) : pystr :=
  match v with
  | JArr items =>
    match items with
    | [] => [91; 93]%N
    | x :: r =>
      91%N :: newline_indent (S level) ++ json_dumps_indent (S level) x ++
        (fix rest (l : list json) : pystr :=
           match l with
           | [] => newline_indent level ++ [93%N]
           | y :: l' =>
             44%N :: newline_indent (S level)
               ++ json_dumps_indent (S level) y ++ rest l'
           end) r
    end
  | JObj fields =>
    match fields with
    | [] => [123; 125]%N
    | (k, x) :: r =>
      123%N :: newline_indent (S level) ++ quote k ++ [58; 32]%N
        ++ json_dumps_indent (S level) x ++
        (fix rest (l : list (pystr * json)) : pystr :=
           match l with
           | [] => newline_indent level ++ [125%N]
           | (k', y) :: l' =>
             44%N :: newline_indent (S level) ++ quote k' ++ [58; 32]%N
               ++ json_dumps_indent (S level) y ++ rest l'
           end) r
    end
  | _ => json_dumps v
  end.

(** ** [json.loads]

    The scanner of CPython's [json] module on a [str]. The fuel bounds the
    number of calls; [json_loads] passes enough of it for any input
    ([json_loads_fuel_enough]), and the interpreter's own recursion limit is
    not modelled. A float literal, [NaN] and [Infinity]
    answer [Raise Unmodelled]. *)

Definition is_ws (c : N) : bool :=
  ((c =? 32) || (c =? 9) || (c =? 10) || (c =? 13))%N.

Fixpoint skip_ws (s : pystr) : pystr :=
  match s with
  | [] => []
  | c :: r => if is_ws c then skip_ws r else s
  end.

Definition is_digit (c : N) : bool := ((48 <=? c) && (c <=? 57))%N.

Fixpoint span_digits (s : pystr) : pystr * pystr :=
  match s with
  | [] => ([], [])
  | c :: r =>
    if is_digit c then let '(ds, r') := span_digits r in (c :: ds, r')
    else ([], s)
  end.

Fixpoint chars_uint (ds : pystr) : Decimal.uint :=
  match ds with
  | [] => Decimal.Nil
  | c :: r =>
    let d := chars_uint r in
    if (c =? 48)%N then Decimal.D0 d
    else if (c =? 49)%N then Decimal.D1 d
    else if (c =? 50)%N then Decimal.D2 d
    else if (c =? 51)%N then Decimal.D3 d
    else if (c =? 52)%N then Decimal.D4 d
    else if (c =? 53)%N then Decimal.D5 d
    else if (c =? 54)%N then Decimal.D6 d
    else if (c =? 55)%N then Decimal.D7 d
    else if (c =? 56)%N then Decimal.D8 d
    else Decimal.D9 d
  end.

Fixpoint strip_prefix (p s : pystr) : option pystr :=
  match p, s with
  | [], _ => Some s
  | a :: p', b :: s' => if (a =? b)%N then strip_prefix p' s' else None
  | _ :: _, [] => None
  end.

Definition hex_val (c : N) : option N :=
  if ((48 <=? c) && (c <=? 57))%N then Some (c - 48)%N
  else if ((97 <=? c) && (c <=? 102))%N then Some (c - 87)%N
  else if ((65 <=? c) && (c <=? 70))%N then Some (c - 55)%N
  else None.

Definition hex4 (s : pystr) : option (N * pystr) :=
  match s with
  | a :: b :: c :: d :: r =>
    match hex_val a, hex_val b, hex_val c, hex_val d with
    | Some x, Some y, Some z, Some w => Some ((((x * 16 + y) * 16 + z) * 16 + w)%N, r)
    | _, _, _, _ => None
    end
  | _ => None
  end.

Definition unescape (e : N) : option N :=
  if (e =? 34)%N then Some 34%N
  else if (e =? 92)%N then Some 92%N
  else if (e =? 47)%N then Some 47%N
  else if (e =? 98)%N then Some 8%N
  else if (e =? 102)%N then Some 12%N
  else if (e =? 110)%N then Some 10%N
  else if (e =? 114)%N then Some 13%N
  else if (e =? 116)%N then Some 9%N
  else None.

Definition is_high_surrogate (c : N) : bool := ((55296 <=? c) && (c <=? 56319))%N.
Definition is_low_surrogate (c : N) : bool := ((56320 <=? c) && (c <=? 57343))%N.
Definition join_surrogates (hi lo : N) : N :=
  (65536 + ((hi - 55296) * 1024 + (lo - 56320)))%N.

Definition push {A : Type} (c : A) (m : res (list A * pystr)) : res (list A * pystr) :=
  match m with
  | Ok (s, r) => Ok (c :: s, r)
  | Raise e => Raise e
  end.

(** [scanstring(s, end, strict=True)], entered after the opening quote:
    the decoded string and what follows the closing quote. *)
Fixpoint scanstring (fuel : nat) (s : pystr) : res (pystr * pystr) :=
  match fuel with
  | O => Raise OutOfFuel
  | S fuel =>
    match s with
    | [] => Raise JSONDecodeError
    | c :: r =>
      if (c =? 34)%N then Ok ([], r)
      else if (c =? 92)%N then
        match r with
        | [] => Raise JSONDecodeError
        | e :: r1 =>
          if (e =? 117)%N then
            match hex4 r1 with
            | None => Raise JSONDecodeError
            | Some (u, r2) =>
              if is_high_surrogate u then
                match r2 with
                | b :: uu :: r3 =>
                  if ((b =? 92) && (uu =? 117))%N then
                    match hex4 r3 with
                    | None => Raise JSONDecodeError
                    | Some (u2, r4) =>
                      if is_low_surrogate u2
                      then push (join_surrogates u u2) (scanstring fuel r4)
                      else push u (scanstring fuel r2)
                    end
                  else push u (scanstring fuel r2)
                | _ => push u (scanstring fuel r2)
                end
              else push u (scanstring fuel r2)
            end
          else
            match unescape e with
            | Some ch => push ch (scanstring fuel r1)
            | None => Raise JSONDecodeError
            end
        end
      else if (c <? 32)%N then Raise JSONDecodeError
      else push c (scanstring fuel r)
    end
  end.

(** Whether the text after the integer part makes the number a float:
    [.] and a digit, or [e]/[E], an optional sign and a digit. *)
Definition is_float_tail (r : pystr) : bool :=
  match r with
  | c :: r1 =>
    if (c =? 46)%N then
      match r1 with d :: _ => is_digit d | [] => false end
    else if ((c =? 101) || (c =? 69))%N then
      match r1 with
      | [] => false
      | [d] => is_digit d
      | sg :: d :: _ =>
        if ((sg =? 45) || (sg =? 43))%N then is_digit d else is_digit sg
      end
    else false
  | [] => false
  end.

(** [_match_number_unicode]: an optional minus sign, then a lone zero or a
    non-zero digit followed by digits, then the float test. *)
Definition parse_number (s : pystr) : res (json * pystr) :=
  let '(neg, s1) :=
    match s with
    | c :: r => if (c =? 45)%N then (true, r) else (false, s)
    | [] => (false, s)
    end in
  match s1 with
  | [] => Raise JSONDecodeError
  | d :: r =>
    let '(ds, r1) :=
      if ((49 <=? d) && (d <=? 57))%N
      then let '(more, r') := span_digits r in (d :: more, r')
      else if (d =? 48)%N then ([d], r)
      else ([], s1) in
    match ds with
    | [] => Raise JSONDecodeError
    | _ =>
      if is_float_tail r1 then Raise Unmodelled
      else
        let n := Z.of_N (N.of_uint (chars_uint ds)) in
        Ok (JInt (if neg : bool then (- n)%Z else n), r1)
    end
  end.

(** The constants of [scan_once]; [None] when [s] starts with none. *)
Definition parse_constant (s : pystr) : option (res (json * pystr)) :=
  match strip_prefix (txt "null") s with
  | Some r => Some (Ok (JNull, r))
  | None =>
  match strip_prefix (txt "true") s with
  | Some r => Some (Ok (JBool true, r))
  | None =>
  match strip_prefix (txt "false") s with
  | Some r => Some (Ok (JBool false, r))
  | None =>
  match strip_prefix (txt "NaN") s with
  | Some r => Some (Raise Unmodelled)
  | None =>
  match strip_prefix (txt "Infinity") s with
  | Some r => Some (Raise Unmodelled)
  | None =>
  match strip_prefix (txt "-Infinity") s with
  | Some r => Some (Raise Unmodelled)
  | None => None
  end end end end end end.

Fixpoint parse_value (fuel : nat) (s : pystr) {struct fuel} : res (json * pystr) :=
  match fuel with
  | O => Raise OutOfFuel
  | S fuel =>
    match s with
    | [] => Raise JSONDecodeError
    | c :: r =>
      if (c =? 34)%N then
        '(k, r1) ← scanstring (S (length r)) r; Ok (JStr k, r1)
      else if (c =? 123)%N then
        match skip_ws r with
        | c1 :: r2 =>
          if (c1 =? 125)%N then Ok (JObj [], r2)
          else if (c1 =? 34)%N then
            '(ps, r3) ← parse_members fuel r2; Ok (JObj (dict_of_pairs ps), r3)
          else Raise JSONDecodeError
        | [] => Raise JSONDecodeError
        end
      else if (c =? 91)%N then
        match skip_ws r with
        | c1 :: r2 =>
          if (c1 =? 93)%N then Ok (JArr [], r2)
          else '(xs, r3) ← parse_elements fuel (c1 :: r2); Ok (JArr xs, r3)
        | [] => Raise JSONDecodeError
        end
      else
        match parse_constant s with
        | Some m => m
        | None => parse_number s
        end
    end
  end
with parse_elements (fuel : nat) (s : pystr) {struct fuel}
  : res (list json * pystr) :=
  match fuel with
  | O => Raise OutOfFuel
  | S fuel =>
    '(v, r) ← parse_value fuel s;
    match skip_ws r with
    | c :: r1 =>
      if (c =? 93)%N then Ok ([v], r1)
      else if (c =? 44)%N then push v (parse_elements fuel (skip_ws r1))
      else Raise JSONDecodeError
    | [] => Raise JSONDecodeError
    end
  end
with parse_members (fuel : nat) (s : pystr) {struct fuel}
  : res (list (pystr * json) * pystr) :=
  match fuel with
  | O => Raise OutOfFuel
  | S fuel =>
    '(k, r) ← scanstring (S (length s)) s;
    match skip_ws r with
    | c :: r1 =>
      if (c =? 58)%N then
        '(v, r2) ← parse_value fuel (skip_ws r1);
        match skip_ws r2 with
        | c2 :: r3 =>
          if (c2 =? 125)%N then Ok ([(k, v)], r3)
          else if (c2 =? 44)%N then
            match skip_ws r3 with
            | q :: r4 =>
              if (q =? 34)%N then push (k, v) (parse_members fuel r4)
              else Raise JSONDecodeError
            | [] => Raise JSONDecodeError
            end
          else Raise JSONDecodeError
        | [] => Raise JSONDecodeError
        end
      else Raise JSONDecodeError
    | [] => Raise JSONDecodeError
    end
  end.

(** [json.loads(s)]: one value between optional whitespace, nothing after. *)
Definition json_loads (s : pystr) : res json :=
  '(v, r) ← parse_value (2 * length s + 1) (skip_ws s);
  match skip_ws r with
  | [] => Ok v
  | _ :: _ => Raise JSONDecodeError
  end.

(** ** Values that [json.loads] can return

    A Python [dict] holds a key once: a value is well formed when no object
    in it repeats a key. *)

Inductive json_wf : json → Prop :=
| wf_null : json_wf JNull
| wf_bool (b : bool) : json_wf (JBool b)
| wf_int (n : Z) : json_wf (JInt n)
| wf_str (s : pystr) : json_wf (JStr s)
| wf_arr (items : list json) : Forall json_wf items → json_wf (JArr items)
| wf_obj (fields : pydict) :
    NoDup fields.*1 → Forall (λ kv, json_wf kv.2) fields → json_wf (JObj fields).

(** The number of calls the scanner needs at most to read a value back. *)
Fixpoint json_size (v : json) : nat :=
  match v with
  | JArr items =>
    S ((fix total (l : list json) : nat :=
          match l with
          | [] => 0
          | x :: l' => S (json_size x) + total l'
          end) items)
  | JObj fields =>
    S ((fix total (l : list (pystr * json)) : nat :=
          match l with
          | [] => 0
          | (_, x) :: l' => S (json_size x) + total l'
          end) fields)
  | _ => 1
  end.



(** A numeral that does not start with a zero. *)
Definition leading_nonzero (d : Decimal.uint) : Prop :=
  match d with
  | Decimal.Nil | Decimal.D0 _ => False
  | _ => True
  end.




(** ** [str] methods *)

(** [str.isspace] of one character (the whitespace of the Unicode database). *)
Definition isspace (c : N) : bool :=
  (((9 <=? c) && (c <=? 13)) || ((28 <=? c) && (c <=? 32))
   || (c =? 133) || (c =? 160) || (c =? 5760)
   || ((8192 <=? c) && (c <=? 8202))
   || (c =? 8232) || (c =? 8233) || (c =? 8239) || (c =? 8287)
   || (c =? 12288))%N.

(** The interpreter's Unicode database is a table outside the repository:
    [str.isalnum] is fixed here on ASCII and taken from the table above it. *)
Class UnicodeDB : Type := { uni_isalnum : N → bool }.

Definition ascii_isalnum (c : N) : bool :=
  (((48 <=? c) && (c <=? 57)) || ((65 <=? c) && (c <=? 90))
   || ((97 <=? c) && (c <=? 122)))%N.

Definition isalnum `{UnicodeDB} (c : N) : bool :=
  if (c <? 128)%N then ascii_isalnum c else uni_isalnum c.

(** A database that knows no alphanumeric character outside ASCII; used to
    run the definitions on ASCII inputs. *)
Definition ascii_db : UnicodeDB := {| uni_isalnum := λ _, false |}.

Fixpoint lstrip_with (p : N → bool) (s : pystr) : pystr :=
  match s with
  | [] => []
  | c :: r => if p c then lstrip_with p r else s
  end.

Definition strip_with (p : N → bool) (s : pystr) : pystr :=
  reverse (lstrip_with p (reverse (lstrip_with p s))).

(** [s.strip()]. *)
Definition py_strip (s : pystr) : pystr := strip_with isspace s.

(** [s.split(sep)] for a one-character separator. *)
Fixpoint split_on (sep : N) (s : pystr) : list pystr :=
  match s with
  | [] => [[]]
  | c :: r =>
    if (c =? sep)%N then [] :: split_on sep r
    else
      match split_on sep r with
      | [] => [[c]]
      | p :: ps => (c :: p) :: ps
      end
  end.

(** [sep.join(parts)]. *)
Fixpoint join (sep : pystr) (parts : list pystr) : pystr :=
  match parts with
  | [] => []
  | [p] => p
  | p :: ps => p ++ sep ++ join sep ps
  end.

Definition startswith (p s : pystr) : bool :=
  match strip_prefix p s with Some _ => true | None => false end.

(** [s.partition(sep)] at the first occurrence: the text before [sep] and
    the text after it. *)
Fixpoint split_first (sep s : pystr) : option (pystr * pystr) :=
  match strip_prefix sep s with
  | Some r => Some ([], r)
  | None =>
    match s with
    | [] => None
    | c :: s' =>
      match split_first sep s' with
      | Some (a, b) => Some (c :: a, b)
      | None => None
      end
    end
  end.

(** [s.rsplit(sep, 1)] when [sep] occurs in [s]: the split at the last
    occurrence. *)
Definition rsplit1 (sep s : pystr) : option (pystr * pystr) :=
  match split_first (reverse sep) (reverse s) with
  | Some (a, b) => Some (reverse b, reverse a)
  | None => None
  end.

(** [sub in s]. *)
Definition contains (sub s : pystr) : bool :=
  match split_first sub s with Some _ => true | None => false end.

(** Order of [str] values ([<=], code point by code point). *)
Fixpoint pystr_leb (a b : pystr) : bool :=
  match a, b with
  | [], _ => true
  | _ :: _, [] => false
  | x :: a', y :: b' =>
    if (x <? y)%N then true else if (y <? x)%N then false else pystr_leb a' b'
  end.

(** A [pathlib] path relative to the store's output directory: its parts. *)
Abbreviation path := (list pystr) (only parsing).

(** [str(p)]. *)
Definition path_str (p : path) : pystr := join [47%N] p.

Fixpoint path_leb (a b : path) : bool :=
  match a, b with
  | [], _ => true
  | _ :: _, [] => false
  | x :: a', y :: b' =>
    if decide (x = y) then path_leb a' b' else pystr_leb x y
  end.

(** * dump_leveldb_to_json.py *)

Module Dump.

Section defs.
Context `{UnicodeDB}.

Definition _encode_bytes (raw : bytes) : json :=
  match utf8_decode raw with
  | Some text => JStr text
  | None => JObj [(txt "base64", JStr (b64encode raw))]
  end.

Definition _coerce_value (raw : bytes) (parse_json_values : bool) : res json :=
  let encoded := _encode_bytes raw in
  if negb parse_json_values || negb (is_str encoded) then Ok encoded
  else
    match encoded with
    | JStr text =>
      match json_loads text with
      | Ok v => Ok v
      | Raise JSONDecodeError => Ok encoded
      | Raise e => Raise e
      end
    | _ => Ok encoded
    end.

Definition _parse_key_parts (raw : bytes) : pystr * pystr * pystr :=
  match utf8_decode raw with
  | None => (txt "binary", [], [])
  | Some text =>
    if startswith (txt "!") text then
      match split_on 33 text with
      | _ :: p1 :: p2 :: _ =>
        if negb (bool_decide (p1 = [])) then (p1, p2, text)
        else (txt "misc", text, text)
      | _ => (txt "misc", text, text)
      end
    else (txt "misc", text, text)
  end.

Definition _safe_name (name : pystr) : pystr :=
  let cleaned :=
    map (λ ch, if isalnum ch || (ch =? 45)%N || (ch =? 95)%N then ch else 95%N)
        (py_strip name) in
  let stripped := strip_with (λ c, (c =? 95)%N) cleaned in
  if bool_decide (stripped = []) then txt "unnamed" else stripped.

(** The first of the fields that holds a non-blank string. *)
Fixpoint first_text_field (fields : list pystr) (d : pydict) : option pystr :=
  match fields with
  | [] => None
  | f :: fs =>
    match dict_get f d with
    | Some (JStr current) =>
      if negb (bool_decide (py_strip current = [])) then Some current
      else first_text_field fs d
    | _ => first_text_field fs d
    end
  end.

Definition title_fields : list pystr :=
  [txt "name"; txt "title"; txt "label"; txt "_id"].

Definition _record_title (value : json) (fallback : pystr) : pystr :=
  match value with
  | JObj d =>
    match first_text_field title_fields d with
    | Some current => _safe_name current
    | None => _safe_name fallback
    end
  | _ => _safe_name fallback
  end.

(** A record of the dump: [{root, id, key, value}]. The key is the key's
    text, or what [_encode_bytes] makes of a key that has none. *)
Record record : Type := {
  rec_root : pystr;
  rec_id : pystr;
  rec_key : json;
  rec_value : json;
}.

Definition _folder_payload (r : record) : option pydict :=
  match rec_value r with
  | JObj d => Some d
  | _ => None
  end.

(** [str(payload.get("_id") or record.get("id") or "").strip()]. *)
Definition folder_id_of (payload : pydict) (r : record) : res pystr :=
  let chosen :=
    match dict_get (txt "_id") payload with
    | Some v => if truthy v then v else JStr (rec_id r)
    | None => JStr (rec_id r)
    end in
  s ← py_str chosen; Ok (py_strip s).

Fixpoint _build_folder_index (folder_records : list record)
    (folder_by_id : gmap pystr pydict) : res (gmap pystr pydict) :=
  match folder_records with
  | [] => Ok folder_by_id
  | r :: rs =>
    match _folder_payload r with
    | None | Some [] => _build_folder_index rs folder_by_id
    | Some payload =>
      folder_id ← folder_id_of payload r;
      if bool_decide (folder_id = []) then _build_folder_index rs folder_by_id
      else _build_folder_index rs (<[folder_id := payload]> folder_by_id)
    end
  end.

(** The parent link the walk follows from [folder_id]: the payload's
    ["folder"] when it is a non-empty string, an id of the index, and not
    [folder_id] itself. *)
Definition parent_link (folder_id : pystr) (folder : pydict)
    (folder_by_id : gmap pystr pydict) : option pystr :=
  match dict_get (txt "folder") folder with
  | Some (JStr parent_id) =>
    if negb (bool_decide (parent_id = []))
       && bool_decide (is_Some (folder_by_id !! parent_id))
       && negb (bool_decide (parent_id = folder_id))
    then Some parent_id else None
  | _ => None
  end.

(** [_safe_name(str(folder.get("name", folder_id)))]. *)
Definition folder_name (folder_id : pystr) (folder : pydict) : res pystr :=
  name_text ← py_str (default (JStr folder_id) (dict_get (txt "name") folder));
  Ok (_safe_name name_text).

(** [_compute_folder_path]; [fuel] is the number of frames the interpreter
    still allows, and running out of it is Python's [RecursionError]. The
    memo is threaded through and returned. *)
Fixpoint _compute_folder_path (fuel : nat) (folder_id : pystr)
    (folder_by_id : gmap pystr pydict) (memo : gmap pystr path)
  : res (option path * gmap pystr path) :=
  match fuel with
  | O => Raise RecursionError
  | S fuel =>
    match memo !! folder_id with
    | Some p => Ok (Some p, memo)
    | None =>
      match folder_by_id !! folder_id with
      | None | Some [] => Ok (None, memo)
      | Some folder =>
        name ← folder_name folder_id folder;
        match parent_link folder_id folder folder_by_id with
        | Some parent_id =>
          '(parent, memo1) ← _compute_folder_path fuel parent_id folder_by_id memo;
          match parent with
          | None => Ok (Some [name], <[folder_id := [name]]> memo1)
          | Some p => Ok (Some (p ++ [name]), <[folder_id := p ++ [name]]> memo1)
          end
        | None => Ok (Some [name], <[folder_id := [name]]> memo)
        end
      end
    end
  end.

(** One row of [folders.json]. *)
Record folder_row : Type := {
  fr_id : pystr;
  fr_name : option json;
  fr_parent_id : option json;
  fr_path : pystr;
  fr_type : option json;
}.

(** One row of the manifest, and the path object it was written under. *)
Record manifest_row : Type := {
  m_key : json;
  m_root : pystr;
  m_id : pystr;
  m_path : pystr;
}.

(** The first loop of [_place_records]: the rows of [folders.json], in the
    order of the sorted ids. *)
Fixpoint resolve_folders (fuel : nat) (ids : list pystr)
    (folder_by_id : gmap pystr pydict) (memo : gmap pystr path)
  : res (list folder_row * gmap pystr path) :=
  match ids with
  | [] => Ok ([], memo)
  | folder_id :: ids' =>
    '(rel_path, memo1) ← _compute_folder_path fuel folder_id folder_by_id memo;
    '(rows, memo2) ← resolve_folders fuel ids' folder_by_id memo1;
    match rel_path with
    | None => Ok (rows, memo2)
    | Some p =>
      let payload := default [] (folder_by_id !! folder_id) in
      Ok ({| fr_id := folder_id;
             fr_name := dict_get (txt "name") payload;
             fr_parent_id := dict_get (txt "folder") payload;
             fr_path := path_str p;
             fr_type := dict_get (txt "type") payload |} :: rows, memo2)
    end
  end.

(** [str(rec.get("id") or "").strip() or "unknown"]. *)
Definition record_id (r : record) : pystr :=
  let s := py_strip (rec_id r) in
  if bool_decide (s = []) then txt "unknown" else s.

Definition record_file_name (r : record) : pystr :=
  _record_title (rec_value r) (record_id r)
    ++ txt "__" ++ _safe_name (record_id r) ++ txt ".json".

(** The directory of a record: [_tree/<folder path>/<root>] when its value
    names a folder that resolves, [<root>] otherwise. *)
Definition record_dir (fuel : nat) (r : record)
    (folder_by_id : gmap pystr pydict) (memo : gmap pystr path)
  : res (path * gmap pystr path) :=
  match rec_value r with
  | JObj d =>
    match dict_get (txt "folder") d with
    | Some (JStr folder_id) =>
      if negb (bool_decide (folder_id = [])) then
        '(folder_rel, memo1) ← _compute_folder_path fuel folder_id folder_by_id memo;
        match folder_rel with
        | Some p => Ok (txt "_tree" :: p ++ [rec_root r], memo1)
        | None => Ok ([rec_root r], memo1)
        end
      else Ok ([rec_root r], memo)
    | _ => Ok ([rec_root r], memo)
    end
  | _ => Ok ([rec_root r], memo)
  end.

(** The second loop of [_place_records]: for each record the path it is
    written under, with its manifest row. *)
Fixpoint place_loop (fuel : nat) (records : list record)
    (folder_by_id : gmap pystr pydict) (memo : gmap pystr path)
  : res (list (path * manifest_row)) :=
  match records with
  | [] => Ok []
  | r :: rs =>
    '(rel_dir, memo1) ← record_dir fuel r folder_by_id memo;
    let rel_path := rel_dir ++ [record_file_name r] in
    rows ← place_loop fuel rs folder_by_id memo1;
    Ok ((rel_path,
         {| m_key := rec_key r; m_root := rec_root r; m_id := record_id r;
            m_path := path_str rel_path |}) :: rows)
  end.

Definition sorted_ids (folder_by_id : gmap pystr pydict) : list pystr :=
  merge_sort (λ a b, Is_true (pystr_leb a b)) (elements (dom folder_by_id)).

(** [_place_records]: the rows of [folders.json] and, for each record in
    scan order, the path its value is written to and its manifest row. *)
Definition _place_records (fuel : nat) (records : list record)
  : res (list folder_row * list (path * manifest_row)) :=
  let folder_records :=
    filter (λ r, rec_root r = txt "folders") records in
  folder_by_id ← _build_folder_index folder_records ∅;
  '(folder_manifest, folder_paths) ←
    resolve_folders fuel (sorted_ids folder_by_id) folder_by_id ∅;
  placed ← place_loop fuel records folder_by_id folder_paths;
  Ok (folder_manifest, placed).

Definition _extract_records (entries : list (bytes * bytes))
    (parse_json_values : bool) : res (list record) :=
  mapM (λ kv : bytes * bytes,
     let '(root_entry, doc_id, key_text) := _parse_key_parts kv.1 in
     value ← _coerce_value kv.2 parse_json_values;
     Ok {| rec_root := _safe_name root_entry;
           rec_id := doc_id;
           rec_key := if bool_decide (key_text = [])
                      then _encode_bytes kv.1 else JStr key_text;
           rec_value := value |}) entries.

(** ** What a resolution should return

    [resolves idx id p]: following the parent links of the index from [id]
    up to a root-level folder gives the path [p]. The memo of a dump is
    consistent when each of its entries is such a path. *)

Inductive resolves (idx : gmap pystr pydict) : pystr → path → Prop :=
| resolves_root id folder name :
    idx !! id = Some folder → folder ≠ [] →
    folder_name id folder = Ok name →
    parent_link id folder idx = None →
    resolves idx id [name]
| resolves_orphan id folder name parent_id :
    idx !! id = Some folder → folder ≠ [] →
    folder_name id folder = Ok name →
    parent_link id folder idx = Some parent_id →
    idx !! parent_id = Some [] →
    resolves idx id [name]
| resolves_child id folder name parent_id p :
    idx !! id = Some folder → folder ≠ [] →
    folder_name id folder = Ok name →
    parent_link id folder idx = Some parent_id →
    resolves idx parent_id p →
    resolves idx id (p ++ [name]).

Definition memo_consistent (idx : gmap pystr pydict) (memo : gmap pystr path)
  : Prop :=
  ∀ id p, memo !! id = Some p → resolves idx id p.

End defs.

End Dump.

(** * rebuild_leveldb_from_json.py *)

Module Rebuild.

(** The output tree of one store: files with their bytes, and directories. *)
Inductive node : Type :=
| File (content : bytes)
| Dir.

(** What the run prints. *)
Inductive event : Type :=
| SkippingMissingRecordFile (rel_path : pystr)
| AppendedGeneratedId (title : pystr)
| CreatedId (title : pystr)
| ComparatorWarning (comparator : pystr).

Section defs.
Context `{UnicodeDB}.

(** The same text as in the dump script. *)
Definition _safe_name (name : pystr) : pystr := Dump._safe_name name.

Definition _record_title (value : json) (fallback : pystr) : pystr :=
  match value with
  | JObj d =>
    match Dump.first_text_field Dump.title_fields d with
    | Some current => py_strip current
    | None => fallback
    end
  | _ => fallback
  end.


Definition _looks_like_base64_wrapper (value : json) : bool :=
  match value with
  | JObj d =>
    bool_decide (list_to_set (dict_keys d) = ({[ txt "base64" ]} : gset pystr))
    && match dict_get (txt "base64") d with
       | Some (JStr _) => true
       | _ => false
       end
  | _ => false
  end.

Definition _encode_value (value : json) : res bytes :=
  if _looks_like_base64_wrapper value then
    match value with
    | JObj d =>
      match dict_get (txt "base64") d with
      | Some (JStr s) => b64decode s
      | _ => Raise ValueError
      end
    | _ => Raise ValueError
    end
  else
    match value with
    | JStr s => utf8_encode s
    | _ => utf8_encode (json_dumps value)
    end.

(** ** Paths *)

Definition path_name (p : path) : pystr := default [] (last p).

(** [PurePath.stem] and [PurePath.suffix] of a file name: split at the last
    dot, unless it is the first or the last character. *)
Definition stem_suffix (name : pystr) : pystr * pystr :=
  match rsplit1 [46%N] name with
  | Some (a, b) =>
    if negb (bool_decide (a = [])) && negb (bool_decide (b = []))
    then (a, 46%N :: b) else (name, [])
  | None => (name, [])
  end.

Definition path_stem (p : path) : pystr := (stem_suffix (path_name p)).1.
Definition path_suffix (p : path) : pystr := (stem_suffix (path_name p)).2.

(** [p.with_name(name)]. *)
Definition with_name (p : path) (name : pystr) : path :=
  removelast p ++ [name].

(** The path a recorded string names below the output directory. An
    absolute path or one with a [..] part leaves the tree: not modelled. *)
Definition rel_of_str (s : pystr) : option path :=
  let parts := filter (λ x, x ≠ [] ∧ x ≠ [46%N]) (split_on 47 s) in
  if startswith [47%N] s || bool_decide (txt ".." ∈ parts)
  then None else Some parts.

Definition fs_exists (fs : gmap path node) (p : path) : bool :=
  bool_decide (p = []) || bool_decide (is_Some (fs !! p)).

Definition read_bytes (fs : gmap path node) (p : path) : res bytes :=
  match fs !! p with
  | Some (File c) => Ok c
  | Some Dir => Raise IsADirectoryError
  | None => if bool_decide (p = []) then Raise IsADirectoryError
            else Raise FileNotFoundError
  end.

Definition _read_json (fs : gmap path node) (p : path) : res json :=
  raw ← read_bytes fs p;
  match utf8_decode raw with
  | Some text => json_loads text
  | None => Raise UnicodeDecodeError
  end.

Definition _write_json (fs : gmap path node) (p : path) (data : json)
  : res (gmap path node) :=
  raw ← utf8_encode (json_dumps_indent 0 data);
  Ok (<[p := File raw]> fs).

Definition _excluded_json_names : list pystr :=
  [txt "full.json"; txt "folders.json"; txt "manifest.json"].

Definition _infer_root_from_path (rel_path : path) : option pystr :=
  match rel_path with
  | [] => None
  | p0 :: _ =>
    if bool_decide (p0 = txt "_tree") then
      if (length rel_path <? 3)%nat then None
      else last (removelast rel_path)
    else if startswith (txt "_") p0 then None
    else Some p0
  end.

Definition _infer_id (value : json) (rel_path : path) : pystr :=
  let from_name :=
    let stem := path_stem rel_path in
    match rsplit1 (txt "__") stem with
    | Some (_, guessed) =>
      if negb (bool_decide (guessed = [])) then guessed else _safe_name stem
    | None => _safe_name stem
    end in
  match value with
  | JObj d =>
    match dict_get (txt "_id") d with
    | Some (JStr vid) =>
      if negb (bool_decide (py_strip vid = [])) then py_strip vid else from_name
    | _ => from_name
    end
  | _ => from_name
  end.

Definition _filename_has_id (rel_path : path) : bool :=
  match rsplit1 (txt "__") (path_stem rel_path) with
  | Some (_, guessed) => negb (bool_decide (guessed = []))
  | None => false
  end.

Definition _extract_id_from_key (key : pystr) : option pystr :=
  if negb (startswith (txt "!") key) then None
  else
    match split_on 33 key with
    | _ :: _ :: p2 :: _ =>
      let rec_id := py_strip p2 in
      if bool_decide (rec_id = []) then None else Some rec_id
    | _ => None
    end.

(** ** The id allocator

    [random.choice] is an oracle: [rnd k] is the index the [k]-th call
    picks. A candidate uses sixteen calls. *)

Definition alphabet : pystr :=
  txt "abcdefghijklmnopqrstuvwxyzABCDEFGHIJKLMNOPQRSTUVWXYZ0123456789".

Definition candidate (rnd : nat → nat) (pos : nat) : pystr :=
  map (λ i, nth (rnd (pos + i) mod 62) alphabet 0%N) (seq 0 16).

(** [_random_id(used_ids)]: the id, and the position of the oracle after
    it. [OutOfFuel] stands for a loop that has not ended yet. *)
Fixpoint _random_id (fuel : nat) (rnd : nat → nat) (pos : nat)
    (used_ids : gset pystr) : res (pystr * nat) :=
  match fuel with
  | O => Raise OutOfFuel
  | S fuel =>
    let c := candidate rnd pos in
    if bool_decide (c ∈ used_ids) then _random_id fuel rnd (pos + 16) used_ids
    else Ok (c, pos + 16)
  end.

(** The [stats] dictionary after the call (the boolean it returns is not
    used by the callers). *)
Definition _replace_compendium_source_id (stats : pydict) (new_id : pystr)
  : pydict :=
  match dict_get (txt "compendiumSource") stats with
  | Some (JStr source) =>
    if bool_decide (source = []) then stats
    else
      match rsplit1 [46%N] source with
      | Some (before, _) =>
        dict_set (txt "compendiumSource") (JStr (before ++ [46%N] ++ new_id)) stats
      | None => dict_set (txt "compendiumSource") (JStr new_id) stats
      end
  | _ => stats
  end.

(** [value["_id"] = new_id], and the back-reference in [value["_stats"]]
    (the dictionary is shared, so the change shows in [value]). *)
Definition stamp_id (d : pydict) (new_id : pystr) : pydict :=
  let d1 := dict_set (txt "_id") (JStr new_id) d in
  match dict_get (txt "_stats") d1 with
  | Some (JObj stats) =>
    dict_set (txt "_stats") (JObj (_replace_compendium_source_id stats new_id)) d1
  | _ => d1
  end.

Definition ends_with (suffix s : pystr) : bool :=
  startswith (reverse suffix) (reverse s).

(** [sorted(db_out_dir.rglob("*.json"))], relative to the directory. *)
Definition rglob_json (fs : gmap path node) : list path :=
  merge_sort (λ a b, Is_true (path_leb a b))
    (filter (λ p, Is_true (ends_with (txt ".json") (path_name p)))
            (elements (dom fs))).

Definition is_new_entry (known_paths : gset pystr) (rel : path) : bool :=
  negb (length rel <=? 1)%nat
  && negb (bool_decide (path_name rel ∈ _excluded_json_names))
  && negb (bool_decide (path_str rel ∈ known_paths))
  && match _infer_root_from_path rel with
     | Some root => negb (bool_decide (root = []))
     | None => false
     end.

Definition _record_files_for_new_entries (fs : gmap path node)
    (known_paths : gset pystr) : list path :=
  filter (λ p, Is_true (is_new_entry known_paths p)) (rglob_json fs).

(** ** Manifest *)

Definition dicts_of (l : list json) : list pydict :=
  omap (λ x, match x with JObj d => Some d | _ => None end) l.

Definition _load_manifest (fs : gmap path node) : res (list pydict * pydict) :=
  if negb (fs_exists fs [txt "manifest.json"]) then Ok ([], [])
  else
    data ← _read_json fs [txt "manifest.json"];
    match data with
    | JArr items => Ok (dicts_of items, [])
    | JObj d =>
      let records :=
        match dict_get (txt "records") d with
        | Some (JArr items) => items
        | _ => []
        end in
      let leveldb_meta :=
        match dict_get (txt "leveldb_meta") d with
        | Some (JObj m) => m
        | _ => []
        end in
      Ok (dicts_of records, leveldb_meta)
    | _ => Ok ([], [])
    end.

Fixpoint _build_known_records (fs : gmap path node) (manifest : list pydict)
  : res (list (pystr * bytes) * list event) :=
  match manifest with
  | [] => Ok ([], [])
  | item :: items =>
    match dict_get (txt "key") item, dict_get (txt "path") item with
    | Some (JStr key), Some (JStr rel_path) =>
      match rel_of_str rel_path with
      | None => Raise Unmodelled
      | Some value_path =>
        if negb (fs_exists fs value_path) then
          '(records, log) ← _build_known_records fs items;
          Ok (records, SkippingMissingRecordFile rel_path :: log)
        else
          value ← _read_json fs value_path;
          encoded ← _encode_value value;
          '(records, log) ← _build_known_records fs items;
          Ok ((key, encoded) :: records, log)
      end
    | _, _ => _build_known_records fs items
    end
  end.

(** ** New records *)

(** The state one rebuild pass threads through the new-record scan: the
    output tree, the ids in use, the position of the random oracle, what was
    printed, and (for the statements only) the ids the allocator returned. *)
Record state : Type := {
  st_fs : gmap path node;
  st_used : gset pystr;
  st_pos : nat;
  st_log : list event;
  st_allocated : list pystr;
}.

(** [path.rename(new_path)]. *)
Definition rename (fs : gmap path node) (old new : path) : res (gmap path node) :=
  match fs !! old with
  | Some n => Ok (<[new := n]> (delete old fs))
  | None => Raise FileNotFoundError
  end.

(** The first part of the loop body of [_build_new_records]: a file whose
    name carries no id is renamed to embed a fresh one. Returns the
    generated id if any, and the path of the file afterwards. *)
Definition assign_file_id (fuel : nat) (rnd : nat → nat) (p : path)
    (value : json) (st : state) : res (option pystr * path * state) :=
  if negb (_filename_has_id p) then
    '(generated_id, pos) ← _random_id fuel rnd (st_pos st) (st_used st);
    let new_path :=
      with_name p (path_stem p ++ txt "__" ++ generated_id ++ path_suffix p) in
    fs1 ← rename (st_fs st) p new_path;
    Ok (Some generated_id, new_path,
        {| st_fs := fs1;
           st_used := {[ generated_id ]} ∪ st_used st;
           st_pos := pos;
           st_log := st_log st
             ++ [AppendedGeneratedId (_record_title value (path_stem new_path))];
           st_allocated := st_allocated st ++ [generated_id] |})
  else Ok (None, p, st).

(** The second part: an object gets the generated id, and a fresh one when
    its id is still missing or blank. Returns the value afterwards and
    whether an id was created. *)
Definition assign_value_id (fuel : nat) (rnd : nat → nat) (value : json)
    (generated_id : option pystr) (rel : path) (st : state)
  : res (json * bool * state) :=
  match value with
  | JObj d =>
    let d1 := match generated_id with
              | Some g => stamp_id d g
              | None => d
              end in
    let blank :=
      match dict_get (txt "_id") d1 with
      | Some (JStr current_id) => bool_decide (py_strip current_id = [])
      | _ => true
      end in
    if blank then
      '(created_id, pos) ← _random_id fuel rnd (st_pos st) (st_used st);
      let d2 := stamp_id d1 created_id in
      Ok (JObj d2, true,
          {| st_fs := st_fs st;
             st_used := {[ created_id ]} ∪ st_used st;
             st_pos := pos;
             st_log := st_log st
               ++ [CreatedId (_record_title (JObj d2) (path_stem rel))];
             st_allocated := st_allocated st ++ [created_id] |})
    else Ok (JObj d1, false, st)
  | _ => Ok (value, false, st)
  end.

(** The body of the loop of [_build_new_records] for one file. *)
Definition new_record (fuel : nat) (rnd : nat → nat) (p : path) (st : state)
  : res (option (pystr * bytes) * state) :=
  value ← _read_json (st_fs st) p;
  match _infer_root_from_path p with
  | None | Some [] => Ok (None, st)
  | Some root =>
    '(generated_id, rel, st1) ← assign_file_id fuel rnd p value st;
    '(value2, created, st2) ← assign_value_id fuel rnd value generated_id rel st1;
    let changed := bool_decide (is_Some generated_id) || created in
    fs3 ← (if changed then _write_json (st_fs st2) rel value2 else Ok (st_fs st2));
    let rec_id := _infer_id value2 rel in
    let key := txt "!" ++ root ++ txt "!" ++ rec_id in
    encoded ← _encode_value value2;
    Ok (Some (key, encoded),
        {| st_fs := fs3;
           st_used := {[ rec_id ]} ∪ st_used st2;
           st_pos := st_pos st2;
           st_log := st_log st2;
           st_allocated := st_allocated st2 |})
  end.

Fixpoint new_records_loop (fuel : nat) (rnd : nat → nat) (files : list path)
    (st : state) : res (list (pystr * bytes) * state) :=
  match files with
  | [] => Ok ([], st)
  | p :: files' =>
    '(r, st1) ← new_record fuel rnd p st;
    '(records, st2) ← new_records_loop fuel rnd files' st1;
    Ok (match r with Some kv => kv :: records | None => records end, st2)
  end.

Definition _build_new_records (fuel : nat) (rnd : nat → nat)
    (known_paths : gset pystr) (st : state)
  : res (list (pystr * bytes) * state) :=
  new_records_loop fuel rnd
    (_record_files_for_new_entries (st_fs st) known_paths) st.

(** ** Merge and difference *)

(** The two loops that fill [merged] in [rebuild_all]. *)
Definition merge_records (known_records new_records : list (pystr * bytes))
  : gmap pystr bytes :=
  let merged := foldl (λ m kv, <[kv.1 := kv.2]> m) ∅ known_records in
  foldl (λ m kv, <[kv.1 := kv.2]> m) merged new_records.

Definition known_paths_of (manifest : list pydict) : gset pystr :=
  list_to_set
    (omap (λ item, match dict_get (txt "path") item with
                   | Some (JStr s) => Some s
                   | _ => None
                   end) manifest).

Definition used_ids_of (manifest : list pydict) : gset pystr :=
  list_to_set
    (omap (λ item, match dict_get (txt "key") item with
                   | Some (JStr key) => _extract_id_from_key key
                   | _ => None
                   end) manifest).

(** The body of the loop of [rebuild_all] for one store, up to the merged
    mapping that is written to the fresh database. *)
Definition rebuild_store (fuel : nat) (rnd : nat → nat) (pos : nat)
    (fs : gmap path node)
  : res (gmap pystr bytes * list event * state) :=
  '(manifest, leveldb_meta) ← _load_manifest fs;
  let known_paths := known_paths_of manifest in
  let used_ids := used_ids_of manifest in
  '(known_records, log) ← _build_known_records fs manifest;
  '(new_records, st) ←
    _build_new_records fuel rnd known_paths
      {| st_fs := fs; st_used := used_ids; st_pos := pos;
         st_log := log; st_allocated := [] |};
  let warning :=
    match dict_get (txt "comparator") leveldb_meta with
    | Some (JStr c) =>
      if negb (bool_decide (c = []))
         && negb (bool_decide (c = txt "leveldb.BytewiseComparator"))
      then [ComparatorWarning c] else []
    | _ => []
    end in
  Ok (merge_records known_records new_records, st_log st ++ warning, st).


(** [allocates st st' new]: between the states [st] and [st'] the allocator
    returned the ids [new], each absent from the ids in use when it was
    drawn and in use afterwards. *)
Definition allocates (st st' : state) (new : list pystr) : Prop :=
  st_allocated st' = st_allocated st ++ new
  ∧ NoDup new
  ∧ (∀ id, id ∈ new → id ∉ st_used st)
  ∧ (∀ id, id ∈ new → id ∈ st_used st')
  ∧ st_used st ⊆ st_used st'.


(** The value the last pair of [l] binds [k] to. *)
Definition last_binding {V : Type} (k : pystr) (l : list (pystr * V)) : option V :=
  dict_get k (reverse l).




End defs.

End Rebuild.

(** * Notions used in the statements about file names and keys *)

Section names.
Context `{UnicodeDB}.

(** A character that [_safe_name] keeps. *)
Definition safe_char (c : N) : bool := isalnum c || (c =? 45)%N || (c =? 95)%N.

(** A name in which [_safe_name] finds nothing to change: not empty, made of
    kept characters, with no underscore at either end. *)
Definition is_safe_name (s : pystr) : Prop :=
  s ≠ [] ∧ Forall (λ c, safe_char c = true) s
  ∧ head s ≠ Some 95%N ∧ last s ≠ Some 95%N.

End names.

(** * The indented serialisation, cut as the scanner reads it *)

(** What [json_dumps_indent] writes after the first item of a list at
    nesting [level], and after the first field of an object. *)
Fixpoint dumps_indent_tail (level : nat) (l : list json) : pystr :=
  match l with
  | [] => newline_indent level ++ [93%N]
  | y :: l' =>
    44%N :: newline_indent (S level)
      ++ json_dumps_indent (S level) y ++ dumps_indent_tail level l'
  end.

Fixpoint dumps_indent_fields_tail (level : nat) (l : list (pystr * json)) : pystr :=
  match l with
  | [] => newline_indent level ++ [125%N]
  | (k, y) :: l' =>
    44%N :: newline_indent (S level) ++ quote k ++ [58; 32]%N
      ++ json_dumps_indent (S level) y ++ dumps_indent_fields_tail level l'
  end.

(** Text that ends a value of an indented document: nothing, a comma, a
    closing bracket or a line break. *)
Definition delimited_ws (rest : pystr) : Prop :=
  match rest with
  | [] => True
  | c :: _ => c = 44%N ∨ c = 93%N ∨ c = 125%N ∨ c = 10%N
  end.

(** [v] is read back from its indented serialisation at every nesting
    level. *)
Definition reads_back_indent (v : json) : Prop :=
  ∀ level fuel rest, json_size v ≤ fuel → delimited_ws rest →
    parse_value fuel (json_dumps_indent level v ++ rest) = Ok (v, rest).

(** * compare_leveldb_keys.py *)

Module Compare.

Definition _extract_id (key_text : pystr) : pystr :=
  if startswith (txt "!") key_text then
    match split_on 33 key_text with
    | _ :: _ :: p2 :: _ => p2
    | _ => []
    end
  else [].

End Compare.

(** * What one folder record adds to the folder index *)

(** The entry that [_build_folder_index] stores for a record: none for a
    record without a payload or without an id. *)
Definition folder_entry (r : Dump.record) : res (option (pystr * pydict)) :=
  match Dump._folder_payload r with
  | None | Some [] => Ok None
  | Some payload =>
    folder_id ← Dump.folder_id_of payload r;
    if bool_decide (folder_id = []) then Ok None else Ok (Some (folder_id, payload))
  end.

(** The entries of the records, in the order of the records, and their
    ids. *)
Definition folder_entries (records : list Dump.record) : list (pystr * pydict) :=
  omap (λ r, match folder_entry r with
             | Ok (Some e) => Some e
             | _ => None
             end) records.

Definition folder_ids (records : list Dump.record) : list pystr :=
  (folder_entries records).*1.

(** * dump_leveldb_to_json.py: what the dump writes

    The files of one store's output directory, as the tree that the rebuild
    reads. Paths are relative to that directory, and the roots of the
    records are single path components, as [_extract_records] makes them. *)

Module DumpFiles.

Section defs.
Context `{UnicodeDB}.

(** The directories above [p], outermost first. *)
Definition ancestors (p : path) : list path :=
  (λ n, take n p) <$> seq 1 (length p - 1).

(** [path.parent.mkdir(parents=True, exist_ok=True)]. A file in the place
    of one of the directories makes it fail with an error that this model
    does not name. *)
Definition mkdir_parents (fs : gmap path Rebuild.node) (p : path)
  : res (gmap path Rebuild.node) :=
  if forallb (λ d, match fs !! d with
                   | Some (Rebuild.File _) => false
                   | _ => true
                   end) (ancestors p)
  then Ok (foldr (λ d fs', <[d := Rebuild.Dir]> fs') fs (ancestors p))
  else Raise Unmodelled.

Definition _write_json (fs : gmap path Rebuild.node) (p : path) (data : json)
  : res (gmap path Rebuild.node) :=
  fs1 ← mkdir_parents fs p;
  match fs1 !! p with
  | Some Rebuild.Dir => Raise IsADirectoryError
  | _ =>
    raw ← utf8_encode (json_dumps_indent 0 data);
    Ok (<[p := Rebuild.File raw]> fs1)
  end.

(** The dictionaries that the dump serialises. *)
Definition record_json (r : Dump.record) : json :=
  JObj [(txt "root", JStr (Dump.rec_root r)); (txt "id", JStr (Dump.rec_id r));
        (txt "key", Dump.rec_key r); (txt "value", Dump.rec_value r)].

Definition folder_row_json (row : Dump.folder_row) : json :=
  JObj [(txt "id", JStr (Dump.fr_id row));
        (txt "name", default JNull (Dump.fr_name row));
        (txt "parent_id", default JNull (Dump.fr_parent_id row));
        (txt "path", JStr (Dump.fr_path row));
        (txt "type", default JNull (Dump.fr_type row))].

Definition manifest_row_json (m : Dump.manifest_row) : json :=
  JObj [(txt "key", Dump.m_key m); (txt "root", JStr (Dump.m_root m));
        (txt "id", JStr (Dump.m_id m)); (txt "path", JStr (Dump.m_path m))].

Definition manifest_json (leveldb_meta : pydict)
    (manifest : list Dump.manifest_row) : json :=
  JObj [(txt "schema_version", JInt 2); (txt "leveldb_meta", JObj leveldb_meta);
        (txt "records", JArr (manifest_row_json <$> manifest))].

(** The second loop of [_place_records], with the record files it writes. *)
Fixpoint place_loop (fuel : nat) (records : list Dump.record)
    (folder_by_id : gmap pystr pydict) (memo : gmap pystr path)
    (fs : gmap path Rebuild.node)
  : res (list Dump.manifest_row * gmap path Rebuild.node) :=
  match records with
  | [] => Ok ([], fs)
  | r :: rs =>
    '(rel_dir, memo1) ← Dump.record_dir fuel r folder_by_id memo;
    let rel_path := rel_dir ++ [Dump.record_file_name r] in
    fs1 ← _write_json fs rel_path (Dump.rec_value r);
    '(rows, fs2) ← place_loop fuel rs folder_by_id memo1 fs1;
    Ok ({| Dump.m_key := Dump.rec_key r; Dump.m_root := Dump.rec_root r;
           Dump.m_id := Dump.record_id r;
           Dump.m_path := path_str rel_path |} :: rows, fs2)
  end.

(** The keys of [grouped], sorted. *)
Definition grouped_roots (records : list Dump.record) : list pystr :=
  merge_sort (λ a b, Is_true (pystr_leb a b))
    (elements (list_to_set (Dump.rec_root <$> records) : gset pystr)).

Definition grouped_rows (root : pystr) (records : list Dump.record) : json :=
  JArr (record_json <$> filter (λ r, Dump.rec_root r = root) records).

(** The last loop of [_place_records]: one file per root. *)
Fixpoint write_grouped (roots : list pystr) (records : list Dump.record)
    (fs : gmap path Rebuild.node) : res (gmap path Rebuild.node) :=
  match roots with
  | [] => Ok fs
  | root :: roots' =>
    fs1 ← _write_json fs [root ++ txt ".json"] (grouped_rows root records);
    write_grouped roots' records fs1
  end.

Definition _place_records (fuel : nat) (fs : gmap path Rebuild.node)
    (records : list Dump.record) (leveldb_meta : pydict)
  : res (gmap path Rebuild.node) :=
  let folder_records :=
    filter (λ r, Dump.rec_root r = txt "folders") records in
  folder_by_id ← Dump._build_folder_index folder_records ∅;
  '(folder_manifest, folder_paths) ←
    Dump.resolve_folders fuel (Dump.sorted_ids folder_by_id) folder_by_id ∅;
  fs1 ← _write_json fs [txt "folders.json"]
          (JArr (folder_row_json <$> folder_manifest));
  '(manifest, fs2) ← place_loop fuel records folder_by_id folder_paths fs1;
  fs3 ← _write_json fs2 [txt "manifest.json"] (manifest_json leveldb_meta manifest);
  write_grouped (grouped_roots records) records fs3.

(** The body of the loop of [dump_all] for one database directory, given
    its entries and the metadata read from it. *)
Definition dump_store (fuel : nat) (fs : gmap path Rebuild.node)
    (entries : list (bytes * bytes)) (parse_json_values : bool)
    (leveldb_meta : pydict) : res (gmap path Rebuild.node) :=
  records ← Dump._extract_records entries parse_json_values;
  fs1 ← _write_json fs [txt "full.json"] (JArr (record_json <$> records));
  _place_records fuel fs1 records leveldb_meta.

End defs.

End DumpFiles.

(** * What a rebuild takes from a dump *)

(** The records of a dump whose key is text, with their values: the rows of
    the manifest that [_build_known_records] does not pass over. *)
Definition text_records (records : list Dump.record) : list (pystr * json) :=
  omap (λ r, match Dump.rec_key r with
             | JStr key => Some (key, Dump.rec_value r)
             | _ => None
             end) records.

(** [_encode_value] of each value, in order. *)
Definition encode_records (l : list (pystr * json)) : res (list (pystr * bytes)) :=
  mapM (λ kv : pystr * json,
          encoded ← Rebuild._encode_value kv.2; Ok (kv.1, encoded)) l.

(** The store entries whose key is text, under that text. *)
Definition text_entries (entries : list (bytes * bytes)) : list (pystr * bytes) :=
  omap (λ kv : bytes * bytes,
          match utf8_decode kv.1 with
          | Some text => Some (text, kv.2)
          | None => None
          end) entries.

(** A row of the manifest of a dump, as the dictionary that [json.loads]
    makes of it. *)
Definition row_dict (m : Dump.manifest_row) : pydict :=
  [(txt "key", Dump.m_key m); (txt "root", JStr (Dump.m_root m));
   (txt "id", JStr (Dump.m_id m)); (txt "path", JStr (Dump.m_path m))].

(** * Example inputs *)

(** The double quote, for JSON texts. *)
Definition dq : pystr := [34%N].

Definition folder_payload (id : string) (parent : option string) : pydict :=
  [(txt "_id", JStr (txt id)); (txt "name", JStr (txt id))]
  ++ match parent with
     | Some pid => [(txt "folder", JStr (txt pid))]
     | None => []
     end.

(** Three folders: [C] lies in [B], [B] in [A]. *)
Definition chain_index : gmap pystr pydict :=
  <[txt "A" := folder_payload "A" None]>
    (<[txt "B" := folder_payload "B" (Some "A")]>
       (<[txt "C" := folder_payload "C" (Some "B")]> ∅)).

(** Two folders, each the parent of the other. *)
Definition cyclic_index : gmap pystr pydict :=
  <[txt "A" := folder_payload "A" (Some "B")]>
    (<[txt "B" := folder_payload "B" (Some "A")]> ∅).

Definition two_key_dict : pydict :=
  [(txt "base64", JStr (txt "AAAA")); (txt "kind", JInt 1)].

(** The JSON text of an object with the one field ["name"]. *)
Definition named (name : string) : pystr :=
  txt "{" ++ dq ++ txt "name" ++ dq ++ txt ":" ++ dq ++ txt name ++ dq ++ txt "}".

(** Two store entries whose keys differ after the id. *)
Definition same_id_entries : list (bytes * bytes) :=
  [(map to_byte (txt "!items!i1"), map to_byte (named "Sword"));
   (map to_byte (txt "!items!i1!x"), map to_byte (named "Sword"))].

Definition plain_record (id name : string) : Dump.record :=
  {| Dump.rec_root := txt "items"; Dump.rec_id := txt id;
     Dump.rec_key := JStr (txt "!items!" ++ txt id);
     Dump.rec_value := JObj [(txt "name", JStr (txt name))] |}.

Definition two_swords : list Dump.record :=
  [plain_record "i1" "Sword"; plain_record "i2" "Sword"].

(** An output tree with one record file, and a manifest that lists it and
    a second file that is not there. *)
Definition sword_tree : gmap path Rebuild.node :=
  {[ [txt "items"; txt "Sword__i1.json"] := Rebuild.File (map to_byte (named "Sword")) ]}.

Definition manifest_row (key rel_path : string) : pydict :=
  [(txt "key", JStr (txt key)); (txt "root", JStr (txt "items"));
   (txt "id", JStr (txt "i")); (txt "path", JStr (txt rel_path))].


(** An output tree after an edit: the manifest lists one record file, whose
    id is the first candidate of the oracle below, and a new file without
    an id was added beside it. *)
Definition edited_tree : gmap path Rebuild.node :=
  <[ [txt "manifest.json"] :=
       Rebuild.File (map to_byte (json_dumps
         (JArr [JObj (manifest_row "!items!abcdefghijklmnop"
                                   "items/Old__abcdefghijklmnop.json")]))) ]>
  (<[ [txt "items"; txt "Old__abcdefghijklmnop.json"] :=
        Rebuild.File (map to_byte (named "Old")) ]>
  (<[ [txt "items"; txt "New.json"] :=
        Rebuild.File (map to_byte (named "New")) ]> ∅)).

(** An oracle that picks the letters of the alphabet in turn. *)
Definition in_turn : nat → nat := λ k, k.

Definition edited_state : Rebuild.state :=
  {| Rebuild.st_fs := edited_tree; Rebuild.st_used := ∅; Rebuild.st_pos := 0;
     Rebuild.st_log := []; Rebuild.st_allocated := [] |}.


(** One folder that names itself as parent, and one whose parent is not in
    the index. *)
Definition loner_index : gmap pystr pydict :=
  <[txt "A" := folder_payload "A" (Some "A")]>
    (<[txt "B" := folder_payload "B" (Some "Z")]> ∅).

(** The depth of a folder of [chain_index]. *)
Definition chain_rank (id : pystr) : nat :=
  if decide (id = txt "A") then 0 else if decide (id = txt "B") then 1 else 2.

(** The store record of a folder. *)
Definition folder_record (id : string) (parent : option string) : Dump.record :=
  {| Dump.rec_root := txt "folders"; Dump.rec_id := txt id;
     Dump.rec_key := JStr (txt "!folders!" ++ txt id);
     Dump.rec_value := JObj (folder_payload id parent) |}.

(** A store with one folder and one item that lies in it. *)
Definition folder_store : list (bytes * bytes) :=
  [(map to_byte (txt "!folders!A"), map to_byte (named "A"));
   (map to_byte (txt "!items!i1"),
    map to_byte (txt "{" ++ dq ++ txt "name" ++ dq ++ txt ":" ++ dq ++ txt "Sword" ++ dq
                 ++ txt "," ++ dq ++ txt "folder" ++ dq ++ txt ":" ++ dq ++ txt "A" ++ dq
                 ++ txt "}"))].

(** A store with one entry whose root is [manifest]. *)
Definition manifest_store : list (bytes * bytes) :=
  [(map to_byte (txt "!manifest!m1"), map to_byte (named "M"))].

(** An output tree with one record file that is in no manifest and carries
    its id in its name and in its value. *)
Definition complete_tree : gmap path Rebuild.node :=
  {[ [txt "items"; txt "Sword__i1.json"] :=
       Rebuild.File (map to_byte (txt "{" ++ dq ++ txt "_id" ++ dq ++ txt ":"
                                  ++ dq ++ txt "i1" ++ dq ++ txt "}")) ]}.

(** * Properties *)

(** ** General facts about [res] and dictionaries *)

Lemma res_is_ok {A : Type} (m : res A) : is_ok m = true → ∃ a, m = Ok a.
Proof. destruct m as [a|e]; [eauto | discriminate]. Qed.

Lemma bind_Ok {A B : Type} (m : res A) (f : A → res B) (b : B) :
  m ≫= f = Ok b ↔ ∃ a, m = Ok a ∧ f a = Ok b.
Proof.
  destruct m as [a|e]; simpl; split.
  - intros Hf. exists a. split; [reflexivity | exact Hf].
  - intros (a' & Ha & Hf). injection Ha as ->. exact Hf.
  - intros Hf. discriminate Hf.
  - intros (a' & Ha & _). discriminate Ha.
Qed.

Lemma dict_get_app {V : Type} (k : pystr) (l1 l2 : list (pystr * V)) :
  dict_get k (l1 ++ l2)
  = match dict_get k l1 with Some v => Some v | None => dict_get k l2 end.
Proof.
  induction l1 as [|[k' v'] l1 IH]; simpl; [reflexivity|].
  destruct (decide (k = k')); [reflexivity | exact IH].
Qed.

Lemma dict_get_None {V : Type} (k : pystr) (l : list (pystr * V)) :
  dict_get k l = None ↔ k ∉ l.*1.
Proof.
  induction l as [|[k' v'] l IH]; simpl.
  - split; [intros _; apply not_elem_of_nil | reflexivity].
  - rewrite not_elem_of_cons. destruct (decide (k = k')) as [->|Hne].
    + split; [discriminate | intros [Hk _]; contradiction].
    + rewrite IH. tauto.
Qed.

(** A dictionary whose key set is one key has one entry. *)
Lemma keys_singleton (d : pydict) (k : pystr) :
  NoDup (dict_keys d) →
  list_to_set (dict_keys d) = ({[ k ]} : gset pystr) →
  ∃ v, d = [(k, v)].
Proof.
  unfold dict_keys. destruct d as [|[k1 v1] d]; simpl; intros Hnd Hset.
  - exfalso. apply (not_elem_of_empty (C := gset pystr) k).
    rewrite Hset. apply elem_of_singleton. reflexivity.
  - assert (Hk1 : k1 = k).
    { apply (elem_of_singleton (C := gset pystr)). rewrite <- Hset.
      apply elem_of_union_l, elem_of_singleton. reflexivity. }
    subst k1. destruct d as [|[k2 v2] d]; [eauto|]. exfalso.
    assert (Hk2 : k2 = k).
    { apply (elem_of_singleton (C := gset pystr)). rewrite <- Hset. simpl.
      apply elem_of_union_r, elem_of_union_l, elem_of_singleton. reflexivity. }
    subst k2. simpl in Hnd. apply NoDup_cons in Hnd as [Hnotin _].
    apply Hnotin. left.
Qed.

(** ** The base64 wrapper test (rebuild) *)

Lemma looks_like_base64_wrapper_spec (v : json) :
  match v with JObj d => NoDup (dict_keys d) | _ => True end →
  Rebuild._looks_like_base64_wrapper v = true
  ↔ ∃ s, v = JObj [(txt "base64", JStr s)].
Proof.
  intros Hwf. split.
  - destruct v as [ | | | |l|d]; simpl; try discriminate.
    intros Hw. apply andb_prop in Hw as [Hkeys Hval].
    apply bool_decide_eq_true in Hkeys.
    destruct (keys_singleton d _ Hwf Hkeys) as [x ->].
    simpl in Hval. destruct x; try discriminate. eauto.
  - intros [s ->]. reflexivity.
Qed.

(** C9. [_encode_value] base64-decodes exactly the dictionaries whose one key
    is ["base64"] with a string under it; any other dictionary (more keys, or
    a value that is no string) is serialised compactly and UTF-8 encoded, and
    so is any other value that is not a plain string. *)
Theorem encode_value_base64_strict (v : json) :
  match v with JObj d => NoDup (dict_keys d) | _ => True end →
  (∀ s, v = JObj [(txt "base64", JStr s)] →
        Rebuild._encode_value v = b64decode s)
  ∧ ((∀ s, v ≠ JObj [(txt "base64", JStr s)]) →
     Rebuild._looks_like_base64_wrapper v = false
     ∧ Rebuild._encode_value v
       = match v with
         | JStr t => utf8_encode t
         | _ => utf8_encode (json_dumps v)
         end).
Proof.
  intros Hwf. split.
  - intros s ->. reflexivity.
  - intros Hnot.
    assert (Hw : Rebuild._looks_like_base64_wrapper v = false).
    { destruct (Rebuild._looks_like_base64_wrapper v) eqn:Hw; [|reflexivity].
      apply (looks_like_base64_wrapper_spec v Hwf) in Hw as [s ->].
      exfalso. exact (Hnot s eq_refl). }
    split; [exact Hw|]. unfold Rebuild._encode_value. rewrite Hw.
    destruct v; reflexivity.
Qed.

Lemma encode_value_base64_strict_witness :
  Rebuild._encode_value (JObj two_key_dict)
  = utf8_encode (json_dumps (JObj two_key_dict)).
Proof.
  assert (Hnd : NoDup (dict_keys two_key_dict)).
  { apply (bool_decide_unpack _). vm_compute. exact I. }
  apply (proj2 (encode_value_base64_strict (JObj two_key_dict) Hnd)).
  intros s Hs. discriminate Hs.
Defined.

(** ** Merge precedence (rebuild) *)

Lemma foldl_insert_lookup (l : list (pystr * bytes)) (m : gmap pystr bytes)
    (k : pystr) :
  foldl (λ m kv, <[kv.1 := kv.2]> m) m l !! k
  = match Rebuild.last_binding k l with
    | Some v => Some v
    | None => m !! k
    end.
Proof.
  revert m. induction l as [|[k' v'] l IH]; intros m; simpl.
  - reflexivity.
  - rewrite IH. unfold Rebuild.last_binding. rewrite reverse_cons, dict_get_app.
    destruct (dict_get k (reverse l)) as [v|]; [reflexivity|]. simpl.
    destruct (decide (k = k')) as [->|Hne].
    + apply lookup_insert_eq.
    + apply lookup_insert_ne. congruence.
Qed.

(** What the merged mapping holds under every key. *)
Lemma merge_records_lookup (known new : list (pystr * bytes)) (k : pystr) :
  Rebuild.merge_records known new !! k
  = match Rebuild.last_binding k new with
    | Some v => Some v
    | None => Rebuild.last_binding k known
    end.
Proof.
  unfold Rebuild.merge_records. rewrite !foldl_insert_lookup, lookup_empty.
  destruct (Rebuild.last_binding k new); [reflexivity|].
  destruct (Rebuild.last_binding k known); reflexivity.
Qed.

Lemma last_binding_split {V : Type} (k : pystr) (v : V)
    (l1 l2 : list (pystr * V)) :
  k ∉ l2.*1 → Rebuild.last_binding k (l1 ++ (k, v) :: l2) = Some v.
Proof.
  intros Hnotin. unfold Rebuild.last_binding.
  rewrite reverse_app, reverse_cons, <- app_assoc, dict_get_app.
  assert (Hnone : dict_get k (reverse l2) = None).
  { apply dict_get_None. rewrite fmap_reverse, elem_of_reverse. exact Hnotin. }
  rewrite Hnone. simpl. destruct (decide (k = k)); [reflexivity | contradiction].
Qed.



(** ** Folder-path resolution (dump) *)

Section folder_paths.
Context `{UnicodeDB}.

Lemma compute_folder_path_unfold (fuel : nat) (folder_id : pystr)
    (idx : gmap pystr pydict) (memo : gmap pystr path) :
  Dump._compute_folder_path (S fuel) folder_id idx memo
  = match memo !! folder_id with
    | Some p => Ok (Some p, memo)
    | None =>
      match idx !! folder_id with
      | None | Some [] => Ok (None, memo)
      | Some folder =>
        name ← Dump.folder_name folder_id folder;
        match Dump.parent_link folder_id folder idx with
        | Some parent_id =>
          '(parent, memo1) ← Dump._compute_folder_path fuel parent_id idx memo;
          match parent with
          | None => Ok (Some [name], <[folder_id := [name]]> memo1)
          | Some p => Ok (Some (p ++ [name]), <[folder_id := p ++ [name]]> memo1)
          end
        | None => Ok (Some [name], <[folder_id := [name]]> memo)
        end
      end
    end.
Proof. reflexivity. Qed.

Lemma memo_consistent_empty (idx : gmap pystr pydict) :
  Dump.memo_consistent idx ∅.
Proof. intros id p Hp. rewrite lookup_empty in Hp. discriminate Hp. Qed.

Lemma memo_consistent_insert (idx : gmap pystr pydict) (memo : gmap pystr path)
    (id : pystr) (p : path) :
  Dump.memo_consistent idx memo → Dump.resolves idx id p →
  Dump.memo_consistent idx (<[id := p]> memo).
Proof.
  intros Hmemo Hres id' p' Hlook.
  destruct (decide (id = id')) as [<-|Hne].
  - rewrite lookup_insert_eq in Hlook. injection Hlook as <-. exact Hres.
  - rewrite lookup_insert_ne in Hlook by exact Hne. exact (Hmemo _ _ Hlook).
Qed.

Lemma resolves_in_index (idx : gmap pystr pydict) (id : pystr) (p : path) :
  Dump.resolves idx id p → ∃ folder, idx !! id = Some folder ∧ folder ≠ [].
Proof. intros Hres. destruct Hres; eauto. Qed.

(** The path of a folder is determined by the index alone. *)
Lemma resolves_functional (idx : gmap pystr pydict) (id : pystr) (p q : path) :
  Dump.resolves idx id p → Dump.resolves idx id q → p = q.
Proof.
  intros Hp. revert q.
  induction Hp as [id f n Hf Hne Hn Hl | id f n pid Hf Hne Hn Hl Hpar
                  | id f n pid p Hf Hne Hn Hl Hp IH];
    intros q Hq;
    destruct Hq as [id f' n' Hf' Hne' Hn' Hl' | id f' n' pid' Hf' Hne' Hn' Hl' Hpar'
                   | id f' n' pid' p' Hf' Hne' Hn' Hl' Hp'];
    rewrite Hf in Hf'; injection Hf' as <-;
    rewrite Hn in Hn'; injection Hn' as <-;
    rewrite Hl in Hl'; try discriminate Hl'; try reflexivity;
    injection Hl' as <-.
  - destruct (resolves_in_index _ _ _ Hp') as (g & Hg & Hgne).
    rewrite Hpar in Hg. injection Hg as <-. contradiction.
  - destruct (resolves_in_index _ _ _ Hp) as (g & Hg & Hgne).
    rewrite Hpar' in Hg. injection Hg as <-. contradiction.
  - rewrite (IH _ Hp'). reflexivity.
Qed.

(** A call that returns keeps the memo consistent and returns the path of
    the folder, or nothing for an id that the index does not hold. *)
Lemma compute_folder_path_sound (fuel : nat) :
  ∀ (id : pystr) (idx : gmap pystr pydict) (memo memo' : gmap pystr path)
    (r : option path),
    Dump._compute_folder_path fuel id idx memo = Ok (r, memo') →
    Dump.memo_consistent idx memo →
    Dump.memo_consistent idx memo'
    ∧ match r with
      | Some p => Dump.resolves idx id p
      | None => idx !! id = None ∨ idx !! id = Some []
      end.
Proof.
  induction fuel as [|fuel IH]; intros id idx memo memo' r Hrun Hmemo.
  - discriminate Hrun.
  - rewrite compute_folder_path_unfold in Hrun.
    destruct (memo !! id) as [p|] eqn:Hm.
    { injection Hrun as <- <-. split; [exact Hmemo | exact (Hmemo _ _ Hm)]. }
    destruct (idx !! id) as [[|kv folder]|] eqn:Hidx.
    { injection Hrun as <- <-. split; [exact Hmemo | right; reflexivity]. }
    2:{ injection Hrun as <- <-. split; [exact Hmemo | left; reflexivity]. }
    apply bind_Ok in Hrun as (name & Hname & Hrun).
    destruct (Dump.parent_link id (kv :: folder) idx) as [pid|] eqn:Hlink.
    + apply bind_Ok in Hrun as ([parent memo1] & Hrec & Hrun).
      destruct (IH _ _ _ _ _ Hrec Hmemo) as [Hmemo1 Hparent].
      destruct parent as [p|]; injection Hrun as <- <-.
      * assert (Hres : Dump.resolves idx id (p ++ [name])).
        { eapply Dump.resolves_child; eauto. }
        split; [apply memo_consistent_insert; assumption | exact Hres].
      * assert (Hres : Dump.resolves idx id [name]).
        { destruct Hparent as [Hnone|Hempty].
          - exfalso. unfold Dump.parent_link in Hlink.
            destruct (dict_get (txt "folder") (kv :: folder)) as [[]|];
              try discriminate Hlink.
            destruct (bool_decide (is_Some (idx !! s))) eqn:Hs.
            + apply bool_decide_eq_true in Hs.
              rewrite andb_true_r in Hlink.
              destruct (negb (bool_decide (s = []))); simpl in Hlink;
                [|discriminate Hlink].
              destruct (negb (bool_decide (s = id))); simpl in Hlink;
                [|discriminate Hlink].
              injection Hlink as ->. rewrite Hnone in Hs.
              destruct Hs as [x Hx]. discriminate Hx.
            + rewrite andb_false_r in Hlink. discriminate Hlink.
          - eapply Dump.resolves_orphan; eauto. }
        split; [apply memo_consistent_insert; assumption | exact Hres].
    + injection Hrun as <- <-.
      assert (Hres : Dump.resolves idx id [name]).
      { eapply Dump.resolves_root; eauto. }
      split; [apply memo_consistent_insert; assumption | exact Hres].
Qed.

(** An id outside the index resolves to nothing, whatever was resolved
    before. *)
Lemma compute_folder_path_unknown (fuel : nat) (id : pystr)
    (idx : gmap pystr pydict) (memo : gmap pystr path) :
  idx !! id = None → Dump.memo_consistent idx memo →
  Dump._compute_folder_path (S fuel) id idx memo = Ok (None, memo).
Proof.
  intros Hidx Hmemo. rewrite compute_folder_path_unfold.
  destruct (memo !! id) as [p|] eqn:Hm.
  - destruct (resolves_in_index _ _ _ (Hmemo _ _ Hm)) as (f & Hf & _).
    rewrite Hidx in Hf. discriminate Hf.
  - rewrite Hidx. reflexivity.
Qed.

(** Resolution returns: a folder whose parent chain ends gets its path for
    every consistent memo, as soon as the fuel exceeds the length of the
    chain. *)
Lemma compute_folder_path_complete (idx : gmap pystr pydict) (id : pystr)
    (p : path) :
  Dump.resolves idx id p →
  ∀ (fuel : nat) (memo : gmap pystr path),
    Dump.memo_consistent idx memo → length p < fuel →
    ∃ memo', Dump._compute_folder_path fuel id idx memo = Ok (Some p, memo')
             ∧ Dump.memo_consistent idx memo'.
Proof.
  intros Hres.
  induction Hres as [id f n Hf Hne Hn Hl | id f n pid Hf Hne Hn Hl Hpar
                    | id f n pid p Hf Hne Hn Hl Hp IH];
    intros fuel memo Hmemo Hfuel;
    (destruct fuel as [|fuel]; [inversion Hfuel|]);
    rewrite compute_folder_path_unfold.
  - destruct (memo !! id) as [q|] eqn:Hm.
    { exists memo. split; [|exact Hmemo]. f_equal. f_equal. f_equal.
      eapply resolves_functional; [exact (Hmemo _ _ Hm)|].
      eapply Dump.resolves_root; eauto. }
    rewrite Hf. destruct f as [|kv f]; [contradiction|].
    rewrite Hn. simpl. rewrite Hl. eexists. split; [reflexivity|].
    apply memo_consistent_insert; [exact Hmemo|].
    eapply Dump.resolves_root; eauto.
  - destruct (memo !! id) as [q|] eqn:Hm.
    { exists memo. split; [|exact Hmemo]. f_equal. f_equal. f_equal.
      eapply resolves_functional; [exact (Hmemo _ _ Hm)|].
      eapply Dump.resolves_orphan; eauto. }
    rewrite Hf. destruct f as [|kv f]; [contradiction|].
    rewrite Hn. simpl. rewrite Hl.
    destruct fuel as [|fuel]; [simpl in Hfuel; lia|].
    rewrite compute_folder_path_unfold.
    destruct (memo !! pid) as [q|] eqn:Hmp.
    { destruct (resolves_in_index _ _ _ (Hmemo _ _ Hmp)) as (g & Hg & Hgne).
      rewrite Hpar in Hg. injection Hg as <-. contradiction. }
    rewrite Hpar. simpl. eexists. split; [reflexivity|].
    apply memo_consistent_insert; [exact Hmemo|].
    eapply Dump.resolves_orphan; eauto.
  - destruct (memo !! id) as [q|] eqn:Hm.
    { exists memo. split; [|exact Hmemo]. f_equal. f_equal. f_equal.
      eapply resolves_functional; [exact (Hmemo _ _ Hm)|].
      eapply Dump.resolves_child; eauto. }
    rewrite Hf. destruct f as [|kv f]; [contradiction|].
    rewrite Hn. simpl. rewrite Hl.
    destruct (IH fuel memo Hmemo) as (memo1 & Hrun & Hmemo1).
    { rewrite length_app in Hfuel. simpl in Hfuel. lia. }
    rewrite Hrun. simpl. eexists. split; [reflexivity|].
    apply memo_consistent_insert; [exact Hmemo1|].
    eapply Dump.resolves_child; eauto.
Qed.

(** X1. Two resolutions of one id that return agree, whatever was resolved
    before each (any two consistent memos) and whatever number of frames
    each had. *)
Lemma compute_folder_path_deterministic (f1 f2 : nat) (id : pystr)
    (idx : gmap pystr pydict) (m1 m2 m1' m2' : gmap pystr path)
    (r1 r2 : option path) :
  Dump.memo_consistent idx m1 → Dump.memo_consistent idx m2 →
  Dump._compute_folder_path f1 id idx m1 = Ok (r1, m1') →
  Dump._compute_folder_path f2 id idx m2 = Ok (r2, m2') →
  r1 = r2.
Proof.
  intros Hm1 Hm2 Hrun1 Hrun2.
  destruct (compute_folder_path_sound _ _ _ _ _ _ Hrun1 Hm1) as [_ H1].
  destruct (compute_folder_path_sound _ _ _ _ _ _ Hrun2 Hm2) as [_ H2].
  destruct r1 as [p1|], r2 as [p2|]; try reflexivity.
  - f_equal. exact (resolves_functional _ _ _ _ H1 H2).
  - destruct (resolves_in_index _ _ _ H1) as (f & Hf & Hne).
    destruct H2 as [H2|H2]; rewrite Hf in H2; [discriminate H2|].
    injection H2 as ->. contradiction.
  - destruct (resolves_in_index _ _ _ H2) as (f & Hf & Hne).
    destruct H1 as [H1|H1]; rewrite Hf in H1; [discriminate H1|].
    injection H1 as ->. contradiction.
Qed.

End folder_paths.

Section folder_resolution.
Context `{UnicodeDB}.


(** C2. With two folders that name each other as parent the resolution
    never returns: whatever number of frames the interpreter allows, the
    call ends in [RecursionError]. *)
Theorem compute_folder_path_indirect_cycle (fuel : nat) :
  Dump._compute_folder_path fuel (txt "A") cyclic_index ∅
  = Raise RecursionError.
Proof.
  assert (Hboth :
    Dump._compute_folder_path fuel (txt "A") cyclic_index ∅ = Raise RecursionError
    ∧ Dump._compute_folder_path fuel (txt "B") cyclic_index ∅ = Raise RecursionError).
  { induction fuel as [|fuel [IHa IHb]]; [split; reflexivity|].
    assert (HA : cyclic_index !! txt "A" = Some (folder_payload "A" (Some "B")))
      by (vm_compute; reflexivity).
    assert (HB : cyclic_index !! txt "B" = Some (folder_payload "B" (Some "A")))
      by (vm_compute; reflexivity).
    assert (HlA : Dump.parent_link (txt "A") (folder_payload "A" (Some "B"))
                    cyclic_index = Some (txt "B")) by (vm_compute; reflexivity).
    assert (HlB : Dump.parent_link (txt "B") (folder_payload "B" (Some "A"))
                    cyclic_index = Some (txt "A")) by (vm_compute; reflexivity).
    assert (HnA : Dump.folder_name (txt "A") (folder_payload "A" (Some "B"))
                  = Ok (txt "A")) by (vm_compute; reflexivity).
    assert (HnB : Dump.folder_name (txt "B") (folder_payload "B" (Some "A"))
                  = Ok (txt "B")) by (vm_compute; reflexivity).
    split; rewrite compute_folder_path_unfold, lookup_empty.
    - rewrite HA. change (folder_payload "A" (Some "B")) with
        ((txt "_id", JStr (txt "A")) :: tl (folder_payload "A" (Some "B"))) at 1.
      cbv iota. change ((txt "_id", JStr (txt "A")) :: tl (folder_payload "A" (Some "B")))
        with (folder_payload "A" (Some "B")).
      rewrite HnA. simpl mbind. unfold res_mbind, res_bind.
      rewrite HlA, IHb. reflexivity.
    - rewrite HB. change (folder_payload "B" (Some "A")) with
        ((txt "_id", JStr (txt "B")) :: tl (folder_payload "B" (Some "A"))) at 1.
      cbv iota. change ((txt "_id", JStr (txt "B")) :: tl (folder_payload "B" (Some "A")))
        with (folder_payload "B" (Some "A")).
      rewrite HnB. simpl mbind. unfold res_mbind, res_bind.
      rewrite HlB, IHa. reflexivity. }
  exact (proj1 Hboth).
Qed.

End folder_resolution.


Lemma compute_folder_path_deterministic_witness :
  ∃ r1 r2 m1 m2,
    @Dump._compute_folder_path ascii_db 4 (txt "C") chain_index ∅ = Ok (r1, m1)
    ∧ @Dump._compute_folder_path ascii_db 9 (txt "C") chain_index ∅ = Ok (r2, m2)
    ∧ r1 = r2.
Proof.
  destruct (res_is_ok (@Dump._compute_folder_path ascii_db 4 (txt "C") chain_index ∅))
    as [[r1 m1] Hrun1]; [vm_compute; reflexivity|].
  destruct (res_is_ok (@Dump._compute_folder_path ascii_db 9 (txt "C") chain_index ∅))
    as [[r2 m2] Hrun2]; [vm_compute; reflexivity|].
  exists r1, r2, m1, m2. split; [exact Hrun1|]. split; [exact Hrun2|].
  exact (@compute_folder_path_deterministic ascii_db 4 9 (txt "C") chain_index
           ∅ ∅ m1 m2 r1 r2 (@memo_consistent_empty ascii_db chain_index)
           (@memo_consistent_empty ascii_db chain_index) Hrun1 Hrun2).
Defined.


(** ** Record placement (dump) *)

Section placement.
Context `{UnicodeDB}.

(** Every record is written under its directory and its file name. *)
Lemma place_loop_paths (fuel : nat) (idx : gmap pystr pydict) :
  ∀ (records : list Dump.record) (memo : gmap pystr path)
    (placed : list (path * Dump.manifest_row)),
    Dump.place_loop fuel records idx memo = Ok placed →
    Forall2 (λ r pm, ∃ dir, pm.1 = dir ++ [Dump.record_file_name r]
                            ∧ Dump.m_path pm.2 = path_str pm.1
                            ∧ Dump.m_key pm.2 = Dump.rec_key r)
            records placed.
Proof.
  induction records as [|r rs IH]; intros memo placed Hrun; simpl in Hrun.
  - injection Hrun as <-. constructor.
  - apply bind_Ok in Hrun as ([dir memo1] & Hdir & Hrun).
    apply bind_Ok in Hrun as (rows & Hrows & Hrun).
    injection Hrun as <-. constructor; [|exact (IH _ _ Hrows)].
    exists dir. simpl. auto.
Qed.

Lemma place_records_paths (fuel : nat) (records : list Dump.record)
    (folders : list Dump.folder_row) (placed : list (path * Dump.manifest_row)) :
  Dump._place_records fuel records = Ok (folders, placed) →
  Forall2 (λ r pm, ∃ dir, pm.1 = dir ++ [Dump.record_file_name r]
                          ∧ Dump.m_path pm.2 = path_str pm.1
                          ∧ Dump.m_key pm.2 = Dump.rec_key r)
          records placed.
Proof.
  unfold Dump._place_records. intros Hrun.
  apply bind_Ok in Hrun as (idx & _ & Hrun).
  apply bind_Ok in Hrun as ([fm memo] & _ & Hrun).
  apply bind_Ok in Hrun as (placed' & Hloop & Hrun).
  injection Hrun as _ <-. exact (place_loop_paths _ _ _ _ _ Hloop).
Qed.

(** C4 (amended). Two records of one dump with the same title are written to
    different paths whenever their sanitized ids differ (whatever their
    roots and folders are). *)
Theorem place_records_same_title_distinct (fuel : nat)
    (records : list Dump.record) (folders : list Dump.folder_row)
    (placed : list (path * Dump.manifest_row)) (i j : nat)
    (ri rj : Dump.record) (pi pj : path * Dump.manifest_row) :
  Dump._place_records fuel records = Ok (folders, placed) →
  records !! i = Some ri → records !! j = Some rj →
  placed !! i = Some pi → placed !! j = Some pj →
  Dump._record_title (Dump.rec_value ri) (Dump.record_id ri)
  = Dump._record_title (Dump.rec_value rj) (Dump.record_id rj) →
  Dump._safe_name (Dump.record_id ri) ≠ Dump._safe_name (Dump.record_id rj) →
  pi.1 ≠ pj.1.
Proof.
  intros Hrun Hri Hrj Hpi Hpj Htitle Hids Heq.
  pose proof (place_records_paths _ _ _ _ Hrun) as Hall.
  destruct (Forall2_lookup_lr _ _ _ _ _ _ Hall Hri Hpi) as (di & Hdi & _).
  destruct (Forall2_lookup_lr _ _ _ _ _ _ Hall Hrj Hpj) as (dj & Hdj & _).
  rewrite Hdi, Hdj in Heq. apply app_inj_tail in Heq as [_ Hname].
  unfold Dump.record_file_name in Hname. rewrite Htitle in Hname.
  apply app_inv_head in Hname. apply app_inv_head in Hname.
  apply app_inv_tail in Hname. exact (Hids Hname).
Qed.

End placement.

Lemma place_records_same_title_distinct_witness :
  ∃ folders placed pi pj,
    @Dump._place_records ascii_db 2 two_swords = Ok (folders, placed)
    ∧ placed !! 0 = Some pi ∧ placed !! 1 = Some pj ∧ pi.1 ≠ pj.1.
Proof.
  destruct (@Dump._place_records ascii_db 2 two_swords) as [[folders placed]|e]
    eqn:Hrun; [|vm_compute in Hrun; discriminate Hrun].
  destruct (placed !! 0) as [pi|] eqn:Hpi;
    [|vm_compute in Hrun; injection Hrun as _ <-; discriminate Hpi].
  destruct (placed !! 1) as [pj|] eqn:Hpj;
    [|vm_compute in Hrun; injection Hrun as _ <-; discriminate Hpj].
  exists folders, placed, pi, pj.
  split; [reflexivity|]. split; [exact Hpi|]. split; [exact Hpj|].
  apply (@place_records_same_title_distinct ascii_db 2 two_swords
           folders placed 0 1 (plain_record "i1" "Sword")
           (plain_record "i2" "Sword") pi pj Hrun eq_refl eq_refl Hpi Hpj).
  - vm_compute. reflexivity.
  - vm_compute. discriminate.
Defined.

(** C4, as stated, fails on two records with the same root and id: the
    store entries [!items!i1] and [!items!i1!x], both named Sword, are two
    records of root [items] and id [i1], and both are written to
    [items/Sword__i1.json]. *)
Lemma same_root_and_id_collide :
  same_id_entries.*1 !! 0 ≠ same_id_entries.*1 !! 1
  ∧ ∀ db : UnicodeDB, ∃ r1 r2 p m1 m2,
      @Dump._extract_records db same_id_entries true = Ok [r1; r2]
      ∧ r1 ≠ r2
      ∧ Dump.rec_root r1 = Dump.rec_root r2
      ∧ Dump.rec_id r1 = Dump.rec_id r2
      ∧ @Dump._place_records db 5 [r1; r2] = Ok ([], [(p, m1); (p, m2)])
      ∧ path_str p = txt "items/Sword__i1.json".
Proof.
  split; [vm_compute; discriminate|].
  intros db. do 5 eexists.
  split; [vm_compute; reflexivity|].
  split; [discriminate|].
  split; [reflexivity|]. split; [reflexivity|].
  split; vm_compute; reflexivity.
Qed.

(** ** Known records (rebuild) *)







(** ** Id allocation and new records (rebuild) *)

Section new_records.
Context `{UnicodeDB}.

(** What the allocator returns is not in use. *)
Lemma random_id_fresh (fuel : nat) (rnd : nat → nat) (used : gset pystr) :
  ∀ (pos pos' : nat) (c : pystr),
    Rebuild._random_id fuel rnd pos used = Ok (c, pos') → c ∉ used.
Proof.
  induction fuel as [|fuel IH]; intros pos pos' c Hrun; simpl in Hrun.
  - discriminate Hrun.
  - destruct (bool_decide (Rebuild.candidate rnd pos ∈ used)) eqn:Hin.
    + exact (IH _ _ _ Hrun).
    + injection Hrun as <- _. apply bool_decide_eq_false in Hin. exact Hin.
Qed.

Lemma allocates_nothing (st st' : Rebuild.state) :
  Rebuild.st_allocated st' = Rebuild.st_allocated st →
  Rebuild.st_used st ⊆ Rebuild.st_used st' →
  Rebuild.allocates st st' [].
Proof.
  intros Halloc Hused. unfold Rebuild.allocates.
  rewrite app_nil_r. split; [exact Halloc|]. split; [constructor|].
  split; [|split; [|exact Hused]]; intros id Hid; inversion Hid.
Qed.

Lemma allocates_one (st st' : Rebuild.state) (c : pystr) :
  Rebuild.st_allocated st' = Rebuild.st_allocated st ++ [c] →
  Rebuild.st_used st' = {[ c ]} ∪ Rebuild.st_used st →
  c ∉ Rebuild.st_used st →
  Rebuild.allocates st st' [c].
Proof.
  intros Halloc Hused Hfresh. unfold Rebuild.allocates.
  split; [exact Halloc|]. split; [apply NoDup_singleton|].
  split; [|split].
  - intros id Hid. apply list_elem_of_singleton in Hid as ->. exact Hfresh.
  - intros id Hid. apply list_elem_of_singleton in Hid as ->.
    rewrite Hused. apply elem_of_union_l, elem_of_singleton. reflexivity.
  - rewrite Hused. apply union_subseteq_r.
Qed.

Lemma allocates_trans (st1 st2 st3 : Rebuild.state) (n1 n2 : list pystr) :
  Rebuild.allocates st1 st2 n1 → Rebuild.allocates st2 st3 n2 →
  Rebuild.allocates st1 st3 (n1 ++ n2).
Proof.
  intros (Ha1 & Hnd1 & Hfresh1 & Hin1 & Hsub1) (Ha2 & Hnd2 & Hfresh2 & Hin2 & Hsub2).
  unfold Rebuild.allocates. split; [|split; [|split; [|split]]].
  - rewrite Ha2, Ha1, app_assoc. reflexivity.
  - apply NoDup_app. split; [exact Hnd1|]. split; [|exact Hnd2].
    intros id Hid1 Hid2. exact (Hfresh2 id Hid2 (Hin1 id Hid1)).
  - intros id Hid. apply elem_of_app in Hid as [Hid|Hid].
    + exact (Hfresh1 id Hid).
    + intros Hused. exact (Hfresh2 id Hid (Hsub1 id Hused)).
  - intros id Hid. apply elem_of_app in Hid as [Hid|Hid].
    + exact (Hsub2 id (Hin1 id Hid)).
    + exact (Hin2 id Hid).
  - intros id Hid. exact (Hsub2 id (Hsub1 id Hid)).
Qed.

Lemma assign_file_id_allocates (fuel : nat) (rnd : nat → nat) (p rel : path)
    (value : json) (st st1 : Rebuild.state) (g : option pystr) :
  Rebuild.assign_file_id fuel rnd p value st = Ok (g, rel, st1) →
  ∃ new, Rebuild.allocates st st1 new.
Proof.
  unfold Rebuild.assign_file_id. intros Hrun.
  destruct (negb (Rebuild._filename_has_id p)).
  - apply bind_Ok in Hrun as ([c pos] & Hid & Hrun).
    apply bind_Ok in Hrun as (fs1 & _ & Hrun). injection Hrun as _ _ <-.
    exists [c]. apply allocates_one; [reflexivity..|].
    exact (random_id_fresh _ _ _ _ _ _ Hid).
  - injection Hrun as _ _ <-. exists []. apply allocates_nothing; reflexivity.
Qed.

Lemma assign_value_id_allocates (fuel : nat) (rnd : nat → nat) (rel : path)
    (value value2 : json) (g : option pystr) (created : bool)
    (st st1 : Rebuild.state) :
  Rebuild.assign_value_id fuel rnd value g rel st = Ok (value2, created, st1) →
  ∃ new, Rebuild.allocates st st1 new.
Proof.
  unfold Rebuild.assign_value_id. intros Hrun.
  destruct value as [ | | | | |d];
    try (injection Hrun as _ _ <-; exists []; apply allocates_nothing; reflexivity).
  match type of Hrun with
  | (if ?blank then _ else _) = _ => destruct blank
  end.
  - apply bind_Ok in Hrun as ([c pos] & Hid & Hrun). injection Hrun as _ _ <-.
    exists [c]. apply allocates_one; [reflexivity..|].
    exact (random_id_fresh _ _ _ _ _ _ Hid).
  - injection Hrun as _ _ <-. exists []. apply allocates_nothing; reflexivity.
Qed.

(** One file of the scan: the ids allocated for it are new, and the key of
    its record is [!root!id]. *)
Lemma new_record_spec (fuel : nat) (rnd : nat → nat) (p : path)
    (st st1 : Rebuild.state) (r : option (pystr * bytes)) :
  Rebuild.new_record fuel rnd p st = Ok (r, st1) →
  (∃ new, Rebuild.allocates st st1 new)
  ∧ ∀ key encoded, r = Some (key, encoded) →
      ∃ root value rel,
        Rebuild._infer_root_from_path p = Some root ∧ root ≠ []
        ∧ key = txt "!" ++ root ++ txt "!" ++ Rebuild._infer_id value rel
        ∧ Rebuild._encode_value value = Ok encoded.
Proof.
  unfold Rebuild.new_record. intros Hrun.
  apply bind_Ok in Hrun as (value & _ & Hrun).
  destruct (Rebuild._infer_root_from_path p) as [[|c root]|] eqn:Hroot.
  1,3: injection Hrun as <- <-;
       (split; [exists []; apply allocates_nothing; reflexivity|]);
       intros key encoded Hr; discriminate Hr.
  apply bind_Ok in Hrun as ([[g rel] sta] & Hfile & Hrun).
  apply bind_Ok in Hrun as ([[value2 created] stb] & Hvalue & Hrun).
  apply bind_Ok in Hrun as (fs3 & _ & Hrun).
  apply bind_Ok in Hrun as (encoded & Henc & Hrun).
  injection Hrun as <- <-.
  destruct (assign_file_id_allocates _ _ _ _ _ _ _ _ Hfile) as [n1 Hn1].
  destruct (assign_value_id_allocates _ _ _ _ _ _ _ _ _ Hvalue) as [n2 Hn2].
  split.
  - exists ((n1 ++ n2) ++ []).
    eapply allocates_trans; [eapply allocates_trans; eassumption|].
    apply allocates_nothing; [reflexivity|]. simpl. apply union_subseteq_r.
  - intros key enc Hr. injection Hr as <- <-.
    exists (c :: root), value2, rel.
    split; [reflexivity|]. split; [discriminate|]. split; [reflexivity|exact Henc].
Qed.

Lemma new_records_loop_spec (fuel : nat) (rnd : nat → nat) :
  ∀ (files : list path) (st st' : Rebuild.state)
    (records : list (pystr * bytes)),
    Rebuild.new_records_loop fuel rnd files st = Ok (records, st') →
    (∃ new, Rebuild.allocates st st' new)
    ∧ ∀ key encoded, (key, encoded) ∈ records →
        ∃ p root value rel,
          p ∈ files
          ∧ Rebuild._infer_root_from_path p = Some root ∧ root ≠ []
          ∧ key = txt "!" ++ root ++ txt "!" ++ Rebuild._infer_id value rel
          ∧ Rebuild._encode_value value = Ok encoded.
Proof.
  induction files as [|p files IH]; intros st st' records Hrun; simpl in Hrun.
  - injection Hrun as <- <-. split.
    + exists []. apply allocates_nothing; reflexivity.
    + intros key encoded Hin. inversion Hin.
  - apply bind_Ok in Hrun as ([r st1] & Hone & Hrun).
    apply bind_Ok in Hrun as ([records' st2] & Hrest & Hrun).
    injection Hrun as <- <-.
    destruct (new_record_spec _ _ _ _ _ _ Hone) as [[n1 Hn1] Hkey1].
    destruct (IH _ _ _ Hrest) as [[n2 Hn2] Hkeys].
    split.
    + exists (n1 ++ n2). eapply allocates_trans; eassumption.
    + intros key encoded Hin.
      assert (Hcases : r = Some (key, encoded) ∨ (key, encoded) ∈ records').
      { destruct r as [kv|]; [|right; exact Hin].
        apply elem_of_cons in Hin as [->|Hin]; [left; reflexivity | right; exact Hin]. }
      destruct Hcases as [Hr|Hin'].
      * destruct (Hkey1 _ _ Hr) as (root & value & rel & Hroot & Hne & Hk & He).
        exists p, root, value, rel. split; [left|auto].
      * destruct (Hkeys _ _ Hin') as (q & root & value & rel & Hq & Hrest').
        exists q, root, value, rel. split; [right; exact Hq | exact Hrest'].
Qed.



(** The ids allocated during the scan are pairwise distinct and none was in
    use when the scan began. *)
Lemma build_new_records_allocates (fuel : nat) (rnd : nat → nat)
    (known_paths : gset pystr) (st st' : Rebuild.state)
    (records : list (pystr * bytes)) :
  Rebuild._build_new_records fuel rnd known_paths st = Ok (records, st') →
  ∃ new, Rebuild.allocates st st' new.
Proof.
  unfold Rebuild._build_new_records. intros Hrun.
  exact (proj1 (new_records_loop_spec _ _ _ _ _ _ Hrun)).
Qed.

(** C7. In one rebuild pass the ids that the allocator returned are
    pairwise distinct, and each differs from every id extracted from the
    keys of the manifest at the start of the pass. *)
Theorem allocated_ids_are_unique (fuel : nat) (rnd : nat → nat) (pos : nat)
    (fs : gmap path Rebuild.node) (merged : gmap pystr bytes)
    (log : list Rebuild.event) (st : Rebuild.state)
    (manifest : list pydict) (leveldb_meta : pydict) :
  Rebuild.rebuild_store fuel rnd pos fs = Ok (merged, log, st) →
  Rebuild._load_manifest fs = Ok (manifest, leveldb_meta) →
  NoDup (Rebuild.st_allocated st)
  ∧ ∀ id, id ∈ Rebuild.st_allocated st → id ∉ Rebuild.used_ids_of manifest.
Proof.
  unfold Rebuild.rebuild_store. intros Hrun Hload. rewrite Hload in Hrun.
  simpl in Hrun.
  apply bind_Ok in Hrun as ([known klog] & _ & Hrun).
  apply bind_Ok in Hrun as ([new st1] & Hnew & Hrun).
  injection Hrun as _ _ <-.
  destruct (build_new_records_allocates _ _ _ _ _ _ Hnew)
    as (ids & Halloc & Hnd & Hfresh & _ & _).
  simpl in Halloc, Hfresh. rewrite Halloc. split; [exact Hnd | exact Hfresh].
Qed.

End new_records.

Lemma allocated_ids_are_unique_witness :
  ∃ merged log st manifest leveldb_meta,
    @Rebuild.rebuild_store ascii_db 5 in_turn 0 edited_tree = Ok (merged, log, st)
    ∧ Rebuild._load_manifest edited_tree = Ok (manifest, leveldb_meta)
    ∧ txt "abcdefghijklmnop" ∈ Rebuild.used_ids_of manifest
    ∧ Rebuild.st_allocated st = [txt "qrstuvwxyzABCDEF"]
    ∧ NoDup (Rebuild.st_allocated st)
    ∧ ∀ id, id ∈ Rebuild.st_allocated st → id ∉ Rebuild.used_ids_of manifest.
Proof.
  destruct (res_is_ok (@Rebuild.rebuild_store ascii_db 5 in_turn 0 edited_tree))
    as [[[merged log] st] Hrun]; [vm_compute; reflexivity|].
  destruct (res_is_ok (Rebuild._load_manifest edited_tree))
    as [[manifest meta] Hload]; [vm_compute; reflexivity|].
  exists merged, log, st, manifest, meta.
  split; [exact Hrun|]. split; [exact Hload|].
  split; [|split].
  - assert (Hm : match Rebuild._load_manifest edited_tree with
                 | Ok (m, _) =>
                   bool_decide (txt "abcdefghijklmnop" ∈ Rebuild.used_ids_of m)
                 | Raise _ => false
                 end = true) by (vm_compute; reflexivity).
    rewrite Hload in Hm. apply bool_decide_eq_true in Hm. exact Hm.
  - assert (Ha : match @Rebuild.rebuild_store ascii_db 5 in_turn 0 edited_tree with
                 | Ok (_, _, st) => Rebuild.st_allocated st
                 | Raise _ => []
                 end = [txt "qrstuvwxyzABCDEF"]) by (vm_compute; reflexivity).
    rewrite Hrun in Ha. exact Ha.
  - exact (@allocated_ids_are_unique ascii_db 5 in_turn 0 edited_tree
             merged log st manifest meta Hrun Hload).
Defined.


(** ** Base64: decoding undoes encoding *)

(** Linear arithmetic with quotients and remainders by constants. *)
Ltac div_lia := zify; Z.to_euclidean_division_equations; lia.

Lemma b64char_spec (i : N) :
  (i < 64)%N → (b64char i =? 61)%N = false ∧ b64val (b64char i) = Some i.
Proof.
  intros Hi. unfold b64char, b64val.
  destruct (N.ltb_spec i 26); [|destruct (N.ltb_spec i 52);
    [|destruct (N.ltb_spec i 62); [|destruct (N.eqb_spec i 62)]]].
  - split; [apply N.eqb_neq; lia|].
    destruct (N.leb_spec 65 (65 + i)); [|lia].
    destruct (N.leb_spec (65 + i) 90); [|lia]. simpl. f_equal. lia.
  - split; [apply N.eqb_neq; lia|].
    destruct (N.leb_spec 65 (97 + (i - 26))); [|lia].
    destruct (N.leb_spec (97 + (i - 26)) 90); [lia|]. simpl.
    destruct (N.leb_spec 97 (97 + (i - 26))); [|lia].
    destruct (N.leb_spec (97 + (i - 26)) 122); [|lia]. simpl. f_equal. lia.
  - split; [apply N.eqb_neq; lia|].
    destruct (N.leb_spec 65 (48 + (i - 52))); [lia|]. simpl.
    destruct (N.leb_spec 97 (48 + (i - 52))); [lia|]. simpl.
    destruct (N.leb_spec 48 (48 + (i - 52))); [|lia].
    destruct (N.leb_spec (48 + (i - 52)) 57); [|lia]. simpl. f_equal. lia.
  - subst i. split; reflexivity.
  - assert (i = 63%N) as -> by lia. split; reflexivity.
Qed.

Lemma b64char_ascii (i : N) : (b64char i <? 128)%N = true.
Proof.
  unfold b64char. apply N.ltb_lt.
  destruct (N.ltb_spec i 26); [lia|].
  destruct (N.ltb_spec i 52); [lia|].
  destruct (N.ltb_spec i 62); [lia|].
  destruct (N.eqb_spec i 62); lia.
Qed.

Lemma a2b_base64_char (i : N) (s : pystr) (quad_pos : nat) (leftchar : N)
    (pads : nat) :
  (i < 64)%N →
  a2b_base64 (b64char i :: s) quad_pos leftchar pads
  = match quad_pos with
    | 0 => a2b_base64 s 1 i 0
    | 1 => cons (leftchar * 4 + i / 16)%N <$> a2b_base64 s 2 (i mod 16)%N 0
    | 2 => cons (leftchar * 16 + i / 4)%N <$> a2b_base64 s 3 (i mod 4)%N 0
    | _ => cons (leftchar * 64 + i)%N <$> a2b_base64 s 0 0%N 0
    end.
Proof.
  intros Hi. destruct (b64char_spec i Hi) as [Hpad Hval].
  simpl. rewrite Hpad, Hval. reflexivity.
Qed.

(** A full group of three bytes is decoded to the three bytes. *)
Lemma a2b_base64_group (a b c : N) (s : pystr) :
  (a < 256)%N → (b < 256)%N → (c < 256)%N →
  a2b_base64 ([b64char (a / 4); b64char ((a mod 4) * 16 + b / 16);
               b64char ((b mod 16) * 4 + c / 64); b64char (c mod 64)]%N ++ s)
             0 0%N 0
  = (λ r, a :: b :: c :: r) <$> a2b_base64 s 0 0%N 0.
Proof.
  intros Ha Hb Hc. cbn [app].
  rewrite a2b_base64_char by div_lia.
  rewrite a2b_base64_char by div_lia.
  rewrite a2b_base64_char by div_lia.
  rewrite a2b_base64_char by div_lia.
  replace (a / 4 * 4 + ((a mod 4) * 16 + b / 16) / 16)%N with a by div_lia.
  replace ((((a mod 4) * 16 + b / 16) mod 16) * 16
           + ((b mod 16) * 4 + c / 64) / 4)%N with b by div_lia.
  replace ((((b mod 16) * 4 + c / 64) mod 4) * 64 + c mod 64)%N with c by div_lia.
  destruct (a2b_base64 s 0 0%N 0); reflexivity.
Qed.

Lemma a2b_base64_pad2 (leftchar : N) :
  a2b_base64 [61; 61]%N 2 leftchar 0 = Some [].
Proof. reflexivity. Qed.

Lemma a2b_base64_pad1 (leftchar : N) :
  a2b_base64 [61]%N 3 leftchar 0 = Some [].
Proof. reflexivity. Qed.

Lemma a2b_b2a_base64 (n : nat) :
  ∀ bs : list N, length bs ≤ n → Forall (λ b, (b < 256)%N) bs →
    a2b_base64 (b2a_base64 bs) 0 0%N 0 = Some bs.
Proof.
  induction n as [|n IH]; intros bs Hlen Hbytes.
  - destruct bs; [reflexivity | simpl in Hlen; lia].
  - destruct bs as [|a [|b [|c bs]]].
    + reflexivity.
    + apply Forall_cons in Hbytes as [Ha _].
      cbn [b2a_base64].
      rewrite a2b_base64_char by div_lia. rewrite a2b_base64_char by div_lia.
      rewrite a2b_base64_pad2. cbn [fmap option_fmap option_map].
      f_equal. f_equal. div_lia.
    + apply Forall_cons in Hbytes as [Ha Hbytes].
      apply Forall_cons in Hbytes as [Hb _].
      cbn [b2a_base64].
      rewrite a2b_base64_char by div_lia. rewrite a2b_base64_char by div_lia.
      rewrite a2b_base64_char by div_lia.
      rewrite a2b_base64_pad1. cbn [fmap option_fmap option_map].
      f_equal. f_equal; [div_lia|]. f_equal. div_lia.
    + apply Forall_cons in Hbytes as [Ha Hbytes].
      apply Forall_cons in Hbytes as [Hb Hbytes].
      apply Forall_cons in Hbytes as [Hc Hbytes].
      cbn [b2a_base64]. rewrite a2b_base64_group by assumption.
      rewrite IH; [reflexivity | simpl in Hlen; lia | exact Hbytes].
Qed.

Lemma b2a_base64_ascii (n : nat) :
  ∀ bs : list N, length bs ≤ n →
    forallb (λ c, c <? 128)%N (b2a_base64 bs) = true.
Proof.
  induction n as [|n IH]; intros bs Hlen.
  - destruct bs; [reflexivity | simpl in Hlen; lia].
  - destruct bs as [|a [|b [|c bs]]]; cbn [b2a_base64 forallb app];
      rewrite ?b64char_ascii; try reflexivity.
    apply IH. simpl in Hlen. lia.
Qed.

Lemma to_byte_to_N (b : byte) : to_byte (Byte.to_N b) = b.
Proof. unfold to_byte. rewrite Byte.of_to_N. reflexivity. Qed.

Lemma bytes_to_N_bounded (raw : bytes) :
  Forall (λ b, (b < 256)%N) (map Byte.to_N raw).
Proof.
  induction raw as [|b raw IH]; constructor; [|exact IH].
  pose proof (Byte.to_N_bounded b). lia.
Qed.

Lemma map_to_byte_to_N (raw : bytes) : map to_byte (map Byte.to_N raw) = raw.
Proof.
  induction raw as [|b raw IH]; simpl; [reflexivity|].
  rewrite to_byte_to_N, IH. reflexivity.
Qed.

(** [base64.b64decode(base64.b64encode(raw).decode("ascii")) == raw]. *)
Lemma b64decode_b64encode (raw : bytes) : b64decode (b64encode raw) = Ok raw.
Proof.
  unfold b64decode, b64encode.
  rewrite (b2a_base64_ascii (length (map Byte.to_N raw))) by reflexivity.
  rewrite (a2b_b2a_base64 (length (map Byte.to_N raw)));
    [|reflexivity|apply bytes_to_N_bounded].
  rewrite map_to_byte_to_N. reflexivity.
Qed.


(** ** The scanner always returns *)












(** ** Value equality of the difference report (rebuild) *)







(** ** UTF-8: decoding undoes encoding *)

Ltac case_cond :=
  match goal with
  | |- context [N.ltb ?a ?b] => destruct (N.ltb_spec a b); try lia
  | |- context [N.leb ?a ?b] => destruct (N.leb_spec a b); try lia
  | |- context [N.eqb ?a ?b] => destruct (N.eqb_spec a b); try lia
  end.

Lemma to_N_to_byte (n : N) : (n < 256)%N → Byte.to_N (to_byte n) = n.
Proof.
  intros Hn. unfold to_byte. destruct (Byte.of_N n) as [b|] eqn:Hb.
  - apply Byte.to_of_N. exact Hb.
  - apply Byte.of_N_None_iff in Hb. lia.
Qed.

Lemma map_to_N_to_byte (bs : list N) :
  Forall (λ b, (b < 256)%N) bs → map Byte.to_N (map to_byte bs) = bs.
Proof.
  induction 1 as [|b bs Hb _ IH]; simpl; [reflexivity|].
  rewrite to_N_to_byte by exact Hb. rewrite IH. reflexivity.
Qed.

Lemma utf8_decode_1 (b0 : N) (rest : list N) :
  (b0 < 128)%N →
  utf8_decode_N (b0 :: rest) = cons b0 <$> utf8_decode_N rest.
Proof. intros Hb0. cbn [utf8_decode_N]. case_cond. reflexivity. Qed.

Lemma utf8_decode_2 (b0 b1 : N) (rest : list N) :
  (194 ≤ b0 ≤ 223)%N → (128 ≤ b1 ≤ 191)%N →
  utf8_decode_N (b0 :: b1 :: rest)
  = cons ((b0 - 192) * 64 + (b1 - 128))%N <$> utf8_decode_N rest.
Proof.
  intros Hb0 Hb1. cbn [utf8_decode_N]. unfold is_cont.
  destruct (N.ltb_spec b0 128); [lia|].
  destruct (N.leb_spec 194 b0); [|lia]. destruct (N.leb_spec b0 223); [|lia].
  destruct (N.leb_spec 128 b1); [|lia]. destruct (N.leb_spec b1 191); [|lia].
  reflexivity.
Qed.

Lemma utf8_decode_3 (b0 b1 b2 : N) (rest : list N) :
  (224 ≤ b0 ≤ 239)%N → (128 ≤ b1 ≤ 191)%N → (128 ≤ b2 ≤ 191)%N →
  (b0 = 224 → 160 ≤ b1)%N → (b0 = 237 → b1 ≤ 159)%N →
  utf8_decode_N (b0 :: b1 :: b2 :: rest)
  = cons ((b0 - 224) * 4096 + (b1 - 128) * 64 + (b2 - 128))%N
      <$> utf8_decode_N rest.
Proof.
  intros Hb0 Hb1 Hb2 Hlow Hsur. cbn [utf8_decode_N]. unfold is_cont.
  destruct (N.ltb_spec b0 128); [lia|].
  destruct (N.leb_spec 194 b0); [|lia]. destruct (N.leb_spec b0 223); [lia|].
  destruct (N.leb_spec 224 b0); [|lia]. destruct (N.leb_spec b0 239); [|lia].
  destruct (N.leb_spec 128 b1); [|lia]. destruct (N.leb_spec b1 191); [|lia].
  destruct (N.leb_spec 128 b2); [|lia]. destruct (N.leb_spec b2 191); [|lia].
  destruct (N.eqb_spec b0 224); destruct (N.eqb_spec b0 237);
    destruct (N.leb_spec 160 b1); destruct (N.leb_spec b1 159);
    try lia; reflexivity.
Qed.

Lemma utf8_decode_4 (b0 b1 b2 b3 : N) (rest : list N) :
  (240 ≤ b0 ≤ 244)%N → (128 ≤ b1 ≤ 191)%N → (128 ≤ b2 ≤ 191)%N →
  (128 ≤ b3 ≤ 191)%N →
  (b0 = 240 → 144 ≤ b1)%N → (b0 = 244 → b1 ≤ 143)%N →
  utf8_decode_N (b0 :: b1 :: b2 :: b3 :: rest)
  = cons ((b0 - 240) * 262144 + (b1 - 128) * 4096
          + (b2 - 128) * 64 + (b3 - 128))%N
      <$> utf8_decode_N rest.
Proof.
  intros Hb0 Hb1 Hb2 Hb3 Hlow Hhigh. cbn [utf8_decode_N]. unfold is_cont.
  destruct (N.ltb_spec b0 128); [lia|].
  destruct (N.leb_spec 194 b0); [|lia]. destruct (N.leb_spec b0 223); [lia|].
  destruct (N.leb_spec 224 b0); [|lia]. destruct (N.leb_spec b0 239); [lia|].
  destruct (N.leb_spec 240 b0); [|lia]. destruct (N.leb_spec b0 244); [|lia].
  destruct (N.leb_spec 128 b1); [|lia]. destruct (N.leb_spec b1 191); [|lia].
  destruct (N.leb_spec 128 b2); [|lia]. destruct (N.leb_spec b2 191); [|lia].
  destruct (N.leb_spec 128 b3); [|lia]. destruct (N.leb_spec b3 191); [|lia].
  destruct (N.eqb_spec b0 240); destruct (N.eqb_spec b0 244);
    destruct (N.leb_spec 144 b1); destruct (N.leb_spec b1 143);
    try lia; reflexivity.
Qed.

(** The bytes of one code point decode to it, whatever follows. *)
Lemma utf8_decode_encode_cp (c : N) (bs rest : list N) :
  utf8_encode_cp c = Some bs →
  utf8_decode_N (bs ++ rest) = cons c <$> utf8_decode_N rest
  ∧ Forall (λ b, (b < 256)%N) bs.
Proof.
  unfold utf8_encode_cp. intros Henc.
  destruct (N.ltb_spec c 128).
  { injection Henc as <-. split; [|repeat constructor; lia].
    apply utf8_decode_1. assumption. }
  destruct (N.ltb_spec c 2048).
  { injection Henc as <-. split; [|repeat constructor; div_lia].
    cbn [app]. rewrite utf8_decode_2 by div_lia.
    f_equal. f_equal. div_lia. }
  destruct (N.ltb_spec c 65536).
  { destruct (N.leb_spec 55296 c); destruct (N.leb_spec c 57343);
      cbn [andb] in Henc; try discriminate Henc;
      injection Henc as <-; (split; [|repeat constructor; div_lia]);
      cbn [app]; (rewrite utf8_decode_3 by div_lia);
      f_equal; f_equal; div_lia. }
  destruct (N.ltb_spec c 1114112); [|discriminate Henc].
  injection Henc as <-. split; [|repeat constructor; div_lia].
  cbn [app]. rewrite utf8_decode_4 by div_lia.
  f_equal. f_equal. div_lia.
Qed.

Lemma utf8_decode_encode_N (s : pystr) :
  ∀ bs, utf8_encode_N s = Some bs →
        utf8_decode_N bs = Some s ∧ Forall (λ b, (b < 256)%N) bs.
Proof.
  induction s as [|c s IH]; intros bs Henc; simpl in Henc.
  - injection Henc as <-. split; [reflexivity | constructor].
  - destruct (utf8_encode_cp c) as [cb|] eqn:Hc; [|discriminate Henc].
    destruct (utf8_encode_N s) as [r|]; [|discriminate Henc].
    injection Henc as <-. destruct (IH r eq_refl) as [Hdec Hbytes].
    destruct (utf8_decode_encode_cp c cb r Hc) as [Hcp Hcb].
    rewrite Hcp, Hdec. split; [reflexivity | apply Forall_app; auto].
Qed.

(** [s.encode("utf-8").decode("utf-8") == s]. *)
Lemma utf8_decode_encode (s : pystr) (raw : bytes) :
  utf8_encode s = Ok raw → utf8_decode raw = Some s.
Proof.
  unfold utf8_encode, utf8_decode.
  destruct (utf8_encode_N s) as [bs|] eqn:Henc; [|discriminate].
  intros Hraw. injection Hraw as <-.
  destruct (utf8_decode_encode_N s bs Henc) as [Hdec Hbytes].
  rewrite map_to_N_to_byte by exact Hbytes. exact Hdec.
Qed.

(** ** JSON: reading back what [json.dumps] wrote *)

Lemma json_ind_nested (P : json → Prop) :
  P JNull → (∀ b, P (JBool b)) → (∀ n, P (JInt n)) → (∀ s, P (JStr s)) →
  (∀ items, Forall P items → P (JArr items)) →
  (∀ fields, Forall (λ kv, P kv.2) fields → P (JObj fields)) →
  ∀ v, P v.
Proof.
  intros Hnull Hbool Hint Hstr Harr Hobj.
  fix IH 1. intros [ |b|n|s|items|fields].
  - exact Hnull.
  - apply Hbool.
  - apply Hint.
  - apply Hstr.
  - apply Harr. induction items as [|x items IHitems]; constructor.
    + apply IH.
    + exact IHitems.
  - apply Hobj. induction fields as [|[k x] fields IHfields]; constructor.
    + apply IH.
    + exact IHfields.
Qed.



Lemma json_size_arr (x : json) (r : list json) :
  json_size (JArr (x :: r)) = S (json_size x) + json_size (JArr r).
Proof. cbn [json_size]. lia. Qed.

Lemma json_size_obj (k : pystr) (x : json) (r : pydict) :
  json_size (JObj ((k, x) :: r)) = S (json_size x) + json_size (JObj r).
Proof. cbn [json_size]. lia. Qed.

Lemma dict_set_fresh {V : Type} (k : pystr) (v : V) (d : list (pystr * V)) :
  k ∉ d.*1 → dict_set k v d = d ++ [(k, v)].
Proof.
  induction d as [|[k' v'] d IH]; simpl; intros Hk; [reflexivity|].
  apply not_elem_of_cons in Hk as [Hne Hk].
  destruct (decide (k = k')); [contradiction|]. rewrite IH by exact Hk.
  reflexivity.
Qed.

(** [dict(pairs)] of pairs with distinct keys is the list of the pairs. *)
Lemma dict_of_pairs_NoDup {V : Type} (ps : list (pystr * V)) :
  NoDup ps.*1 → dict_of_pairs ps = ps.
Proof.
  unfold dict_of_pairs.
  assert (Hgen : ∀ acc : list (pystr * V),
             NoDup (acc ++ ps).*1 →
             foldl (λ d kv, dict_set kv.1 kv.2 d) acc ps = acc ++ ps).
  { induction ps as [|[k v] ps IH]; intros acc Hnd; simpl.
    - rewrite app_nil_r. reflexivity.
    - rewrite dict_set_fresh.
      + rewrite IH; rewrite <- app_assoc; [reflexivity | exact Hnd].
      + rewrite fmap_app in Hnd. apply NoDup_app in Hnd as (_ & Hdisj & _).
        intros Hin. apply (Hdisj k Hin). simpl. left. }
  intros Hnd. exact (Hgen [] Hnd).
Qed.

Lemma hex_val_hex_digit (d : N) : (d < 16)%N → hex_val (hex_digit d) = Some d.
Proof.
  intros Hd. unfold hex_digit, hex_val.
  destruct (N.ltb_spec d 10).
  - destruct (N.leb_spec 48 (48 + d)); [|lia].
    destruct (N.leb_spec (48 + d) 57); [|lia]. simpl. f_equal. lia.
  - destruct (N.leb_spec 48 (87 + d)); [|lia].
    destruct (N.leb_spec (87 + d) 57); [lia|]. simpl.
    destruct (N.leb_spec 97 (87 + d)); [|lia].
    destruct (N.leb_spec (87 + d) 102); [|lia]. simpl. f_equal. lia.
Qed.

Lemma hex4_escape (c : N) (r : pystr) :
  (c < 32)%N →
  hex4 (48%N :: 48%N :: hex_digit (c / 16) :: hex_digit (c mod 16) :: r)
  = Some (c, r).
Proof.
  intros Hc. unfold hex4.
  rewrite (hex_val_hex_digit (c / 16)) by div_lia.
  rewrite (hex_val_hex_digit (c mod 16)) by div_lia.
  change (hex_val 48) with (Some 0%N). cbv iota beta.
  f_equal. f_equal. div_lia.
Qed.

(** One escaped character is read back as the character. *)
Lemma scanstring_escape_char (fuel : nat) (c : N) (r : pystr) :
  scanstring (S fuel) (escape_char c ++ r) = push c (scanstring fuel r).
Proof.
  unfold escape_char.
  destruct (N.eqb_spec c 34) as [->|H34]; [reflexivity|].
  destruct (N.eqb_spec c 92) as [->|H92]; [reflexivity|].
  destruct (N.eqb_spec c 10) as [->|H10]; [reflexivity|].
  destruct (N.eqb_spec c 13) as [->|H13]; [reflexivity|].
  destruct (N.eqb_spec c 9) as [->|H9]; [reflexivity|].
  destruct (N.eqb_spec c 8) as [->|H8]; [reflexivity|].
  destruct (N.eqb_spec c 12) as [->|H12]; [reflexivity|].
  destruct (N.ltb_spec c 32) as [Hlow|Hhigh].
  - cbn [app scanstring].
    change (92 =? 34)%N with false. change (92 =? 92)%N with true.
    change (117 =? 117)%N with true. cbv iota.
    rewrite hex4_escape by exact Hlow.
    replace (is_high_surrogate c) with false; [reflexivity|].
    symmetry. unfold is_high_surrogate.
    destruct (N.leb_spec 55296 c); [lia | reflexivity].
  - cbn [app scanstring].
    destruct (N.eqb_spec c 34); [contradiction|].
    destruct (N.eqb_spec c 92); [contradiction|].
    destruct (N.ltb_spec c 32); [lia | reflexivity].
Qed.

Lemma escape_chars_length (s : pystr) : length s ≤ length (escape_chars s).
Proof.
  induction s as [|c s IH]; simpl; [lia|].
  rewrite length_app.
  assert (1 ≤ length (escape_char c)); [|lia].
  unfold escape_char.
  repeat match goal with
         | |- context [if ?b then _ else _] => destruct b
         end; simpl; lia.
Qed.

(** [scanstring] reads a string literal back. *)
Lemma scanstring_escape_chars (s : pystr) :
  ∀ (fuel : nat) (rest : pystr),
    length s < fuel →
    scanstring fuel (escape_chars s ++ 34%N :: rest) = Ok (s, rest).
Proof.
  induction s as [|c s IH]; intros fuel rest Hfuel;
    (destruct fuel as [|fuel]; [inversion Hfuel|]).
  - reflexivity.
  - cbn [escape_chars]. rewrite <- app_assoc, scanstring_escape_char.
    rewrite IH by (simpl in Hfuel; lia). reflexivity.
Qed.

(** Evaluates the comparisons of literals in the goal. *)
Ltac eval_cmp :=
  repeat (match goal with
  | |- context [N.eqb ?a ?b] =>
    let v := eval vm_compute in (N.eqb a b) in
    match v with true => idtac | false => idtac end; change (N.eqb a b) with v
  | |- context [N.leb ?a ?b] =>
    let v := eval vm_compute in (N.leb a b) in
    match v with true => idtac | false => idtac end; change (N.leb a b) with v
  | |- context [N.ltb ?a ?b] =>
    let v := eval vm_compute in (N.ltb a b) in
    match v with true => idtac | false => idtac end; change (N.ltb a b) with v
  | |- context [is_ws ?a] =>
    let v := eval vm_compute in (is_ws a) in
    match v with true => idtac | false => idtac end; change (is_ws a) with v
  end; cbv beta iota; cbn [andb orb negb]).

(** Evaluates the text literals in the goal. *)
Ltac eval_txt :=
  repeat match goal with
  | |- context [txt ?s] =>
    let v := eval vm_compute in (txt s) in change (txt s) with v
  end.

Lemma uint_chars_digits (d : Decimal.uint) (rest : pystr) :
  match rest with [] => True | c :: _ => is_digit c = false end →
  span_digits (uint_chars d ++ rest) = (uint_chars d, rest).
Proof.
  intros Hrest. unfold uint_chars.
  induction d; cbn [app span_digits];
    try (change (is_digit _) with true; cbv iota; rewrite IHd; reflexivity).
  destruct rest as [|c rest]; [reflexivity|].
  cbn [span_digits]. rewrite Hrest. reflexivity.
Qed.

Lemma chars_uint_chars (d : Decimal.uint) : chars_uint (uint_chars d) = d.
Proof. unfold uint_chars. induction d; cbn; rewrite ?IHd; reflexivity. Qed.




Lemma to_uint_leading_nonzero (p : positive) : leading_nonzero (Pos.to_uint p).
Proof.
  pose proof (DecimalPos.Unsigned.to_uint_nonzero p) as Hnz.
  pose proof (DecimalPos.Unsigned.to_of (Pos.to_uint p)) as Hnorm.
  rewrite DecimalPos.Unsigned.of_to in Hnorm. simpl in Hnorm.
  destruct (Pos.to_uint p) as [|d| | | | | | | | |] eqn:Hd; simpl; auto.
  rewrite DecimalFacts.unorm_D0 in Hnorm.
  destruct d as [| | | | | | | | | |]; [apply Hnz; reflexivity|..].
  all: match type of Hnorm with
       | Decimal.D0 ?u = _ =>
         pose proof (DecimalFacts.nb_digits_unorm u ltac:(discriminate)) as Hlen;
         rewrite <- Hnorm in Hlen; simpl in Hlen; lia
       end.
Qed.

Lemma parse_value_null (fuel : nat) (rest : pystr) :
  parse_value (S fuel) (json_dumps JNull ++ rest) = Ok (JNull, rest).
Proof. reflexivity. Qed.
Lemma parse_value_bool (fuel : nat) b (rest : pystr) :
  parse_value (S fuel) (json_dumps (JBool b) ++ rest) = Ok (JBool b, rest).
Proof. destruct b; reflexivity. Qed.

Lemma parse_value_number (fuel : nat) (neg : bool) (d : Decimal.uint) (rest : pystr) :
  leading_nonzero d →
  parse_value (S fuel) ((if neg then [45%N] else []) ++ uint_chars d ++ rest)
  = parse_number ((if neg then [45%N] else []) ++ uint_chars d ++ rest).
Proof.
  intros Hd. destruct d; try contradiction; destruct neg; reflexivity.
Qed.


Lemma parse_value_str fuel s rest :
  parse_value (S fuel) (json_dumps (JStr s) ++ rest) = Ok (JStr s, rest).
Proof.
  cbn [json_dumps]. unfold quote. cbn [app parse_value]. eval_cmp.
  rewrite <- app_assoc. cbn [app].
  rewrite scanstring_escape_chars; [reflexivity|].
  rewrite length_app. pose proof (escape_chars_length s). simpl. lia.
Qed.

Lemma json_size_pos (v : json) : 1 ≤ json_size v.
Proof. destruct v; simpl; lia. Qed.

Lemma skip_ws_head (c : N) (t : pystr) : is_ws c = false → skip_ws (c :: t) = c :: t.
Proof. intros Hc. simpl. rewrite Hc. reflexivity. Qed.

Lemma json_dumps_head (v : json) :
  ∃ c t, json_dumps v = c :: t ∧ is_ws c = false ∧ (c =? 93)%N = false.
Proof.
  destruct v as [ |[|]|[|p|p]|s|[|x l]|[|[k x] d]];
    try (eexists _, _; split; [reflexivity|split; reflexivity]).
  cbn [json_dumps int_repr]. change (N.to_uint (N.pos p)) with (Pos.to_uint p).
  pose proof (to_uint_leading_nonzero p) as Hp.
  destruct (Pos.to_uint p); try contradiction;
    eexists _, _; (split; [reflexivity|split; reflexivity]).
Qed.


Lemma parse_elements_unfold (fuel : nat) (s : pystr) :
  parse_elements (S fuel) s
  = '(v, r) ← parse_value fuel s;
    match skip_ws r with
    | c :: r1 =>
      if (c =? 93)%N then Ok ([v], r1)
      else if (c =? 44)%N then push v (parse_elements fuel (skip_ws r1))
      else Raise JSONDecodeError
    | [] => Raise JSONDecodeError
    end.
Proof. reflexivity. Qed.

Lemma parse_members_unfold (fuel : nat) (s : pystr) :
  parse_members (S fuel) s
  = '(k, r) ← scanstring (S (length s)) s;
    match skip_ws r with
    | c :: r1 =>
      if (c =? 58)%N then
        '(v, r2) ← parse_value fuel (skip_ws r1);
        match skip_ws r2 with
        | c2 :: r3 =>
          if (c2 =? 125)%N then Ok ([(k, v)], r3)
          else if (c2 =? 44)%N then
            match skip_ws r3 with
            | q :: r4 =>
              if (q =? 34)%N then push (k, v) (parse_members fuel r4)
              else Raise JSONDecodeError
            | [] => Raise JSONDecodeError
            end
          else Raise JSONDecodeError
        | [] => Raise JSONDecodeError
        end
      else Raise JSONDecodeError
    | [] => Raise JSONDecodeError
    end.
Proof. reflexivity. Qed.

Lemma parse_value_arr (fuel : nat) (r : pystr) :
  parse_value (S fuel) (91%N :: r)
  = match skip_ws r with
    | c1 :: r2 =>
      if (c1 =? 93)%N then Ok (JArr [], r2)
      else '(xs, r3) ← parse_elements fuel (c1 :: r2); Ok (JArr xs, r3)
    | [] => Raise JSONDecodeError
    end.
Proof. reflexivity. Qed.

Lemma parse_value_obj (fuel : nat) (r : pystr) :
  parse_value (S fuel) (123%N :: r)
  = match skip_ws r with
    | c1 :: r2 =>
      if (c1 =? 125)%N then Ok (JObj [], r2)
      else if (c1 =? 34)%N then
        '(ps, r3) ← parse_members fuel r2; Ok (JObj (dict_of_pairs ps), r3)
      else Raise JSONDecodeError
    | [] => Raise JSONDecodeError
    end.
Proof. reflexivity. Qed.









(** ** The value codec (rebuild) *)

Lemma encode_value_wrapper (s : pystr) :
  Rebuild._encode_value (JObj [(txt "base64", JStr s)]) = b64decode s.
Proof. reflexivity. Qed.






(** * Further properties of the code

    Each is numbered X1, X2, ... *)

(** ** Stripping *)

Lemma lstrip_with_suffix (p : N → bool) (s : pystr) :
  ∃ pre, s = pre ++ lstrip_with p s ∧ Forall (λ c, p c = true) pre.
Proof.
  induction s as [|c r (pre & Hr & Hpre)]; [exists []; split; [reflexivity|constructor]|].
  simpl. destruct (p c) eqn:Hc.
  - exists (c :: pre). split; [simpl; congruence|constructor; assumption].
  - exists []. split; [reflexivity|constructor].
Qed.

Lemma lstrip_with_head (p : N → bool) (s : pystr) :
  match lstrip_with p s with [] => True | c :: _ => p c = false end.
Proof.
  induction s as [|c r IH]; [exact I|]. simpl. destruct (p c) eqn:Hc; [exact IH|exact Hc].
Qed.

Lemma lstrip_with_id (p : N → bool) (s : pystr) :
  match s with [] => True | c :: _ => p c = false end → lstrip_with p s = s.
Proof. destruct s as [|c r]; [reflexivity|]. simpl. intros ->. reflexivity. Qed.

(** What [strip_with] returns is a segment of its argument that neither
    starts nor ends with a stripped character. *)
Lemma strip_with_spec (p : N → bool) (s : pystr) :
  ∃ pre post, s = pre ++ strip_with p s ++ post
    ∧ Forall (λ c, p c = true) pre ∧ Forall (λ c, p c = true) post
    ∧ match strip_with p s with [] => True | c :: _ => p c = false end
    ∧ match last (strip_with p s) with None => True | Some c => p c = false end.
Proof.
  unfold strip_with.
  destruct (lstrip_with_suffix p s) as (pre & Hs & Hpre).
  destruct (lstrip_with_suffix p (reverse (lstrip_with p s))) as (post & Hr & Hpost).
  pose proof (lstrip_with_head p (reverse (lstrip_with p s))) as Hlast.
  set (m := lstrip_with p (reverse (lstrip_with p s))) in *.
  assert (Hmid : lstrip_with p s = reverse m ++ reverse post).
  { rewrite <- reverse_app, <- Hr, reverse_involutive. reflexivity. }
  exists pre, (reverse post). split; [|split; [|split; [|split]]].
  - rewrite <- Hmid. exact Hs.
  - exact Hpre.
  - apply Forall_reverse. exact Hpost.
  - pose proof (lstrip_with_head p s) as Hhead. rewrite Hmid in Hhead.
    destruct (reverse m) as [|c t] eqn:Hm; [exact I|]. exact Hhead.
  - rewrite last_reverse. destruct m as [|c t]; [exact I|exact Hlast].
Qed.

Lemma strip_with_id (p : N → bool) (s : pystr) :
  match s with [] => True | c :: _ => p c = false end →
  match last s with None => True | Some c => p c = false end →
  strip_with p s = s.
Proof.
  intros Hhead Hlast. unfold strip_with.
  rewrite (lstrip_with_id p s Hhead).
  rewrite lstrip_with_id; [apply reverse_involutive|].
  rewrite <- (reverse_involutive s) in Hlast. rewrite last_reverse in Hlast.
  destruct (reverse s); [exact I|exact Hlast].
Qed.

(** ** [_safe_name] *)

Section safe_names.
Context `{UnicodeDB}.

Lemma Forall_segment {A : Type} (P : A → Prop) (pre mid post : list A) :
  Forall P (pre ++ mid ++ post) → Forall P mid.
Proof. intros Hall. apply Forall_app in Hall as [_ Hall]. apply Forall_app in Hall as [Hall _]. exact Hall. Qed.

Lemma safe_name_is_safe (name : pystr) : is_safe_name (Dump._safe_name name).
Proof.
  unfold Dump._safe_name.
  set (cleaned := map _ (py_strip name)).
  destruct (strip_with_spec (λ c, (c =? 95)%N) cleaned)
    as (pre & post & Hseg & _ & _ & Hhead & Hlast).
  assert (Hall : Forall (λ c, safe_char c = true) cleaned).
  { unfold cleaned. apply Forall_forall. intros c Hc.
    apply list_elem_of_fmap in Hc as (ch & -> & _). unfold safe_char.
    destruct (isalnum ch || (ch =? 45)%N || (ch =? 95)%N) eqn:Hch; [exact Hch|].
    apply orb_true_r. }
  rewrite Hseg in Hall. apply Forall_segment in Hall.
  destruct (bool_decide _) eqn:Hempty.
  - split; [discriminate|]. split; [|split; discriminate].
    unfold safe_char, isalnum. repeat constructor.
  - apply bool_decide_eq_false in Hempty.
    split; [exact Hempty|]. split; [exact Hall|]. split.
    + destruct (strip_with _ cleaned) as [|c t]; [discriminate|].
      simpl. intros [= ->]. discriminate Hhead.
    + destruct (last (strip_with _ cleaned)) as [c|]; [|discriminate].
      intros [= ->]. discriminate Hlast.
Qed.

Lemma safe_char_ascii (c : N) :
  (c < 128)%N → safe_char c = true →
  (48 ≤ c ≤ 57 ∨ 65 ≤ c ≤ 90 ∨ 97 ≤ c ≤ 122 ∨ c = 45 ∨ c = 95)%N.
Proof.
  unfold safe_char, isalnum, ascii_isalnum. intros Hc.
  destruct (N.ltb_spec c 128); [|lia].
  intros Hs. repeat (apply orb_true_iff in Hs as [Hs|Hs]);
    try apply andb_true_iff in Hs as [?%N.leb_le ?%N.leb_le];
    try apply N.eqb_eq in Hs; lia.
Qed.

(** X2. Whatever the name, [_safe_name] returns a usable path component: it
    is never empty, holds only alphanumeric characters, hyphens and
    underscores (so no slash, backslash, dot, exclamation mark, NUL, space
    or newline), and neither starts nor ends with an underscore. *)
Theorem safe_name_path_component (name : pystr) :
  Dump._safe_name name ≠ []
  ∧ (∀ c, c ∈ Dump._safe_name name → isalnum c = true ∨ c = 45%N ∨ c = 95%N)
  ∧ (∀ c, c ∈ Dump._safe_name name → c ≠ 47%N ∧ c ≠ 92%N ∧ c ≠ 46%N ∧ c ≠ 33%N
                                      ∧ c ≠ 0%N ∧ c ≠ 32%N ∧ c ≠ 10%N)
  ∧ head (Dump._safe_name name) ≠ Some 95%N
  ∧ last (Dump._safe_name name) ≠ Some 95%N.
Proof.
  destruct (safe_name_is_safe name) as (Hne & Hall & Hhead & Hlast).
  split; [exact Hne|]. split; [|split; [|split; assumption]].
  - intros c Hc. rewrite Forall_forall in Hall. specialize (Hall c Hc).
    unfold safe_char in Hall.
    repeat (apply orb_true_iff in Hall as [Hall|Hall]); auto.
    + right. left. apply N.eqb_eq. exact Hall.
    + right. right. apply N.eqb_eq. exact Hall.
  - intros c Hc. rewrite Forall_forall in Hall. specialize (Hall c Hc).
    assert (Hcases : (128 ≤ c)%N ∨ (c < 128)%N) by lia.
    destruct Hcases as [Hbig|Hsmall]; [lia|].
    pose proof (safe_char_ascii c Hsmall Hall). lia.
Qed.

Lemma safe_name_fixed (s : pystr) :
  (∀ c, isalnum c = true → isspace c = false) →
  is_safe_name s → Dump._safe_name s = s.
Proof.
  intros Hdb (Hne & Hall & Hhead & Hlast).
  assert (Hns : ∀ c, safe_char c = true → isspace c = false).
  { intros c Hc. unfold safe_char in Hc.
    repeat (apply orb_true_iff in Hc as [Hc|Hc]); [auto|..];
      apply N.eqb_eq in Hc; subst c; reflexivity. }
  unfold Dump._safe_name.
  assert (Hstrip : py_strip s = s).
  { apply strip_with_id.
    - destruct s as [|c t]; [exact I|]. apply Hns. apply Forall_cons in Hall as [Hc _]. exact Hc.
    - destruct (last s) as [c|] eqn:Hl; [|exact I].
      apply Hns. rewrite Forall_forall in Hall. apply Hall.
      apply last_Some in Hl as [l' ->]. apply elem_of_app. right. apply list_elem_of_here. }
  rewrite Hstrip.
  assert (Hmap : map (λ ch, if isalnum ch || (ch =? 45)%N || (ch =? 95)%N then ch else 95%N) s = s).
  { clear -Hall. induction Hall as [|c t Hc _ IH]; [reflexivity|].
    simpl. unfold safe_char in Hc. rewrite Hc, IH. reflexivity. }
  rewrite Hmap.
  rewrite strip_with_id.
  - rewrite bool_decide_eq_false_2 by exact Hne. reflexivity.
  - destruct s as [|c t]; [exact I|]. apply N.eqb_neq. intros ->. apply Hhead. reflexivity.
  - destruct (last s) as [c|]; [|exact I]. apply N.eqb_neq. intros ->. apply Hlast. reflexivity.
Qed.

(** X3. Provided no alphanumeric character counts as whitespace,
    [_safe_name] leaves a safe name as it is, and is idempotent: applying it
    to its own result changes nothing. *)
Theorem safe_name_idempotent :
  (∀ c, isalnum c = true → isspace c = false) →
  (∀ s, is_safe_name s → Dump._safe_name s = s)
  ∧ (∀ name, Dump._safe_name (Dump._safe_name name) = Dump._safe_name name).
Proof.
  intros Hdb. split.
  - intros s Hs. exact (safe_name_fixed s Hdb Hs).
  - intros name. exact (safe_name_fixed _ Hdb (safe_name_is_safe name)).
Qed.

End safe_names.

Lemma ascii_db_alnum_not_space (c : N) :
  @isalnum ascii_db c = true → isspace c = false.
Proof.
  unfold isalnum, ascii_isalnum, isspace. simpl.
  destruct (N.ltb_spec c 128); [|discriminate].
  intros Hc. repeat (apply orb_true_iff in Hc as [Hc|Hc]);
    apply andb_true_iff in Hc as [?%N.leb_le ?%N.leb_le];
    repeat (apply orb_false_iff; split);
    first [apply andb_false_iff; first [left; apply N.leb_gt; lia | right; apply N.leb_gt; lia]
          | apply N.eqb_neq; lia].
Qed.

Lemma safe_name_idempotent_witness :
  @Dump._safe_name ascii_db (txt "Sword_of-Light") = txt "Sword_of-Light"
  ∧ @Dump._safe_name ascii_db (@Dump._safe_name ascii_db (txt " a/b "))
    = @Dump._safe_name ascii_db (txt " a/b ").
Proof.
  destruct (@safe_name_idempotent ascii_db ascii_db_alnum_not_space) as [Hfix Hidem].
  split; [|apply Hidem].
  apply Hfix. split; [discriminate|]. split; [|split; discriminate].
  apply Forall_forall. intros c Hc. apply list_elem_of_In in Hc.
  vm_compute in Hc. repeat (destruct Hc as [<-|Hc]; [reflexivity|]). destruct Hc.
Defined.

(** ** UTF-8: encoding undoes decoding *)

Lemma fmap_cons_Some {A : Type} (c : A) (m : option (list A)) (s : list A) :
  cons c <$> m = Some s → ∃ s', m = Some s' ∧ s = c :: s'.
Proof. destruct m as [s'|]; [|discriminate]. intros [= <-]. eauto. Qed.

Lemma utf8_encode_decode_N (n : nat) :
  ∀ (bs : list N) (s : pystr),
    length bs ≤ n → utf8_decode_N bs = Some s → utf8_encode_N s = Some bs.
Proof.
  induction n as [|n IH]; intros bs s Hlen Hdec.
  { destruct bs; [|simpl in Hlen; lia]. injection Hdec as <-. reflexivity. }
  destruct bs as [|b0 r0]; [injection Hdec as <-; reflexivity|].
  cbn [utf8_decode_N] in Hdec. cbn [length] in Hlen.
  destruct (N.ltb_spec b0 128) as [H0|H0].
  { apply fmap_cons_Some in Hdec as (s' & Hs' & ->).
    cbn [utf8_encode_N]. unfold utf8_encode_cp.
    destruct (N.ltb_spec b0 128); [|lia].
    rewrite (IH r0 s') by (lia || exact Hs'). reflexivity. }
  destruct (N.leb_spec 194 b0) as [H1|H1]; destruct (N.leb_spec b0 223) as [H2|H2];
    cbn [andb] in Hdec.
  { destruct r0 as [|b1 r1]; [discriminate|]. unfold is_cont in Hdec.
    destruct (N.leb_spec 128 b1); destruct (N.leb_spec b1 191);
      cbn [andb] in Hdec; try discriminate.
    apply fmap_cons_Some in Hdec as (s' & Hs' & ->). cbn [length] in Hlen.
    cbn [utf8_encode_N]. rewrite (IH r1 s') by (lia || exact Hs').
    unfold utf8_encode_cp.
    destruct (N.ltb_spec ((b0 - 192) * 64 + (b1 - 128)) 128); [lia|].
    destruct (N.ltb_spec ((b0 - 192) * 64 + (b1 - 128)) 2048); [|lia].
    cbn [app]. f_equal. repeat (apply (f_equal2 cons); [div_lia|]). reflexivity. }
  all: try lia.
  all: destruct (N.leb_spec 224 b0) as [H3|H3]; destruct (N.leb_spec b0 239) as [H4|H4];
    cbn [andb] in Hdec; try lia.
  { destruct r0 as [|b1 [|b2 r2]]; try discriminate. unfold is_cont in Hdec.
    destruct (N.leb_spec 128 b1); destruct (N.leb_spec b1 191);
    destruct (N.leb_spec 128 b2); destruct (N.leb_spec b2 191);
      cbn [andb] in Hdec; try discriminate.
    destruct (N.eqb_spec b0 224); destruct (N.leb_spec 160 b1);
      cbn [negb orb andb] in Hdec; try discriminate.
    all: destruct (N.eqb_spec b0 237); destruct (N.leb_spec b1 159);
      cbn [negb orb andb] in Hdec; try discriminate; try lia.
    all: apply fmap_cons_Some in Hdec as (s' & Hs' & ->); cbn [length] in Hlen;
      cbn [utf8_encode_N]; rewrite (IH r2 s') by (lia || exact Hs');
      unfold utf8_encode_cp.
    all: set (c := ((b0 - 224) * 4096 + (b1 - 128) * 64 + (b2 - 128))%N).
    all: destruct (N.ltb_spec c 128); [unfold c in *; lia|].
    all: destruct (N.ltb_spec c 2048); [unfold c in *; lia|].
    all: destruct (N.ltb_spec c 65536); [|unfold c in *; lia].
    all: destruct (N.leb_spec 55296 c); destruct (N.leb_spec c 57343);
      cbn [andb]; try (unfold c in *; lia).
    all: cbn [app]; f_equal; repeat (apply (f_equal2 cons); [unfold c; div_lia|]); reflexivity. }
  all: destruct (N.leb_spec 240 b0) as [H5|H5]; destruct (N.leb_spec b0 244) as [H6|H6];
    cbn [andb] in Hdec; try discriminate; try lia.
  destruct r0 as [|b1 [|b2 [|b3 r3]]]; try discriminate. unfold is_cont in Hdec.
  destruct (N.leb_spec 128 b1); destruct (N.leb_spec b1 191);
  destruct (N.leb_spec 128 b2); destruct (N.leb_spec b2 191);
  destruct (N.leb_spec 128 b3); destruct (N.leb_spec b3 191);
    cbn [andb] in Hdec; try discriminate.
  destruct (N.eqb_spec b0 240); destruct (N.leb_spec 144 b1);
    cbn [negb orb andb] in Hdec; try discriminate.
  all: destruct (N.eqb_spec b0 244); destruct (N.leb_spec b1 143);
    cbn [negb orb andb] in Hdec; try discriminate; try lia.
  all: apply fmap_cons_Some in Hdec as (s' & Hs' & ->); cbn [length] in Hlen;
    cbn [utf8_encode_N]; rewrite (IH r3 s') by (lia || exact Hs');
    unfold utf8_encode_cp.
  all: set (c := ((b0 - 240) * 262144 + (b1 - 128) * 4096 + (b2 - 128) * 64 + (b3 - 128))%N).
  all: destruct (N.ltb_spec c 128); [unfold c in *; lia|].
  all: destruct (N.ltb_spec c 2048); [unfold c in *; lia|].
  all: destruct (N.ltb_spec c 65536); [unfold c in *; lia|].
  all: destruct (N.ltb_spec c 1114112); [|unfold c in *; lia].
  all: cbn [app]; f_equal; repeat (apply (f_equal2 cons); [unfold c; div_lia|]); reflexivity.
Qed.

Lemma utf8_encode_decode (raw : bytes) (s : pystr) :
  utf8_decode raw = Some s → utf8_encode s = Ok raw.
Proof.
  unfold utf8_decode, utf8_encode. intros Hdec.
  rewrite (utf8_encode_decode_N _ _ _ (le_n _) Hdec).
  rewrite map_to_byte_to_N. reflexivity.
Qed.

(** ** Values dumped without parsing *)

(** X4. Dumped without parsing ([parse_json_values=False]), every store value
    comes back byte for byte: [_encode_value] of what [_coerce_value] and
    [_encode_bytes] make of the bytes is the bytes, be they UTF-8 text, JSON
    text or binary. *)
Theorem raw_value_round_trip (raw : bytes) :
  (v ← Dump._coerce_value raw false; Rebuild._encode_value v) = Ok raw
  ∧ Rebuild._encode_value (Dump._encode_bytes raw) = Ok raw.
Proof.
  assert (Henc : Rebuild._encode_value (Dump._encode_bytes raw) = Ok raw).
  { unfold Dump._encode_bytes. destruct (utf8_decode raw) as [text|] eqn:Hdec.
    - exact (utf8_encode_decode raw text Hdec).
    - rewrite encode_value_wrapper. apply b64decode_b64encode. }
  split; [|exact Henc]. exact Henc.
Qed.

(** ** [json.loads] reads back what [json.dumps] writes with [indent=2] *)

Lemma json_dumps_indent_arr (level : nat) (x : json) (r : list json) :
  json_dumps_indent level (JArr (x :: r))
  = 91%N :: newline_indent (S level) ++ json_dumps_indent (S level) x
      ++ dumps_indent_tail level r.
Proof.
  cbn [json_dumps_indent]. do 3 f_equal.
  induction r as [|y r IH]; [reflexivity|].
  cbn [dumps_indent_tail]. rewrite <- IH. reflexivity.
Qed.

Lemma json_dumps_indent_obj (level : nat) (k : pystr) (x : json) (r : pydict) :
  json_dumps_indent level (JObj ((k, x) :: r))
  = 123%N :: newline_indent (S level) ++ quote k ++ [58; 32]%N
      ++ json_dumps_indent (S level) x ++ dumps_indent_fields_tail level r.
Proof.
  cbn [json_dumps_indent]. do 5 f_equal.
  induction r as [|[k' y] r IH]; [reflexivity|].
  cbn [dumps_indent_fields_tail]. rewrite <- IH. reflexivity.
Qed.

Lemma skip_ws_spaces (n : nat) (s : pystr) :
  skip_ws (repeat 32%N n ++ s) = skip_ws s.
Proof. induction n as [|n IH]; [reflexivity|]. exact IH. Qed.

Lemma skip_ws_newline_indent (level : nat) (s : pystr) :
  skip_ws (newline_indent level ++ s) = skip_ws s.
Proof. unfold newline_indent. cbn [app skip_ws]. eval_cmp. apply skip_ws_spaces. Qed.

Lemma json_dumps_indent_head (level : nat) (v : json) :
  ∃ c t, json_dumps_indent level v = c :: t ∧ is_ws c = false ∧ (c =? 93)%N = false.
Proof.
  destruct v as [ | | | |[|x l]|[|[k x] d]];
    try exact (json_dumps_head _);
    eexists _, _; (split; [reflexivity|split; reflexivity]).
Qed.

Lemma skip_ws_dumps_indent (level : nat) (v : json) (rest : pystr) :
  skip_ws (json_dumps_indent level v ++ rest) = json_dumps_indent level v ++ rest.
Proof.
  destruct (json_dumps_indent_head level v) as (c & t & -> & Hws & _).
  apply skip_ws_head. exact Hws.
Qed.

Lemma is_float_tail_delimited_ws (rest : pystr) :
  delimited_ws rest → is_float_tail rest = false.
Proof.
  destruct rest as [|c rest]; [reflexivity|].
  intros [-> | [-> | [-> | ->]]]; reflexivity.
Qed.

Lemma is_digit_delimited_ws (rest : pystr) :
  delimited_ws rest →
  match rest with [] => True | c :: _ => is_digit c = false end.
Proof.
  destruct rest as [|c rest]; [reflexivity|].
  intros [-> | [-> | [-> | ->]]]; reflexivity.
Qed.

Lemma parse_number_uint_ws (neg : bool) (d : Decimal.uint) (rest : pystr) :
  leading_nonzero d → delimited_ws rest →
  parse_number ((if neg then [45%N] else []) ++ uint_chars d ++ rest)
  = Ok (JInt (if neg then (- Z.of_N (N.of_uint d))%Z
              else Z.of_N (N.of_uint d)), rest).
Proof.
  intros Hd Hrest.
  destruct d; try contradiction; destruct neg.
  all: unfold parse_number, uint_chars; cbn [app].
  all: fold (uint_chars d).
  all: eval_cmp.
  all: rewrite (uint_chars_digits d rest (is_digit_delimited_ws rest Hrest)).
  all: cbv beta iota; rewrite (is_float_tail_delimited_ws rest Hrest).
  all: cbn [chars_uint]; cbv zeta; eval_cmp; rewrite chars_uint_chars; reflexivity.
Qed.

Lemma parse_value_int_ws fuel n rest : delimited_ws rest →
  parse_value (S fuel) (json_dumps (JInt n) ++ rest) = Ok (JInt n, rest).
Proof.
  intros Hrest. destruct n as [|p|p]; cbn [json_dumps int_repr].
  - cbn [parse_value app]. eval_cmp. unfold parse_constant. eval_txt. cbn [strip_prefix]. eval_cmp.
    unfold parse_number. eval_cmp. rewrite (is_float_tail_delimited_ws rest Hrest). reflexivity.
  - change (N.to_uint (N.pos p)) with (Pos.to_uint p).
    pose proof (parse_value_number fuel false _ rest (to_uint_leading_nonzero p)) as Hv.
    pose proof (parse_number_uint_ws false _ rest (to_uint_leading_nonzero p) Hrest) as Hn.
    cbn [app] in Hv, Hn. rewrite Hv, Hn.
    change (N.of_uint (Pos.to_uint p)) with (Pos.of_uint (Pos.to_uint p)).
    rewrite DecimalPos.Unsigned.of_to. reflexivity.
  - change (N.to_uint (N.pos p)) with (Pos.to_uint p).
    pose proof (parse_value_number fuel true _ rest (to_uint_leading_nonzero p)) as Hv.
    pose proof (parse_number_uint_ws true _ rest (to_uint_leading_nonzero p) Hrest) as Hn.
    cbn [app] in Hv, Hn. cbn [app]. rewrite Hv, Hn.
    change (N.of_uint (Pos.to_uint p)) with (Pos.of_uint (Pos.to_uint p)).
    rewrite DecimalPos.Unsigned.of_to. reflexivity.
Qed.

Lemma delimited_ws_indent_tail (level : nat) (r : list json) (rest : pystr) :
  delimited_ws (dumps_indent_tail level r ++ rest).
Proof. destruct r; simpl; auto. Qed.

Lemma delimited_ws_indent_fields_tail (level : nat) (r : list (pystr * json))
    (rest : pystr) :
  delimited_ws (dumps_indent_fields_tail level r ++ rest).
Proof. destruct r as [|[k y] r]; simpl; auto. Qed.

Lemma parse_elements_dumps_indent (r : list json) :
  ∀ (x : json) (level fuel : nat) (rest : pystr),
    Forall reads_back_indent (x :: r) →
    json_size x + json_size (JArr r) ≤ fuel →
    parse_elements fuel
      (json_dumps_indent (S level) x ++ dumps_indent_tail level r ++ rest)
    = Ok (x :: r, rest).
Proof.
  induction r as [|y r IH]; intros x level fuel rest Hall Hfuel;
    apply Forall_cons in Hall as [Hx Hall];
    (destruct fuel as [|fuel]; [pose proof (json_size_pos x); lia|]);
    rewrite parse_elements_unfold.
  - rewrite Hx; [|simpl in Hfuel; lia|apply delimited_ws_indent_tail].
    cbn [dumps_indent_tail mbind res_mbind res_bind].
    rewrite <- app_assoc, skip_ws_newline_indent. cbn [app skip_ws]. eval_cmp.
    reflexivity.
  - rewrite Hx;
      [|rewrite json_size_arr in Hfuel; lia|apply delimited_ws_indent_tail].
    cbn [dumps_indent_tail app mbind res_mbind res_bind skip_ws]. eval_cmp.
    repeat rewrite <- app_assoc.
    rewrite skip_ws_newline_indent, skip_ws_dumps_indent.
    rewrite IH; [reflexivity | exact Hall |].
    rewrite json_size_arr in Hfuel. pose proof (json_size_pos x). lia.
Qed.

Lemma parse_members_dumps_indent (r : list (pystr * json)) :
  ∀ (k : pystr) (x : json) (level fuel : nat) (rest : pystr),
    Forall (λ kv, reads_back_indent kv.2) ((k, x) :: r) →
    json_size x + json_size (JObj r) ≤ fuel →
    parse_members fuel
      (escape_chars k ++ 34%N :: 58%N :: 32%N :: json_dumps_indent (S level) x
         ++ dumps_indent_fields_tail level r ++ rest)
    = Ok ((k, x) :: r, rest).
Proof.
  induction r as [|[k' y] r IH]; intros k x level fuel rest Hall Hfuel;
    apply Forall_cons in Hall as [Hx Hall]; simpl in Hx;
    (destruct fuel as [|fuel]; [pose proof (json_size_pos x); lia|]);
    rewrite parse_members_unfold;
    (rewrite scanstring_escape_chars;
       [|rewrite length_app; pose proof (escape_chars_length k); lia]);
    cbn [mbind res_mbind res_bind skip_ws]; eval_cmp; cbn [skip_ws]; eval_cmp;
    rewrite skip_ws_dumps_indent.
  - rewrite Hx; [|simpl in Hfuel; lia|apply delimited_ws_indent_fields_tail].
    cbn [dumps_indent_fields_tail mbind res_mbind res_bind].
    rewrite <- app_assoc, skip_ws_newline_indent. cbn [app skip_ws]. eval_cmp.
    reflexivity.
  - rewrite Hx;
      [|rewrite json_size_obj in Hfuel; lia|apply delimited_ws_indent_fields_tail].
    cbn [dumps_indent_fields_tail app mbind res_mbind res_bind skip_ws]. eval_cmp.
    repeat rewrite <- app_assoc. rewrite skip_ws_newline_indent.
    unfold quote. cbn [app skip_ws]. eval_cmp.
    repeat (rewrite <- app_assoc; cbn [app]).
    rewrite IH; [reflexivity | exact Hall |].
    rewrite json_size_obj in Hfuel. pose proof (json_size_pos x). lia.
Qed.

Lemma parse_value_dumps_indent (v : json) : json_wf v → reads_back_indent v.
Proof.
  induction v as [ |b|n|s|items IH|fields IH] using json_ind_nested;
    intros Hwf level fuel rest Hfuel Hrest;
    (destruct fuel as [|fuel]; [simpl in Hfuel; lia|]).
  - apply parse_value_null.
  - apply parse_value_bool.
  - apply parse_value_int_ws. exact Hrest.
  - apply parse_value_str.
  - inversion Hwf as [ | | | |items' Hitems| ]; subst.
    assert (Hall : Forall reads_back_indent items).
    { clear -IH Hitems. induction IH as [|x l Hx _ IHl]; [constructor|].
      apply Forall_cons in Hitems as [Hwx Hwl]. constructor; auto. }
    destruct items as [|x r]; [reflexivity|].
    rewrite json_dumps_indent_arr. cbn [app]. rewrite parse_value_arr.
    repeat rewrite <- app_assoc.
    rewrite skip_ws_newline_indent, skip_ws_dumps_indent.
    destruct (json_dumps_indent_head (S level) x) as (c & t & Hhead & _ & Hclose).
    rewrite Hhead. cbn [app]. rewrite Hclose.
    change (c :: t ++ dumps_indent_tail level r ++ rest)
      with ((c :: t) ++ dumps_indent_tail level r ++ rest).
    rewrite <- Hhead.
    rewrite parse_elements_dumps_indent; [reflexivity | exact Hall |].
    rewrite json_size_arr in Hfuel. lia.
  - inversion Hwf as [ | | | | |fields' Hnd Hfields]; subst.
    assert (Hall : Forall (λ kv, reads_back_indent kv.2) fields).
    { clear -IH Hfields. induction IH as [|x l Hx _ IHl]; [constructor|].
      apply Forall_cons in Hfields as [Hwx Hwl]. constructor; auto. }
    destruct fields as [|[k x] r]; [reflexivity|].
    rewrite json_dumps_indent_obj. cbn [app]. rewrite parse_value_obj.
    repeat rewrite <- app_assoc. rewrite skip_ws_newline_indent.
    unfold quote. cbn [app skip_ws]. eval_cmp.
    repeat (rewrite <- app_assoc; cbn [app]).
    rewrite parse_members_dumps_indent; [|exact Hall|rewrite json_size_obj in Hfuel; lia].
    cbn [mbind res_mbind res_bind]. rewrite dict_of_pairs_NoDup by exact Hnd.
    reflexivity.
Qed.

Lemma json_dumps_indent_nonempty (level : nat) (v : json) :
  1 ≤ length (json_dumps_indent level v).
Proof.
  destruct (json_dumps_indent_head level v) as (c & t & -> & _). simpl. lia.
Qed.

Lemma json_size_le_dumps_indent (v : json) :
  ∀ level, json_size v ≤ 2 * length (json_dumps_indent level v).
Proof.
  induction v as [ |b|n|s|items IH|fields IH] using json_ind_nested; intros level;
    [ simpl; lia
    | pose proof (json_dumps_indent_nonempty level (JBool b)); simpl json_size; lia
    | pose proof (json_dumps_indent_nonempty level (JInt n)); simpl json_size; lia
    | pose proof (json_dumps_indent_nonempty level (JStr s)); simpl json_size; lia
    | | ].
  - destruct items as [|x r]; [simpl; lia|].
    apply Forall_cons in IH as [Hx Hr].
    assert (Htail : json_size (JArr r) ≤ 2 * length (dumps_indent_tail level r)).
    { clear -Hr. induction Hr as [|y l Hy _ IHl];
        [cbn [dumps_indent_tail]; rewrite length_app; simpl; lia|].
      rewrite json_size_arr. cbn [dumps_indent_tail length].
      rewrite !length_app. specialize (Hy (S level)). lia. }
    rewrite json_size_arr, json_dumps_indent_arr. cbn [length].
    rewrite !length_app. specialize (Hx (S level)). lia.
  - destruct fields as [|[k x] r]; [simpl; lia|].
    apply Forall_cons in IH as [Hx Hr]. simpl in Hx.
    assert (Htail : json_size (JObj r) ≤ 2 * length (dumps_indent_fields_tail level r)).
    { clear -Hr. induction Hr as [|[k' y] l Hy _ IHl];
        [cbn [dumps_indent_fields_tail]; rewrite length_app; simpl; lia|].
      simpl in Hy. rewrite json_size_obj. cbn [dumps_indent_fields_tail length].
      rewrite !length_app. specialize (Hy (S level)). lia. }
    rewrite json_size_obj, json_dumps_indent_obj. cbn [length].
    rewrite !length_app. specialize (Hx (S level)). lia.
Qed.

(** [json.loads(json.dumps(v, indent=2)) == v] for a value without floats. *)
Lemma json_loads_dumps_indent (v : json) :
  json_wf v → json_loads (json_dumps_indent 0 v) = Ok v.
Proof.
  intros Hwf. unfold json_loads.
  pose proof (skip_ws_dumps_indent 0 v []) as Hws. rewrite app_nil_r in Hws. rewrite Hws.
  pose proof (parse_value_dumps_indent v Hwf 0
                (2 * length (json_dumps_indent 0 v) + 1) []) as Hread.
  rewrite app_nil_r in Hread. rewrite Hread.
  - reflexivity.
  - pose proof (json_size_le_dumps_indent v 0). lia.
  - exact I.
Qed.

(** ** Record files: reading back what was written (rebuild) *)

Lemma read_json_write_json (fs fs' : gmap path Rebuild.node) (p : path) (v : json) :
  json_wf v → Rebuild._write_json fs p v = Ok fs' →
  Rebuild._read_json fs' p = Ok v.
Proof.
  unfold Rebuild._write_json, Rebuild._read_json, Rebuild.read_bytes.
  intros Hwf Hwrite.
  destruct (utf8_encode (json_dumps_indent 0 v)) as [raw|e] eqn:Hraw; [|discriminate].
  simpl in Hwrite. injection Hwrite as <-.
  rewrite lookup_insert_eq. simpl.
  rewrite (utf8_decode_encode _ _ Hraw). apply json_loads_dumps_indent. exact Hwf.
Qed.

(** X5. What [_write_json] writes to a record file, [_read_json] reads back
    as the same value (for a value without floats whose dictionaries hold
    each key once), and no other file of the tree is touched. *)
Theorem write_json_then_read_json (fs fs' : gmap path Rebuild.node) (p : path)
    (v : json) :
  json_wf v → Rebuild._write_json fs p v = Ok fs' →
  Rebuild._read_json fs' p = Ok v
  ∧ ∀ q, q ≠ p → fs' !! q = fs !! q.
Proof.
  intros Hwf Hwrite. split; [exact (read_json_write_json fs fs' p v Hwf Hwrite)|].
  intros q Hq. unfold Rebuild._write_json in Hwrite.
  destruct (utf8_encode (json_dumps_indent 0 v)) as [raw|e]; [|discriminate].
  simpl in Hwrite. injection Hwrite as <-. apply lookup_insert_ne. congruence.
Qed.

Lemma write_json_then_read_json_witness :
  ∃ fs', Rebuild._write_json sword_tree [txt "items"; txt "Sword__i1.json"]
           (JObj [(txt "name", JStr (txt "Axe")); (txt "tags", JArr [JInt 1; JNull])])
         = Ok fs'
         ∧ Rebuild._read_json fs' [txt "items"; txt "Sword__i1.json"]
           = Ok (JObj [(txt "name", JStr (txt "Axe")); (txt "tags", JArr [JInt 1; JNull])]).
Proof.
  destruct (res_is_ok (Rebuild._write_json sword_tree [txt "items"; txt "Sword__i1.json"]
           (JObj [(txt "name", JStr (txt "Axe")); (txt "tags", JArr [JInt 1; JNull])])))
    as [fs' Hwrite]; [vm_compute; reflexivity|].
  exists fs'. split; [exact Hwrite|].
  refine (proj1 (write_json_then_read_json _ _ _ _ _ Hwrite)).
  constructor.
  - apply (bool_decide_unpack _). vm_compute. exact I.
  - repeat constructor.
Defined.

(** ** Store keys: the three parsers on a key [!root!id] *)

Lemma split_on_whole (sep : N) (s : pystr) : sep ∉ s → split_on sep s = [s].
Proof.
  induction s as [|c r IH]; intros Hs; [reflexivity|].
  apply not_elem_of_cons in Hs as [Hc Hr]. simpl.
  destruct (N.eqb_spec c sep) as [->|_]; [contradiction|].
  rewrite (IH Hr). reflexivity.
Qed.

Lemma split_on_app (sep : N) (a b : pystr) :
  sep ∉ a → split_on sep (a ++ sep :: b) = a :: split_on sep b.
Proof.
  induction a as [|c r IH]; intros Ha.
  - simpl. rewrite N.eqb_refl. reflexivity.
  - apply not_elem_of_cons in Ha as [Hc Hr]. simpl.
    destruct (N.eqb_spec c sep) as [->|_]; [contradiction|].
    rewrite (IH Hr). reflexivity.
Qed.

(** The parts of [!root!id] followed by nothing or by further parts. *)
Lemma split_on_key (root id tail : pystr) :
  33%N ∉ root → 33%N ∉ id → tail = [] ∨ head tail = Some 33%N →
  ∃ more, split_on 33 (txt "!" ++ root ++ txt "!" ++ id ++ tail)
          = [] :: root :: id :: more.
Proof.
  intros Hroot Hid Htail.
  change (txt "!" ++ root ++ txt "!" ++ id ++ tail)
    with ([] ++ 33%N :: root ++ 33%N :: id ++ tail).
  rewrite split_on_app by apply not_elem_of_nil.
  rewrite split_on_app by exact Hroot.
  destruct Htail as [->|Htail].
  - rewrite app_nil_r, (split_on_whole _ _ Hid). eauto.
  - destruct tail as [|c t]; [discriminate|]. injection Htail as ->.
    rewrite split_on_app by exact Hid. eauto.
Qed.

(** X6. On a key [!root!id], alone or followed by further [!]-separated
    parts, with a non-empty root and no [!] inside root or id, the three key
    parsers agree: the dump's [_parse_key_parts] gives back root, id and the
    key text, the comparison's [_extract_id] gives the id, and the rebuild's
    [_extract_id_from_key] gives the id stripped of surrounding whitespace
    (nothing if that is empty). *)
Theorem key_parsers_agree (root id tail : pystr) (raw : bytes) :
  root ≠ [] → 33%N ∉ root → 33%N ∉ id → tail = [] ∨ head tail = Some 33%N →
  utf8_encode (txt "!" ++ root ++ txt "!" ++ id ++ tail) = Ok raw →
  Dump._parse_key_parts raw
  = (root, id, txt "!" ++ root ++ txt "!" ++ id ++ tail)
  ∧ Compare._extract_id (txt "!" ++ root ++ txt "!" ++ id ++ tail) = id
  ∧ Rebuild._extract_id_from_key (txt "!" ++ root ++ txt "!" ++ id ++ tail)
    = (if bool_decide (py_strip id = []) then None else Some (py_strip id)).
Proof.
  intros Hne Hroot Hid Htail Hraw.
  destruct (split_on_key root id tail Hroot Hid Htail) as [more Hsplit].
  split; [|split].
  - unfold Dump._parse_key_parts. rewrite (utf8_decode_encode _ _ Hraw).
    change (startswith (txt "!") (txt "!" ++ root ++ txt "!" ++ id ++ tail)) with true.
    cbv iota. rewrite Hsplit. rewrite bool_decide_eq_false_2 by exact Hne. reflexivity.
  - unfold Compare._extract_id.
    change (startswith (txt "!") (txt "!" ++ root ++ txt "!" ++ id ++ tail)) with true.
    cbv iota. rewrite Hsplit. reflexivity.
  - unfold Rebuild._extract_id_from_key.
    change (startswith (txt "!") (txt "!" ++ root ++ txt "!" ++ id ++ tail)) with true.
    cbn [negb]. cbv iota. rewrite Hsplit. reflexivity.
Qed.

Lemma key_parsers_agree_witness :
  @Dump._parse_key_parts (map to_byte (txt "!items!i1!x"))
  = (txt "items", txt "i1", txt "!items!i1!x")
  ∧ Compare._extract_id (txt "!items!i1!x") = txt "i1"
  ∧ Rebuild._extract_id_from_key (txt "!items!i1!x") = Some (txt "i1").
Proof.
  apply (key_parsers_agree (txt "items") (txt "i1") (txt "!x")).
  - discriminate.
  - apply (bool_decide_unpack _). vm_compute. exact I.
  - apply (bool_decide_unpack _). vm_compute. exact I.
  - right. reflexivity.
  - vm_compute. reflexivity.
Defined.

(** ** Folder-path resolution: the memo, cycles and chains that end (dump) *)

Section folder_memo.
Context `{UnicodeDB}.

Lemma compute_folder_path_memo (fuel : nat) :
  ∀ (id : pystr) (idx : gmap pystr pydict) (memo memo' : gmap pystr path)
    (r : option path),
    Dump._compute_folder_path fuel id idx memo = Ok (r, memo') →
    memo ⊆ memo'
    ∧ match r with
      | Some p => memo' !! id = Some p
      | None => memo' = memo ∧ memo !! id = None
                ∧ (idx !! id = None ∨ idx !! id = Some [])
      end.
Proof.
  induction fuel as [|fuel IH]; intros id idx memo memo' r Hrun; [discriminate Hrun|].
  rewrite compute_folder_path_unfold in Hrun.
  destruct (memo !! id) as [p|] eqn:Hmemo.
  { injection Hrun as <- <-. split; [reflexivity|exact Hmemo]. }
  destruct (idx !! id) as [[|kv folder]|] eqn:Hidx.
  1,3: injection Hrun as <- <-; split; [reflexivity|auto].
  apply bind_Ok in Hrun as (name & Hname & Hrun).
  destruct (Dump.parent_link id (kv :: folder) idx) as [pid|].
  - apply bind_Ok in Hrun as ([parent memo1] & Hpar & Hrun).
    destruct (IH _ _ _ _ _ Hpar) as [Hsub _].
    destruct parent as [p|]; injection Hrun as <- <-;
      (split; [apply insert_subseteq_r; assumption|apply lookup_insert_eq]).
  - injection Hrun as <- <-.
    split; [apply insert_subseteq_r; [assumption|reflexivity]|apply lookup_insert_eq].
Qed.

(** X7. [_compute_folder_path] memoizes: a call that returns only adds to
    the memo, stores the path it returns under the folder id (and leaves the
    memo as it was when it returns nothing), and any later call for the same
    id returns the same answer in one frame without changing the memo. *)
Theorem compute_folder_path_memoizes (fuel : nat) (id : pystr)
    (idx : gmap pystr pydict) (memo memo' : gmap pystr path) (r : option path) :
  Dump._compute_folder_path fuel id idx memo = Ok (r, memo') →
  memo ⊆ memo'
  ∧ (∀ p, r = Some p → memo' !! id = Some p)
  ∧ (r = None → memo' = memo)
  ∧ ∀ fuel', Dump._compute_folder_path (S fuel') id idx memo' = Ok (r, memo').
Proof.
  intros Hrun. destruct (compute_folder_path_memo _ _ _ _ _ _ Hrun) as [Hsub Hr].
  split; [exact Hsub|]. split; [|split].
  - intros p ->. exact Hr.
  - intros ->. exact (proj1 Hr).
  - intros fuel'. rewrite compute_folder_path_unfold.
    destruct r as [p|].
    + rewrite Hr. reflexivity.
    + destruct Hr as (-> & Hmemo & [Hidx|Hidx]); rewrite Hmemo, Hidx; reflexivity.
Qed.

(** X8. A folder with no usable parent gets a root-level path in one frame:
    when its ["folder"] field is missing, not a string, empty, names an id
    that the index does not hold, or names the folder itself, the path is
    the folder's own sanitized name, and that is what the memo records. *)
Theorem compute_folder_path_without_parent (fuel : nat) (id name : pystr)
    (idx : gmap pystr pydict) (memo : gmap pystr path) (folder : pydict) :
  idx !! id = Some folder → folder ≠ [] → memo !! id = None →
  Dump.folder_name id folder = Ok name →
  match dict_get (txt "folder") folder with
  | Some (JStr parent_id) =>
    parent_id = [] ∨ idx !! parent_id = None ∨ parent_id = id
  | _ => True
  end →
  Dump._compute_folder_path (S fuel) id idx memo
  = Ok (Some [name], <[id := [name]]> memo).
Proof.
  intros Hidx Hne Hmemo Hname Hparent.
  rewrite compute_folder_path_unfold, Hmemo, Hidx.
  destruct folder as [|kv folder]; [contradiction|].
  rewrite Hname. simpl.
  assert (Hlink : Dump.parent_link id (kv :: folder) idx = None).
  { unfold Dump.parent_link.
    destruct (dict_get (txt "folder") (kv :: folder)) as [[ | | |pid| | ]|]; try reflexivity.
    destruct Hparent as [-> | [Hp | ->]].
    - reflexivity.
    - rewrite (bool_decide_eq_false_2 (is_Some _));
        [rewrite andb_false_r; reflexivity|].
      rewrite Hp. intros [x Hx]. discriminate Hx.
    - rewrite (bool_decide_eq_true_2 (id = id)) by reflexivity.
      rewrite andb_false_r. reflexivity. }
  rewrite Hlink. reflexivity.
Qed.

(** X9. Every cycle of parent links makes the resolution fail, not only the
    one of two folders: from any id of a set of unresolved folders that each
    name a parent in the set, [_compute_folder_path] ends in
    [RecursionError] whatever the recursion limit. *)
Theorem compute_folder_path_cycle (idx : gmap pystr pydict)
    (memo : gmap pystr path) (cycle : pystr → Prop) :
  (∀ id, cycle id →
     memo !! id = None
     ∧ ∃ folder name parent_id,
         idx !! id = Some folder ∧ folder ≠ []
         ∧ Dump.folder_name id folder = Ok name
         ∧ Dump.parent_link id folder idx = Some parent_id
         ∧ cycle parent_id) →
  ∀ fuel id, cycle id →
    Dump._compute_folder_path fuel id idx memo = Raise RecursionError.
Proof.
  intros Hcycle. induction fuel as [|fuel IH]; intros id Hid; [reflexivity|].
  destruct (Hcycle id Hid) as (Hmemo & folder & name & pid & Hidx & Hne & Hname & Hlink & Hpid).
  rewrite compute_folder_path_unfold, Hmemo, Hidx.
  destruct folder as [|kv folder]; [contradiction|].
  rewrite Hname. simpl. rewrite Hlink, (IH pid Hpid). reflexivity.
Qed.

(** A chain of parent links that ends gives a path. *)
Lemma resolves_of_rank (idx : gmap pystr pydict) (rank : pystr → nat) :
  (∀ id folder parent_id, idx !! id = Some folder →
     Dump.parent_link id folder idx = Some parent_id → rank parent_id < rank id) →
  (∀ id folder, idx !! id = Some folder → is_ok (Dump.folder_name id folder) = true) →
  ∀ n id folder, rank id < n → idx !! id = Some folder → folder ≠ [] →
    ∃ p, Dump.resolves idx id p ∧ length p ≤ S (rank id).
Proof.
  intros Hrank Hnames. induction n as [|n IH]; intros id folder Hn Hidx Hne; [lia|].
  destruct (res_is_ok _ (Hnames id folder Hidx)) as [name Hname].
  destruct (Dump.parent_link id folder idx) as [pid|] eqn:Hlink.
  - pose proof (Hrank _ _ _ Hidx Hlink) as Hlt.
    assert (Hpid : is_Some (idx !! pid)).
    { unfold Dump.parent_link in Hlink.
      destruct (dict_get (txt "folder") folder) as [[ | | |q| | ]|]; try discriminate.
      destruct (bool_decide (is_Some (idx !! q))) eqn:Hq;
        [|rewrite andb_false_r in Hlink; discriminate].
      apply bool_decide_eq_true in Hq.
      destruct (negb (bool_decide (q = [])) && true && negb (bool_decide (q = id)));
        [|discriminate]. injection Hlink as <-. exact Hq. }
    destruct Hpid as [pf Hpf].
    destruct pf as [|kv pf].
    + exists [name]. split; [|simpl; lia].
      eapply Dump.resolves_orphan; eauto.
    + destruct (IH pid (kv :: pf)) as (p & Hp & Hlen); [lia|exact Hpf|discriminate|].
      exists (p ++ [name]). split; [eapply Dump.resolves_child; eauto|].
      rewrite length_app. simpl. lia.
  - exists [name]. split; [eapply Dump.resolves_root; eauto|simpl; lia].
Qed.

(** X10. Without cycles the resolution returns: if some rank decreases along
    every parent link of the index (and every folder name can be turned
    into a string), a call with more frames than the rank of the id plus one
    returns for any consistent memo, keeps the memo consistent, and returns
    nothing exactly for an id that the index does not hold (or holds with
    an empty payload). *)
Theorem compute_folder_path_returns (idx : gmap pystr pydict)
    (rank : pystr → nat) (memo : gmap pystr path) (fuel : nat) (id : pystr) :
  (∀ id folder parent_id, idx !! id = Some folder →
     Dump.parent_link id folder idx = Some parent_id → rank parent_id < rank id) →
  (∀ id folder, idx !! id = Some folder → is_ok (Dump.folder_name id folder) = true) →
  Dump.memo_consistent idx memo →
  S (rank id) < fuel →
  ∃ r memo', Dump._compute_folder_path fuel id idx memo = Ok (r, memo')
             ∧ Dump.memo_consistent idx memo'
             ∧ (r = None ↔ idx !! id = None ∨ idx !! id = Some []).
Proof.
  intros Hrank Hnames Hmemo Hfuel.
  destruct (idx !! id) as [folder|] eqn:Hidx.
  - destruct folder as [|kv folder].
    + destruct fuel as [|fuel]; [lia|].
      assert (Hm : memo !! id = None).
      { destruct (memo !! id) as [p|] eqn:Hp; [|reflexivity].
        destruct (resolves_in_index _ _ _ (Hmemo _ _ Hp)) as (f & Hf & Hfne).
        rewrite Hidx in Hf. injection Hf as <-. contradiction. }
      exists None, memo. rewrite compute_folder_path_unfold, Hm, Hidx.
      split; [reflexivity|]. split; [exact Hmemo|]. split; auto.
    + destruct (resolves_of_rank idx rank Hrank Hnames (S (rank id)) id (kv :: folder))
        as (p & Hp & Hlen); [lia|exact Hidx|discriminate|].
      destruct (compute_folder_path_complete idx id p Hp fuel memo Hmemo)
        as (memo' & Hrun & Hmemo'); [lia|].
      exists (Some p), memo'. split; [exact Hrun|]. split; [exact Hmemo'|].
      split; [discriminate|]. intros [Hn|Hn]; discriminate Hn.
  - destruct fuel as [|fuel]; [lia|].
    exists None, memo. rewrite (compute_folder_path_unknown _ _ _ _ Hidx Hmemo).
    split; [reflexivity|]. split; [exact Hmemo|]. split; auto.
Qed.

End folder_memo.

Lemma compute_folder_path_memoizes_witness :
  ∃ memo',
    @Dump._compute_folder_path ascii_db 4 (txt "C") chain_index ∅
    = Ok (Some [txt "A"; txt "B"; txt "C"], memo')
    ∧ memo' !! txt "C" = Some [txt "A"; txt "B"; txt "C"]
    ∧ @Dump._compute_folder_path ascii_db 1 (txt "C") chain_index memo'
      = Ok (Some [txt "A"; txt "B"; txt "C"], memo').
Proof.
  destruct (res_is_ok (@Dump._compute_folder_path ascii_db 4 (txt "C") chain_index ∅))
    as [[r memo'] Hrun]; [vm_compute; reflexivity|].
  assert (Hr : match @Dump._compute_folder_path ascii_db 4 (txt "C") chain_index ∅ with
               | Ok (r, _) => r
               | Raise _ => None
               end = Some [txt "A"; txt "B"; txt "C"]) by (vm_compute; reflexivity).
  rewrite Hrun in Hr. subst r.
  destruct (@compute_folder_path_memoizes ascii_db 4 (txt "C") chain_index ∅ memo' _ Hrun)
    as (_ & Hstored & _ & Hagain).
  exists memo'. split; [exact Hrun|]. split; [apply Hstored; reflexivity|apply Hagain].
Defined.

Lemma compute_folder_path_without_parent_witness :
  @Dump._compute_folder_path ascii_db 1 (txt "A") loner_index ∅
  = Ok (Some [txt "A"], {[ txt "A" := [txt "A"] ]})
  ∧ @Dump._compute_folder_path ascii_db 1 (txt "B") loner_index ∅
    = Ok (Some [txt "B"], {[ txt "B" := [txt "B"] ]}).
Proof.
  split.
  - apply (@compute_folder_path_without_parent ascii_db 0 (txt "A") (txt "A")
             loner_index ∅ (folder_payload "A" (Some "A"))).
    + vm_compute. reflexivity.
    + discriminate.
    + apply lookup_empty.
    + vm_compute. reflexivity.
    + right. right. reflexivity.
  - apply (@compute_folder_path_without_parent ascii_db 0 (txt "B") (txt "B")
             loner_index ∅ (folder_payload "B" (Some "Z"))).
    + vm_compute. reflexivity.
    + discriminate.
    + apply lookup_empty.
    + vm_compute. reflexivity.
    + right. left. vm_compute. reflexivity.
Defined.

Lemma compute_folder_path_cycle_witness :
  @Dump._compute_folder_path ascii_db 1000 (txt "B") cyclic_index ∅
  = Raise RecursionError.
Proof.
  apply (@compute_folder_path_cycle ascii_db cyclic_index ∅
           (λ id, id = txt "A" ∨ id = txt "B")); [|right; reflexivity].
  intros id [-> | ->]; (split; [apply lookup_empty|]).
  - exists (folder_payload "A" (Some "B")), (txt "A"), (txt "B").
    repeat split; first [discriminate | vm_compute; reflexivity | right; reflexivity].
  - exists (folder_payload "B" (Some "A")), (txt "B"), (txt "A").
    repeat split; first [discriminate | vm_compute; reflexivity | left; reflexivity].
Defined.

Lemma chain_index_lookup (id : pystr) (folder : pydict) :
  chain_index !! id = Some folder →
  (id = txt "A" ∧ folder = folder_payload "A" None)
  ∨ (id = txt "B" ∧ folder = folder_payload "B" (Some "A"))
  ∨ (id = txt "C" ∧ folder = folder_payload "C" (Some "B")).
Proof.
  unfold chain_index. intros Hid.
  apply lookup_insert_Some in Hid as [[<- <-]|[_ Hid]]; [auto|].
  apply lookup_insert_Some in Hid as [[<- <-]|[_ Hid]]; [auto|].
  apply lookup_insert_Some in Hid as [[<- <-]|[_ Hid]]; [auto|].
  rewrite lookup_empty in Hid. discriminate Hid.
Qed.

Lemma compute_folder_path_returns_witness :
  ∃ r memo', @Dump._compute_folder_path ascii_db 4 (txt "C") chain_index ∅
             = Ok (r, memo') ∧ r ≠ None.
Proof.
  destruct (@compute_folder_path_returns ascii_db chain_index chain_rank ∅ 4 (txt "C"))
    as (r & memo' & Hrun & _ & Hnone).
  - intros id folder pid Hid Hlink.
    apply chain_index_lookup in Hid as [[-> ->] | [[-> ->] | [-> ->]]];
      vm_compute in Hlink; [discriminate Hlink| |];
      injection Hlink as <-; vm_compute; lia.
  - intros id folder Hid.
    apply chain_index_lookup in Hid as [[-> ->] | [[-> ->] | [-> ->]]];
      vm_compute; reflexivity.
  - apply memo_consistent_empty.
  - vm_compute. lia.
  - exists r, memo'. split; [exact Hrun|]. intros Hr.
    apply Hnone in Hr as [Hr|Hr]; vm_compute in Hr; discriminate Hr.
Defined.

(** ** The folder index (dump) *)

Lemma build_folder_index_cons (r : Dump.record) (rs : list Dump.record)
    (acc : gmap pystr pydict) :
  Dump._build_folder_index (r :: rs) acc
  = e ← folder_entry r;
    Dump._build_folder_index rs
      match e with Some (id, payload) => <[id := payload]> acc | None => acc end.
Proof.
  unfold folder_entry. cbn [Dump._build_folder_index].
  destruct (Dump._folder_payload r) as [[|kv payload]|]; try reflexivity.
  destruct (Dump.folder_id_of (kv :: payload) r) as [id|e]; [|reflexivity].
  simpl. destruct (bool_decide (id = [])); reflexivity.
Qed.

Lemma py_strip_idempotent (s : pystr) : py_strip (py_strip s) = py_strip s.
Proof.
  unfold py_strip.
  destruct (strip_with_spec isspace s) as (pre & post & _ & _ & _ & Hhead & Hlast).
  apply strip_with_id; assumption.
Qed.

Lemma folder_entry_Some (r : Dump.record) (id : pystr) (payload : pydict) :
  folder_entry r = Ok (Some (id, payload)) →
  Dump.rec_value r = JObj payload ∧ payload ≠ [] ∧ id ≠ [] ∧ py_strip id = id.
Proof.
  unfold folder_entry, Dump._folder_payload.
  destruct (Dump.rec_value r) as [ | | | | |d]; try discriminate.
  destruct d as [|kv d]; [discriminate|].
  destruct (Dump.folder_id_of (kv :: d) r) as [fid|e] eqn:Hfid; [|discriminate].
  simpl. destruct (bool_decide (fid = [])) eqn:Hempty; [discriminate|].
  intros [= <- <-]. apply bool_decide_eq_false in Hempty.
  split; [reflexivity|]. split; [discriminate|]. split; [exact Hempty|].
  unfold Dump.folder_id_of in Hfid.
  apply bind_Ok in Hfid as (s & _ & Hfid). injection Hfid as <-.
  apply py_strip_idempotent.
Qed.

Lemma foldl_insert_list_to_map {V : Type} (es : list (pystr * V)) :
  ∀ acc : gmap pystr V,
    foldl (λ m e, <[e.1 := e.2]> m) acc es = list_to_map (reverse es) ∪ acc.
Proof.
  induction es as [|[k v] es IH]; intros acc.
  - simpl. rewrite (left_id_L ∅ (∪)). reflexivity.
  - cbn [foldl]. rewrite IH, reverse_cons, list_to_map_app. cbn [list_to_map fst snd].
    rewrite <- (assoc_L (∪)). f_equal. simpl.
    rewrite insert_empty, <- insert_union_singleton_l. reflexivity.
Qed.

(** The index is the accumulator with the entries of the records inserted
    in order. *)
Lemma build_folder_index_entries (rs : list Dump.record) :
  ∀ acc idx : gmap pystr pydict,
    Dump._build_folder_index rs acc = Ok idx ↔
    Forall (λ r, is_ok (folder_entry r) = true) rs
    ∧ idx = foldl (λ m e, <[e.1 := e.2]> m) acc (folder_entries rs).
Proof.
  induction rs as [|r rs IH]; intros acc idx.
  { simpl. split; [intros [= <-]; split; [constructor|reflexivity]|intros [_ ->]; reflexivity]. }
  rewrite build_folder_index_cons. unfold folder_entries. cbn [omap list_omap].
  destruct (folder_entry r) as [e|err] eqn:He; simpl.
  - rewrite IH. fold (folder_entries rs). split.
    + intros [Hall ->]. split; [constructor; [rewrite He; reflexivity|exact Hall]|].
      destruct e as [[i p]|]; reflexivity.
    + intros [Hall ->]. apply Forall_cons in Hall as [_ Hall]. split; [exact Hall|].
      destruct e as [[i p]|]; reflexivity.
  - split; [discriminate|]. intros [Hall _]. apply Forall_cons in Hall as [Hr _].
    rewrite He in Hr. discriminate Hr.
Qed.

Lemma folder_entries_elem (rs : list Dump.record) (e : pystr * pydict) :
  e ∈ folder_entries rs ↔ ∃ r, r ∈ rs ∧ folder_entry r = Ok (Some e).
Proof.
  unfold folder_entries. rewrite list_elem_of_omap. split.
  - intros (r & Hr & He). exists r. split; [exact Hr|].
    destruct (folder_entry r) as [[e'|]|]; try discriminate. injection He as ->. reflexivity.
  - intros (r & Hr & He). exists r. split; [exact Hr|]. rewrite He. reflexivity.
Qed.

(** X11. The folder index that [_build_folder_index] returns holds exactly
    the ids of the records that have a non-empty payload and a non-blank
    id; each id is non-empty and stripped, each payload is the non-empty
    value of a record; of several records with one id the last counts; and
    when the ids are pairwise distinct, the index does not depend on the
    order in which the folder records were found. *)
Theorem build_folder_index_spec (records : list Dump.record)
    (idx : gmap pystr pydict) :
  Dump._build_folder_index records ∅ = Ok idx →
  (∀ id payload, idx !! id = Some payload →
     id ≠ [] ∧ py_strip id = id ∧ payload ≠ []
     ∧ ∃ r, r ∈ records ∧ Dump.rec_value r = JObj payload
            ∧ folder_entry r = Ok (Some (id, payload)))
  ∧ (∀ id, id ∈ folder_ids records ↔ is_Some (idx !! id))
  ∧ (∀ before after r id payload,
       records = before ++ r :: after →
       folder_entry r = Ok (Some (id, payload)) → id ∉ folder_ids after →
       idx !! id = Some payload)
  ∧ (∀ records', records' ≡ₚ records → NoDup (folder_ids records) →
       Dump._build_folder_index records' ∅ = Ok idx).
Proof.
  intros Hrun. apply build_folder_index_entries in Hrun as [Hall Hidx].
  rewrite foldl_insert_list_to_map, (right_id_L ∅ (∪)) in Hidx.
  split; [|split; [|split]].
  - intros id payload Hid. rewrite Hidx in Hid.
    apply elem_of_list_to_map_2, elem_of_reverse, folder_entries_elem in Hid
      as (r & Hr & He).
    destruct (folder_entry_Some r id payload He) as (Hv & Hp & Hne & Hstrip).
    repeat split; try assumption. exists r. auto.
  - intros id. rewrite Hidx. unfold folder_ids.
    rewrite <- not_eq_None_Some, <- not_elem_of_list_to_map.
    rewrite fmap_reverse, elem_of_reverse.
    split; [intros Hin Hnot; exact (Hnot Hin)|].
    intros Hnn. destruct (decide (id ∈ (folder_entries records).*1)); [assumption|].
    contradiction.
  - intros before after r id payload -> He Hafter. rewrite Hidx.
    unfold folder_entries. rewrite omap_app. cbn [omap list_omap]. rewrite He.
    fold (folder_entries before) (folder_entries after).
    rewrite reverse_app, reverse_cons, <- app_assoc. cbn [app].
    rewrite list_to_map_app. apply lookup_union_Some_raw. right. split.
    + apply not_elem_of_list_to_map. rewrite fmap_reverse, elem_of_reverse. exact Hafter.
    + cbn [list_to_map fst snd]. apply lookup_insert_eq.
  - intros records' Hperm Hnd.
    apply build_folder_index_entries. split.
    + rewrite Hperm. exact Hall.
    + rewrite foldl_insert_list_to_map, (right_id_L ∅ (∪)), Hidx.
      apply list_to_map_proper.
      * rewrite fmap_reverse, reverse_Permutation.
        exact Hnd.
      * rewrite !reverse_Permutation. unfold folder_entries. rewrite Hperm. reflexivity.
Qed.

Lemma build_folder_index_spec_witness :
  ∃ idx,
    Dump._build_folder_index [folder_record "A" None; folder_record "B" (Some "A")] ∅
    = Ok idx
    ∧ idx !! txt "B" = Some (folder_payload "B" (Some "A"))
    ∧ Dump._build_folder_index [folder_record "B" (Some "A"); folder_record "A" None] ∅
      = Ok idx.
Proof.
  destruct (res_is_ok (Dump._build_folder_index
              [folder_record "A" None; folder_record "B" (Some "A")] ∅))
    as [idx Hrun]; [vm_compute; reflexivity|].
  destruct (build_folder_index_spec _ idx Hrun) as (_ & _ & Hlast & Hperm).
  exists idx. split; [exact Hrun|]. split.
  - apply (Hlast [folder_record "A" None] [] (folder_record "B" (Some "A"))).
    + reflexivity.
    + vm_compute. reflexivity.
    + apply not_elem_of_nil.
  - apply Hperm.
    + apply Permutation_swap.
    + apply (bool_decide_unpack _). vm_compute. exact I.
Defined.

(** ** The id allocator (rebuild) *)

Lemma alphabet_alnum : Forall (λ c, ascii_isalnum c = true) Rebuild.alphabet.
Proof.
  apply Forall_forall. intros c Hc. apply list_elem_of_In in Hc.
  assert (Hall : forallb ascii_isalnum Rebuild.alphabet = true) by (vm_compute; reflexivity).
  rewrite forallb_forall in Hall. exact (Hall c Hc).
Qed.

Lemma candidate_shape (rnd : nat → nat) (pos : nat) :
  length (Rebuild.candidate rnd pos) = 16
  ∧ Forall (λ c, ascii_isalnum c = true) (Rebuild.candidate rnd pos).
Proof.
  unfold Rebuild.candidate. split; [rewrite length_map, length_seq; reflexivity|].
  apply Forall_forall. intros c Hc. apply list_elem_of_In, in_map_iff in Hc as (i & <- & _).
  pose proof alphabet_alnum as Hall. rewrite Forall_forall in Hall.
  apply Hall, list_elem_of_In, nth_In.
  change (length Rebuild.alphabet) with 62. apply Nat.mod_upper_bound. discriminate.
Qed.

(** X12. [_random_id] returns the first candidate that is not in use: if the
    first [k] candidates that the random source produces are in use and the
    next one is not, the loop returns that one after [k + 1] rounds (and is
    still running before); the id has sixteen characters, all of them ASCII
    letters or digits. *)
Theorem random_id_first_unused (rnd : nat → nat) (used : gset pystr) (k : nat) :
  ∀ pos,
    (∀ j, j < k → Rebuild.candidate rnd (pos + 16 * j) ∈ used) →
    Rebuild.candidate rnd (pos + 16 * k) ∉ used →
    (∀ fuel, k < fuel →
       Rebuild._random_id fuel rnd pos used
       = Ok (Rebuild.candidate rnd (pos + 16 * k), pos + 16 * S k))
    ∧ (∀ fuel, fuel ≤ k → Rebuild._random_id fuel rnd pos used = Raise OutOfFuel)
    ∧ length (Rebuild.candidate rnd (pos + 16 * k)) = 16
    ∧ Forall (λ c, ascii_isalnum c = true) (Rebuild.candidate rnd (pos + 16 * k)).
Proof.
  induction k as [|k IH]; intros pos Hused Hfree.
  - split; [|split; [|apply candidate_shape]].
    + intros [|fuel] Hfuel; [lia|]. cbn [Rebuild._random_id].
      replace (pos + 16 * 0) with pos in * by lia.
      rewrite bool_decide_eq_false_2 by exact Hfree. f_equal; f_equal; lia.
    + intros fuel Hfuel. replace fuel with 0 by lia. reflexivity.
  - destruct (IH (pos + 16)) as (Hret & Hout & _).
    { intros j Hj. replace (pos + 16 + 16 * j) with (pos + 16 * S j) by lia.
      apply Hused. lia. }
    { replace (pos + 16 + 16 * k) with (pos + 16 * S k) by lia. exact Hfree. }
    assert (Hfirst : Rebuild.candidate rnd pos ∈ used).
    { replace pos with (pos + 16 * 0) by lia. apply Hused. lia. }
    split; [|split; [|apply candidate_shape]].
    + intros [|fuel] Hfuel; [lia|]. cbn [Rebuild._random_id].
      rewrite bool_decide_eq_true_2 by exact Hfirst.
      rewrite Hret by lia. f_equal; f_equal; [f_equal|]; lia.
    + intros [|fuel] Hfuel; [reflexivity|]. cbn [Rebuild._random_id].
      rewrite bool_decide_eq_true_2 by exact Hfirst. apply Hout. lia.
Qed.

Lemma random_id_first_unused_witness :
  Rebuild._random_id 2 in_turn 0 {[ txt "abcdefghijklmnop" ]}
  = Ok (txt "qrstuvwxyzABCDEF", 32)
  ∧ Rebuild._random_id 1 in_turn 0 {[ txt "abcdefghijklmnop" ]} = Raise OutOfFuel.
Proof.
  destruct (random_id_first_unused in_turn {[ txt "abcdefghijklmnop" ]} 1 0)
    as (Hret & Hout & _).
  - intros j Hj. replace j with 0 by lia. apply elem_of_singleton. vm_compute. reflexivity.
  - intros Hin. apply elem_of_singleton in Hin. vm_compute in Hin. discriminate Hin.
  - split; [apply (Hret 2); lia|apply (Hout 1); lia].
Defined.

(** ** Splitting at a separator *)

Lemma strip_prefix_Some (p s r : pystr) : strip_prefix p s = Some r ↔ s = p ++ r.
Proof.
  revert s. induction p as [|a p IH]; intros s; simpl.
  - split; [intros [= ->]; reflexivity|intros ->; reflexivity].
  - destruct s as [|b s]; [split; discriminate|].
    destruct (N.eqb_spec a b) as [->|Hne].
    + rewrite IH. split; [intros ->; reflexivity|intros [= ->]; reflexivity].
    + split; [discriminate|]. intros [= -> _]. contradiction.
Qed.

(** [split_first] cuts at the first occurrence of the separator. *)
Lemma split_first_Some (sep s a b : pystr) :
  split_first sep s = Some (a, b) →
  s = a ++ sep ++ b
  ∧ ∀ a' b', s = a' ++ sep ++ b' → length a ≤ length a'.
Proof.
  revert a b. induction s as [|c s IH]; intros a b; cbn [split_first].
  - destruct (strip_prefix sep []) as [r|] eqn:Hp; [|discriminate].
    intros [= <- <-]. apply strip_prefix_Some in Hp. split; [exact Hp|].
    intros; simpl; lia.
  - destruct (strip_prefix sep (c :: s)) as [r|] eqn:Hp.
    + intros [= <- <-]. apply strip_prefix_Some in Hp. split; [exact Hp|].
      intros; simpl; lia.
    + destruct (split_first sep s) as [[a0 b0]|] eqn:Hs; [|discriminate].
      intros [= <- <-]. destruct (IH _ _ eq_refl) as [Heq Hmin].
      split; [simpl; congruence|].
      intros a' b' Hs'. destruct a' as [|c' a'].
      * exfalso. simpl in Hs'. apply strip_prefix_Some in Hs'.
        rewrite Hs' in Hp. discriminate Hp.
      * injection Hs' as _ Hs'. simpl. specialize (Hmin _ _ Hs'). lia.
Qed.

Lemma split_first_None (sep s : pystr) :
  split_first sep s = None → ∀ a b, s ≠ a ++ sep ++ b.
Proof.
  induction s as [|c s IH]; cbn [split_first].
  - destruct (strip_prefix sep []) as [r|] eqn:Hp; [discriminate|].
    intros _ a b Hs. destruct a; [|discriminate].
    simpl in Hs. apply strip_prefix_Some in Hs. congruence.
  - destruct (strip_prefix sep (c :: s)) as [r|] eqn:Hp; [discriminate|].
    destruct (split_first sep s) as [[a0 b0]|] eqn:Hs; [discriminate|].
    intros _ a b Heq. destruct a as [|c' a].
    + simpl in Heq. apply strip_prefix_Some in Heq. congruence.
    + injection Heq as _ Heq. exact (IH eq_refl _ _ Heq).
Qed.

(** [rsplit1] cuts at the last occurrence of the separator. *)
Lemma rsplit1_Some (sep s a b : pystr) :
  rsplit1 sep s = Some (a, b) →
  s = a ++ sep ++ b
  ∧ ∀ a' b', s = a' ++ sep ++ b' → length b ≤ length b'.
Proof.
  unfold rsplit1. destruct (split_first (reverse sep) (reverse s)) as [[x y]|] eqn:Hs;
    [|discriminate].
  intros [= <- <-]. destruct (split_first_Some _ _ _ _ Hs) as [Heq Hmin].
  split.
  - apply (f_equal reverse) in Heq.
    rewrite reverse_involutive, !reverse_app, reverse_involutive, <- app_assoc in Heq.
    exact Heq.
  - intros a' b' Hs'. rewrite length_reverse.
    specialize (Hmin (reverse b') (reverse a')).
    rewrite length_reverse in Hmin. apply Hmin.
    rewrite Hs', !reverse_app, <- app_assoc. reflexivity.
Qed.

Lemma rsplit1_None (sep s : pystr) :
  rsplit1 sep s = None → ∀ a b, s ≠ a ++ sep ++ b.
Proof.
  unfold rsplit1. destruct (split_first (reverse sep) (reverse s)) as [[x y]|] eqn:Hs;
    [discriminate|].
  intros _ a b Heq. apply (split_first_None _ _ Hs (reverse b) (reverse a)).
  rewrite Heq, !reverse_app, <- app_assoc. reflexivity.
Qed.

Lemma rsplit1_is_Some (sep s a b : pystr) :
  s = a ++ sep ++ b → is_Some (rsplit1 sep s).
Proof.
  intros Hs. destruct (rsplit1 sep s) as [r|] eqn:Hr; [eauto|].
  exfalso. exact (rsplit1_None _ _ Hr _ _ Hs).
Qed.

(** With a one-character separator: the part after the cut holds none. *)
Lemma rsplit1_char (c : N) (s a b : pystr) :
  rsplit1 [c] s = Some (a, b) ↔ s = a ++ c :: b ∧ c ∉ b.
Proof.
  split.
  - intros Hr. destruct (rsplit1_Some _ _ _ _ Hr) as [Hs Hmin]. split; [exact Hs|].
    intros Hin. apply list_elem_of_split in Hin as (b1 & b2 & ->).
    specialize (Hmin (a ++ c :: b1) b2). rewrite length_app in Hmin. simpl in Hmin.
    assert (Hlt : S (length b1 + length b2) ≤ length b2); [|lia].
    replace (S (length b1 + length b2)) with (length b1 + S (length b2)) by lia.
    apply Hmin. rewrite Hs. simpl. rewrite <- !app_assoc. reflexivity.
  - intros [Hs Hb]. destruct (rsplit1_is_Some [c] s a b Hs) as [[a' b'] Hr].
    destruct (rsplit1_Some _ _ _ _ Hr) as [Hs' Hmin].
    assert (Hb' : c ∉ b').
    { intros Hin. apply list_elem_of_split in Hin as (b1 & b2 & ->).
      specialize (Hmin (a' ++ c :: b1) b2). rewrite length_app in Hmin. simpl in Hmin.
      assert (Hlt : length b1 + S (length b2) ≤ length b2); [|lia].
      apply Hmin. rewrite Hs'. simpl. rewrite <- !app_assoc. reflexivity. }
    rewrite Hr. f_equal.
    assert (Hlen : length b = length b').
    { pose proof (Hmin a b Hs) as H1.
      destruct (decide (length b' < length b)) as [Hlt|]; [|lia].
      exfalso. rewrite Hs in Hs'. simpl in Hs'.
      assert (Hla : length a < length a').
      { apply (f_equal length) in Hs'. rewrite !length_app in Hs'. simpl in Hs'. lia. }
      assert (Hc : (a ++ c :: b) !! length a' = Some c).
      { rewrite Hs'. rewrite lookup_app_r by lia. rewrite Nat.sub_diag. reflexivity. }
      rewrite lookup_app_r in Hc by lia.
      destruct (length a' - length a) as [|n] eqn:Hn; [lia|]. simpl in Hc.
      apply Hb. eapply list_elem_of_lookup_2. exact Hc. }
    rewrite Hs in Hs'. simpl in Hs'.
    apply app_inj_2 in Hs' as [-> Heq]; [|simpl; lia].
    injection Heq as ->. reflexivity.
Qed.

(** ** Dictionaries: assignment *)

Lemma dict_get_set {V : Type} (k k' : pystr) (v : V) (d : list (pystr * V)) :
  dict_get k' (dict_set k v d) = if decide (k' = k) then Some v else dict_get k' d.
Proof.
  induction d as [|[k0 v0] d IH]; simpl.
  - destruct (decide (k' = k)); reflexivity.
  - destruct (decide (k = k0)) as [->|Hne]; simpl.
    + destruct (decide (k' = k0)); reflexivity.
    + destruct (decide (k' = k0)) as [->|Hne'].
      * destruct (decide (k0 = k)); [congruence|reflexivity].
      * exact IH.
Qed.

Lemma dict_keys_set {V : Type} (k : pystr) (v : V) (d : list (pystr * V)) :
  is_Some (dict_get k d) → dict_keys (dict_set k v d) = dict_keys d.
Proof.
  unfold dict_keys. induction d as [|[k0 v0] d IH]; simpl.
  - intros [x Hx]. discriminate Hx.
  - destruct (decide (k = k0)) as [->|Hne]; [reflexivity|].
    intros Hd. simpl. f_equal. exact (IH Hd).
Qed.

Lemma dict_set_set {V : Type} (k : pystr) (v v' : V) (d : list (pystr * V)) :
  dict_set k v (dict_set k v' d) = dict_set k v d.
Proof.
  induction d as [|[k0 v0] d IH]; simpl.
  - destruct (decide (k = k)); [reflexivity|contradiction].
  - destruct (decide (k = k0)) as [->|Hne]; simpl.
    + destruct (decide (k0 = k0)); [reflexivity|contradiction].
    + destruct (decide (k = k0)); [contradiction|]. rewrite IH. reflexivity.
Qed.

(** ** The back-reference to the source document (rebuild) *)

(** X13. [_replace_compendium_source_id] touches nothing but the value of
    ["compendiumSource"]: the keys and their order stay, every other field
    keeps its value. A non-empty string source without a dot is replaced by
    the new id, one with a dot keeps everything up to its last dot and gets
    the new id after it; a missing, non-string or empty source leaves the
    dictionary as it is. With an id that holds no dot, applying it again
    changes nothing. *)
Theorem replace_compendium_source_id_spec (stats : pydict) (new_id : pystr) :
  let stats' := Rebuild._replace_compendium_source_id stats new_id in
  dict_keys stats' = dict_keys stats
  ∧ (∀ k, k ≠ txt "compendiumSource" → dict_get k stats' = dict_get k stats)
  ∧ (∀ source, dict_get (txt "compendiumSource") stats = Some (JStr source) →
       source ≠ [] →
       ((46%N ∉ source)
        ∧ dict_get (txt "compendiumSource") stats' = Some (JStr new_id))
       ∨ (∃ before after, source = before ++ 46%N :: after ∧ (46%N ∉ after)
          ∧ dict_get (txt "compendiumSource") stats'
            = Some (JStr (before ++ 46%N :: new_id))))
  ∧ ((∀ source, dict_get (txt "compendiumSource") stats = Some (JStr source) →
        source = []) → stats' = stats)
  ∧ (46%N ∉ new_id →
     Rebuild._replace_compendium_source_id stats' new_id = stats').
Proof.
  intros stats'. unfold stats', Rebuild._replace_compendium_source_id.
  destruct (dict_get (txt "compendiumSource") stats) as [v|] eqn:Hget.
  2: { repeat split; try reflexivity; try discriminate. rewrite Hget. reflexivity. }
  destruct v as [ | | |source| | ].
  1-3,5-6: repeat split; try reflexivity; try discriminate; rewrite Hget; reflexivity.
  destruct (bool_decide (source = [])) eqn:Hempty.
  { apply bool_decide_eq_true in Hempty. subst source.
    repeat split; try reflexivity.
    - intros source [= <-] Hne. contradiction.
    - rewrite Hget. reflexivity. }
  apply bool_decide_eq_false in Hempty.
  destruct (rsplit1 [46%N] source) as [[before after]|] eqn:Hsplit.
  - apply rsplit1_char in Hsplit as [Hsource Hafter].
    split; [apply dict_keys_set; rewrite Hget; eauto|].
    split; [intros k Hk; rewrite dict_get_set; destruct (decide _); [contradiction|reflexivity]|].
    split; [|split].
    + intros s [= <-] _. right. exists before, after.
      split; [exact Hsource|]. split; [exact Hafter|].
      rewrite dict_get_set. destruct (decide _); [reflexivity|contradiction].
    + intros Hnone. exfalso. exact (Hempty (Hnone _ eq_refl)).
    + intros Hid. rewrite dict_get_set. destruct (decide _); [|contradiction].
      rewrite bool_decide_eq_false_2 by (destruct before; discriminate).
      assert (Hre : rsplit1 [46%N] (before ++ [46%N] ++ new_id) = Some (before, new_id)).
      { apply rsplit1_char. split; [reflexivity|exact Hid]. }
      rewrite Hre. apply dict_set_set.
  - assert (Hnodot : 46%N ∉ source).
    { intros Hin. apply list_elem_of_split in Hin as (a & b & ->).
      exact (rsplit1_None _ _ Hsplit a b eq_refl). }
    split; [apply dict_keys_set; rewrite Hget; eauto|].
    split; [intros k Hk; rewrite dict_get_set; destruct (decide _); [contradiction|reflexivity]|].
    split; [|split].
    + intros s [= <-] _. left. split; [exact Hnodot|].
      rewrite dict_get_set. destruct (decide _); [reflexivity|contradiction].
    + intros Hnone. exfalso. exact (Hempty (Hnone _ eq_refl)).
    + intros Hid. rewrite dict_get_set. destruct (decide _); [|contradiction].
      destruct (bool_decide (new_id = [])) eqn:Hnew.
      * reflexivity.
      * assert (Hre : rsplit1 [46%N] new_id = None).
        { destruct (rsplit1 [46%N] new_id) as [[a b]|] eqn:Hr; [|reflexivity].
          apply rsplit1_char in Hr as [-> _]. exfalso. apply Hid.
          apply elem_of_app. right. apply list_elem_of_here. }
        rewrite Hre. apply dict_set_set.
Qed.

Lemma replace_compendium_source_id_spec_witness :
  Rebuild._replace_compendium_source_id
    [(txt "compendiumSource", JStr (txt "Compendium.pack.Item.old")); (txt "n", JInt 1)]
    (txt "new")
  = [(txt "compendiumSource", JStr (txt "Compendium.pack.Item.new")); (txt "n", JInt 1)]
  ∧ Rebuild._replace_compendium_source_id
      (Rebuild._replace_compendium_source_id
         [(txt "compendiumSource", JStr (txt "Compendium.pack.Item.old")); (txt "n", JInt 1)]
         (txt "new")) (txt "new")
    = Rebuild._replace_compendium_source_id
        [(txt "compendiumSource", JStr (txt "Compendium.pack.Item.old")); (txt "n", JInt 1)]
        (txt "new").
Proof.
  split; [vm_compute; reflexivity|].
  apply (replace_compendium_source_id_spec
           [(txt "compendiumSource", JStr (txt "Compendium.pack.Item.old")); (txt "n", JInt 1)]
           (txt "new")).
  apply (bool_decide_unpack _). vm_compute. exact I.
Defined.

(** ** The merged records: what the new files leave alone (rebuild) *)

Lemma last_binding_None {V : Type} (k : pystr) (l : list (pystr * V)) :
  Rebuild.last_binding k l = None ↔ k ∉ l.*1.
Proof.
  unfold Rebuild.last_binding. rewrite dict_get_None, fmap_reverse, elem_of_reverse.
  reflexivity.
Qed.

Lemma size_list_to_set_le (l : list pystr) :
  size (list_to_set l : gset pystr) ≤ length l.
Proof.
  induction l as [|x l IH]; [rewrite list_to_set_nil, size_empty; reflexivity|].
  rewrite list_to_set_cons, size_union_alt, size_singleton. simpl.
  assert (Hle : size (list_to_set l ∖ {[x]} : gset pystr) ≤ size (list_to_set l : gset pystr)).
  { apply subseteq_size. intros y Hy. apply elem_of_difference in Hy as [Hy _]. exact Hy. }
  lia.
Qed.

(** X14. A key that only the manifest produces keeps its manifest value in
    the merged mapping (of several manifest rows with that key, the last),
    and the mapping holds exactly the keys that the manifest records or the
    new files produce: none is lost and none invented, so it has at most as
    many keys as there are records. *)
Theorem merge_keeps_known_records (known1 known2 new : list (pystr * bytes))
    (K : pystr) (v : bytes) :
  K ∉ new.*1 → K ∉ known2.*1 →
  Rebuild.merge_records (known1 ++ (K, v) :: known2) new !! K = Some v
  ∧ (∀ k, is_Some (Rebuild.merge_records (known1 ++ (K, v) :: known2) new !! k)
          ↔ k ∈ (known1 ++ (K, v) :: known2).*1 ∨ k ∈ new.*1)
  ∧ size (Rebuild.merge_records (known1 ++ (K, v) :: known2) new)
    ≤ length (known1 ++ (K, v) :: known2) + length new.
Proof.
  intros Hnew Hlast.
  assert (Hdom : ∀ known k, is_Some (Rebuild.merge_records known new !! k)
                            ↔ k ∈ known.*1 ∨ k ∈ new.*1).
  { intros known k. rewrite merge_records_lookup.
    destruct (Rebuild.last_binding k new) as [w|] eqn:Hn.
    - split; [intros _; right|eauto].
      destruct (decide (k ∈ new.*1)) as [Hin|Hnot]; [exact Hin|].
      apply last_binding_None in Hnot. congruence.
    - apply last_binding_None in Hn. rewrite <- not_eq_None_Some, last_binding_None.
      split.
      + intros Hk. left. destruct (decide (k ∈ known.*1)); [assumption|contradiction].
      + intros [Hk|Hk] Hnot; contradiction. }
  split; [|split].
  - rewrite merge_records_lookup.
    rewrite (proj2 (last_binding_None K new) Hnew).
    apply last_binding_split. exact Hlast.
  - apply Hdom.
  - set (known := known1 ++ (K, v) :: known2).
    assert (Hsub : dom (Rebuild.merge_records known new)
                   ⊆ list_to_set (known.*1 ++ new.*1)).
    { intros k Hk. apply elem_of_dom, Hdom in Hk.
      apply elem_of_list_to_set, elem_of_app. exact Hk. }
    rewrite <- size_dom. etrans; [apply (subseteq_size _ _ Hsub)|].
    etrans; [apply size_list_to_set_le|].
    rewrite length_app, !length_fmap. reflexivity.
Qed.

Lemma merge_keeps_known_records_witness :
  Rebuild.merge_records
    ([(txt "!items!i1", [x01])] ++ (txt "!items!i2", [x02]) :: [])
    [(txt "!items!i1", [x09])]
  !! txt "!items!i2" = Some [x02].
Proof.
  apply (merge_keeps_known_records [(txt "!items!i1", [x01])] []
           [(txt "!items!i1", [x09])] (txt "!items!i2") [x02]).
  - apply (bool_decide_unpack _). vm_compute. exact I.
  - apply not_elem_of_nil.
Defined.

(** ** Python's [==] on decoded values is symmetric *)



Lemma dict_get_elem {V : Type} (k : pystr) (v : V) (d : list (pystr * V)) :
  dict_get k d = Some v → (k, v) ∈ d.
Proof.
  induction d as [|[k' v'] d IH]; [discriminate|]. simpl.
  destruct (decide (k = k')) as [->|_].
  - intros [= ->]. apply list_elem_of_here.
  - intros Hd. apply list_elem_of_further, IH, Hd.
Qed.

Lemma dict_get_NoDup {V : Type} (k : pystr) (v : V) (d : list (pystr * V)) :
  NoDup d.*1 → (k, v) ∈ d → dict_get k d = Some v.
Proof.
  induction d as [|[k' v'] d IH]; intros Hnd Hin; [inversion Hin|].
  simpl in Hnd. apply NoDup_cons in Hnd as [Hk' Hnd]. simpl.
  apply elem_of_cons in Hin as [[= -> ->]|Hin].
  - destruct (decide (k' = k')); [reflexivity|contradiction].
  - destruct (decide (k = k')) as [->|_]; [|exact (IH Hnd Hin)].
    exfalso. apply Hk'. apply list_elem_of_fmap. exists (k', v). auto.
Qed.



(** ** What [json.loads] returns is well formed *)

Lemma dict_set_NoDup {V : Type} (k : pystr) (v : V) (d : list (pystr * V)) :
  NoDup d.*1 → NoDup (dict_set k v d).*1.
Proof.
  induction d as [|[k' v'] d IH]; intros Hnd; simpl.
  - apply NoDup_singleton.
  - destruct (decide (k = k')) as [->|Hne]; [exact Hnd|].
    simpl in *. apply NoDup_cons in Hnd as [Hk' Hnd]. apply NoDup_cons. split; [|auto].
    intros Hin. apply list_elem_of_fmap in Hin as ([k0 v0] & Hk0 & Hin). simpl in Hk0. subst k0.
    apply dict_get_NoDup in Hin; [|auto].
    rewrite dict_get_set in Hin. destruct (decide (k' = k)); [congruence|].
    apply dict_get_elem in Hin. apply Hk'. apply list_elem_of_fmap. exists (k', v0). auto.
Qed.

Lemma dict_set_Forall {V : Type} (P : V → Prop) (k : pystr) (v : V)
    (d : list (pystr * V)) :
  P v → Forall (λ kv, P kv.2) d → Forall (λ kv, P kv.2) (dict_set k v d).
Proof.
  intros Hv. induction 1 as [|[k' v'] d Hx Hd IH]; simpl.
  - constructor; [exact Hv|constructor].
  - destruct (decide (k = k')); constructor; auto.
Qed.

Lemma dict_of_pairs_wf (ps : list (pystr * json)) :
  Forall (λ kv, json_wf kv.2) ps → json_wf (JObj (dict_of_pairs ps)).
Proof.
  unfold dict_of_pairs.
  assert (Hgen : ∀ acc : pydict, NoDup acc.*1 → Forall (λ kv, json_wf kv.2) acc →
            Forall (λ kv, json_wf kv.2) ps →
            json_wf (JObj (foldl (λ d kv, dict_set kv.1 kv.2 d) acc ps))).
  { induction ps as [|[k v] ps IH]; intros acc Hnd Hacc Hps.
    - constructor; assumption.
    - apply Forall_cons in Hps as [Hv Hps]. cbn [foldl]. apply IH; [| |exact Hps].
      + apply dict_set_NoDup, Hnd.
      + apply dict_set_Forall; assumption. }
  apply Hgen; constructor.
Qed.

Lemma push_Ok {A : Type} (c : A) (m : res (list A * pystr)) (l : list A) (r : pystr) :
  push c m = Ok (l, r) → ∃ l', m = Ok (l', r) ∧ l = c :: l'.
Proof. destruct m as [[l' r']|e]; [|discriminate]. intros [= <- <-]. eauto. Qed.

Lemma parse_wf (fuel : nat) :
  (∀ s v r, parse_value fuel s = Ok (v, r) → json_wf v)
  ∧ (∀ s xs r, parse_elements fuel s = Ok (xs, r) → Forall json_wf xs)
  ∧ (∀ s ps r, parse_members fuel s = Ok (ps, r) → Forall (λ kv, json_wf kv.2) ps).
Proof.
  induction fuel as [|fuel (IHv & IHe & IHm)]; [repeat split; discriminate|].
  split; [|split].
  - intros s v r Hrun. destruct s as [|c s]; [discriminate|]. cbn [parse_value] in Hrun.
    destruct (c =? 34)%N.
    { apply bind_Ok in Hrun as ([k r1] & _ & Hrun). injection Hrun as <- _. constructor. }
    destruct (c =? 123)%N.
    { destruct (skip_ws s) as [|c1 r2]; [discriminate|].
      destruct (c1 =? 125)%N; [injection Hrun as <- _; constructor; constructor|].
      destruct (c1 =? 34)%N; [|discriminate].
      apply bind_Ok in Hrun as ([ps r3] & Hps & Hrun). injection Hrun as <- _.
      apply dict_of_pairs_wf. exact (IHm _ _ _ Hps). }
    destruct (c =? 91)%N.
    { destruct (skip_ws s) as [|c1 r2]; [discriminate|].
      destruct (c1 =? 93)%N; [injection Hrun as <- _; constructor; constructor|].
      apply bind_Ok in Hrun as ([xs r3] & Hxs & Hrun). injection Hrun as <- _.
      constructor. exact (IHe _ _ _ Hxs). }
    destruct (parse_constant (c :: s)) as [m|] eqn:Hconst.
    + unfold parse_constant in Hconst.
      repeat match type of Hconst with
      | match strip_prefix ?p ?t with _ => _ end = _ =>
        destruct (strip_prefix p t); [injection Hconst as <-; try discriminate Hrun;
                                      injection Hrun as <- _; constructor|]
      end. discriminate Hconst.
    + unfold parse_number in Hrun.
      repeat match type of Hrun with
      | context [match ?x with _ => _ end] => destruct x; try discriminate Hrun
      | context [if ?x then _ else _] => destruct x; try discriminate Hrun
      end; injection Hrun as <- _; constructor.
  - intros s xs r Hrun. cbn [parse_elements] in Hrun.
    apply bind_Ok in Hrun as ([v r0] & Hv & Hrun).
    destruct (skip_ws r0) as [|c r1]; [discriminate|].
    destruct (c =? 93)%N.
    { injection Hrun as <- _. repeat constructor. exact (IHv _ _ _ Hv). }
    destruct (c =? 44)%N; [|discriminate].
    apply push_Ok in Hrun as (l' & Hl' & ->). constructor; [exact (IHv _ _ _ Hv)|].
    exact (IHe _ _ _ Hl').
  - intros s ps r Hrun. cbn [parse_members] in Hrun.
    apply bind_Ok in Hrun as ([k r0] & _ & Hrun).
    destruct (skip_ws r0) as [|c r1]; [discriminate|].
    destruct (c =? 58)%N; [|discriminate].
    apply bind_Ok in Hrun as ([v r2] & Hv & Hrun).
    destruct (skip_ws r2) as [|c2 r3]; [discriminate|].
    destruct (c2 =? 125)%N.
    { injection Hrun as <- _. repeat constructor. exact (IHv _ _ _ Hv). }
    destruct (c2 =? 44)%N; [|discriminate].
    destruct (skip_ws r3) as [|q r4]; [discriminate|].
    destruct (q =? 34)%N; [|discriminate].
    apply push_Ok in Hrun as (l' & Hl' & ->). constructor; [exact (IHv _ _ _ Hv)|].
    exact (IHm _ _ _ Hl').
Qed.

Lemma json_loads_wf (s : pystr) (v : json) : json_loads s = Ok v → json_wf v.
Proof.
  unfold json_loads. intros Hrun.
  apply bind_Ok in Hrun as ([v' r] & Hv & Hrun).
  destruct (skip_ws r); [|discriminate]. injection Hrun as <-.
  exact (proj1 (parse_wf _) _ _ _ Hv).
Qed.


(** ** The difference report does not depend on the side (rebuild) *)


(** ** The records of a dump *)

Lemma mapM_res_Ok {A B : Type} (f : A → res B) (l : list A) (k : list B) :
  mapM f l = Ok k ↔ Forall2 (λ a b, f a = Ok b) l k.
Proof.
  revert k. induction l as [|a l IH]; intros k; simpl.
  - split; [intros [= <-]; constructor|intros Hk; inversion Hk; reflexivity].
  - split.
    + intros Hrun. apply bind_Ok in Hrun as (b & Hb & Hrun).
      apply bind_Ok in Hrun as (k' & Hk' & Hrun). injection Hrun as <-.
      constructor; [exact Hb|apply IH, Hk'].
    + intros Hk. inversion Hk as [|? b ? k' Hb Hk']; subst.
      apply bind_Ok. exists b. split; [exact Hb|].
      apply bind_Ok. exists k'. split; [apply IH, Hk'|reflexivity].
Qed.

Section extraction.
Context `{UnicodeDB}.

Lemma coerce_value_raw (raw : bytes) :
  Dump._coerce_value raw false = Ok (Dump._encode_bytes raw).
Proof. reflexivity. Qed.

(** X16. [_extract_records] makes one record per store entry, in iteration
    order: the record's root is the sanitized first part of the key (always
    a safe name), its id the second part, its value what [_coerce_value]
    makes of the entry's value, and its key the key's text, or the base64
    wrapper of a key that is not UTF-8. With [parse_json_values=False] it
    returns for every store. *)
Theorem extract_records_spec (entries : list (bytes * bytes))
    (parse_json_values : bool) :
  (∀ records, Dump._extract_records entries parse_json_values = Ok records →
     length records = length entries
     ∧ ∀ i key value, entries !! i = Some (key, value) →
         ∃ r, records !! i = Some r
              ∧ Dump.rec_root r = Dump._safe_name (Dump._parse_key_parts key).1.1
              ∧ is_safe_name (Dump.rec_root r)
              ∧ Dump.rec_id r = (Dump._parse_key_parts key).1.2
              ∧ Dump._coerce_value value parse_json_values = Ok (Dump.rec_value r)
              ∧ (∀ text, utf8_decode key = Some text → text ≠ [] →
                   Dump.rec_key r = JStr text)
              ∧ (utf8_decode key = None →
                   Dump.rec_key r = JObj [(txt "base64", JStr (b64encode key))]))
  ∧ (parse_json_values = false →
     ∃ records, Dump._extract_records entries parse_json_values = Ok records).
Proof.
  split.
  - intros records Hrun. unfold Dump._extract_records in Hrun.
    apply mapM_res_Ok in Hrun.
    split; [symmetry; exact (Forall2_length _ _ _ Hrun)|].
    intros i key value Hi.
    destruct (Forall2_lookup_l _ _ _ _ _ Hrun Hi) as (r & Hr & Hf).
    exists r. split; [exact Hr|]. simpl in Hf.
    destruct (Dump._parse_key_parts key) as [[root id] text] eqn:Hparts.
    apply bind_Ok in Hf as (v & Hv & Hf). injection Hf as <-. simpl.
    split; [reflexivity|]. split; [apply safe_name_is_safe|].
    split; [reflexivity|]. split; [exact Hv|].
    unfold Dump._parse_key_parts in Hparts. split.
    + intros t Ht Hne. rewrite Ht in Hparts.
      assert (Htext : text = t).
      { destruct (startswith (txt "!") t); [|injection Hparts as _ _ <-; reflexivity].
        destruct (split_on 33 t) as [|? [|p1 [|p2 ?]]];
          try (injection Hparts as _ _ <-; reflexivity).
        destruct (negb (bool_decide (p1 = []))); injection Hparts as _ _ <-; reflexivity. }
      subst t. rewrite bool_decide_eq_false_2 by exact Hne. reflexivity.
    + intros Hbin. rewrite Hbin in Hparts. injection Hparts as _ _ <-.
      rewrite bool_decide_eq_true_2 by reflexivity.
      unfold Dump._encode_bytes. rewrite Hbin. reflexivity.
  - intros ->. unfold Dump._extract_records.
    induction entries as [|[key value] entries [records IH]].
    + exists []. reflexivity.
    + cbn [mapM]. cbn [fst snd].
      destruct (Dump._parse_key_parts key) as [[root id] text].
      rewrite coerce_value_raw. cbn [mbind res_mbind res_bind].
      rewrite IH. eexists. reflexivity.
Qed.

End extraction.

Lemma extract_records_spec_witness :
  ∃ records r,
    @Dump._extract_records ascii_db same_id_entries true = Ok records
    ∧ records !! 1 = Some r
    ∧ Dump.rec_root r = txt "items" ∧ Dump.rec_id r = txt "i1"
    ∧ Dump.rec_key r = JStr (txt "!items!i1!x").
Proof.
  destruct (res_is_ok (@Dump._extract_records ascii_db same_id_entries true))
    as [records Hrun]; [vm_compute; reflexivity|].
  destruct (@extract_records_spec ascii_db same_id_entries true) as [Hspec _].
  destruct (Hspec records Hrun) as [_ Hrec].
  destruct (Hrec 1 (map to_byte (txt "!items!i1!x")) (map to_byte (named "Sword")) eq_refl)
    as (r & Hr & Hroot & _ & Hid & _ & Hkey & _).
  exists records, r. split; [exact Hrun|]. split; [exact Hr|].
  split; [rewrite Hroot; vm_compute; reflexivity|].
  split; [rewrite Hid; vm_compute; reflexivity|].
  apply Hkey; [vm_compute; reflexivity|discriminate].
Defined.

(** ** Paths written to the manifest lead back to the files (dump, rebuild) *)

Lemma split_on_join (p : list pystr) :
  p ≠ [] → Forall (λ x, 47%N ∉ x) p → split_on 47 (join [47%N] p) = p.
Proof.
  induction p as [|x p IH]; intros Hne Hall; [contradiction|].
  apply Forall_cons in Hall as [Hx Hall].
  destruct p as [|y p].
  - simpl. apply split_on_whole. exact Hx.
  - change (join [47%N] (x :: y :: p)) with (x ++ [47%N] ++ join [47%N] (y :: p)).
    cbn [app]. rewrite split_on_app by exact Hx. rewrite IH; [reflexivity|discriminate|exact Hall].
Qed.

Lemma startswith_cons (c : N) (s : pystr) (x : pystr) :
  startswith [c] s = true → ∃ t, s = c :: t.
Proof.
  unfold startswith. destruct (strip_prefix [c] s) as [r|] eqn:Hr; [|discriminate].
  intros _. apply strip_prefix_Some in Hr. eauto.
Qed.

Lemma rel_of_str_path_str (p : list pystr) :
  p ≠ [] →
  Forall (λ x, x ≠ [] ∧ (47%N ∉ x) ∧ x ≠ [46%N] ∧ x ≠ txt "..") p →
  Rebuild.rel_of_str (path_str p) = Some p.
Proof.
  intros Hne Hall. unfold Rebuild.rel_of_str, path_str.
  rewrite split_on_join; [|exact Hne|eapply Forall_impl; [exact Hall|]; intros x Hx; apply Hx].
  assert (Hfilter : filter (λ x : pystr, x ≠ [] ∧ x ≠ [46%N]) p = p).
  { clear Hne. induction Hall as [|x p Hx _ IH]; [reflexivity|].
    rewrite filter_cons_True by (split; apply Hx). rewrite IH. reflexivity. }
  rewrite Hfilter.
  assert (Hstart : startswith [47%N] (join [47%N] p) = false).
  { destruct (startswith [47%N] (join [47%N] p)) eqn:Hs; [|reflexivity]. exfalso.
    apply (startswith_cons _ _ []) in Hs as [t Ht].
    destruct p as [|x p]; [contradiction|]. apply Forall_cons in Hall as [(Hx & Hslash & _) _].
    destruct x as [|c x]; [contradiction|].
    assert (c = 47%N) as ->.
    { destruct p; simpl in Ht; injection Ht as ->; reflexivity. }
    apply Hslash. apply list_elem_of_here. }
  rewrite Hstart. rewrite bool_decide_eq_false_2; [reflexivity|].
  intros Hin. rewrite Forall_forall in Hall. destruct (Hall _ Hin) as (_ & _ & _ & Hdd).
  contradiction.
Qed.

Section placed_paths.
Context `{UnicodeDB}.

Lemma is_safe_name_plain (x : pystr) :
  is_safe_name x →
  x ≠ [] ∧ (47%N ∉ x) ∧ x ≠ [46%N] ∧ x ≠ txt ".." ∧ (46%N ∉ x)
  ∧ startswith (txt "_") x = false.
Proof.
  intros (Hne & Hall & Hhead & Hlast).
  assert (Hchar : ∀ c, c ∈ x → c ≠ 47%N ∧ c ≠ 46%N).
  { intros c Hc. rewrite Forall_forall in Hall. specialize (Hall c Hc).
    assert (Hcases : (128 ≤ c)%N ∨ (c < 128)%N) by lia.
    destruct Hcases as [Hbig|Hsmall]; [lia|].
    pose proof (safe_char_ascii c Hsmall Hall). lia. }
  split; [exact Hne|].
  split; [intros Hin; apply (proj1 (Hchar _ Hin)); reflexivity|].
  split; [intros ->; apply (proj2 (Hchar 46%N (list_elem_of_here _ _))); reflexivity|].
  split; [intros ->; apply (proj2 (Hchar 46%N (list_elem_of_here _ _))); reflexivity|].
  split; [intros Hin; apply (proj2 (Hchar _ Hin)); reflexivity|].
  destruct (startswith (txt "_") x) eqn:Hs; [|reflexivity]. exfalso.
  apply (startswith_cons _ _ []) in Hs as [t ->]. apply Hhead. reflexivity.
Qed.

Lemma folder_name_safe (id : pystr) (folder : pydict) (name : pystr) :
  Dump.folder_name id folder = Ok name → is_safe_name name.
Proof.
  unfold Dump.folder_name. intros Hn. apply bind_Ok in Hn as (t & _ & Hn).
  injection Hn as <-. apply safe_name_is_safe.
Qed.

Lemma resolves_safe (idx : gmap pystr pydict) (id : pystr) (p : list pystr) :
  Dump.resolves idx id p → p ≠ [] ∧ Forall is_safe_name p.
Proof.
  induction 1 as [id f n _ _ Hn _ | id f n pid _ _ Hn _ _ | id f n pid p _ _ Hn _ _ [_ IH]].
  - split; [discriminate|].
    constructor; [exact (folder_name_safe _ _ _ Hn)|constructor].
  - split; [discriminate|].
    constructor; [exact (folder_name_safe _ _ _ Hn)|constructor].
  - split; [destruct p; discriminate|]. apply Forall_app. split; [exact IH|].
    constructor; [exact (folder_name_safe _ _ _ Hn)|constructor].
Qed.

Lemma resolve_folders_consistent (fuel : nat) (idx : gmap pystr pydict) :
  ∀ (ids : list pystr) (memo memo' : gmap pystr (list pystr))
    (rows : list Dump.folder_row),
    Dump.resolve_folders fuel ids idx memo = Ok (rows, memo') →
    Dump.memo_consistent idx memo → Dump.memo_consistent idx memo'.
Proof.
  induction ids as [|id ids IH]; intros memo memo' rows Hrun Hmemo; simpl in Hrun.
  - injection Hrun as _ <-. exact Hmemo.
  - apply bind_Ok in Hrun as ([rel memo1] & Hrel & Hrun).
    apply bind_Ok in Hrun as ([rows' memo2] & Hrows & Hrun).
    destruct (compute_folder_path_sound _ _ _ _ _ _ Hrel Hmemo) as [Hmemo1 _].
    pose proof (IH _ _ _ Hrows Hmemo1) as Hmemo2.
    destruct rel; injection Hrun as _ <-; exact Hmemo2.
Qed.

(** The directory of a record: the root, or [_tree], a folder path and
    the root. *)
Lemma record_dir_shape (fuel : nat) (r : Dump.record) (idx : gmap pystr pydict)
    (memo memo1 : gmap pystr (list pystr)) (dir : list pystr) :
  Dump.record_dir fuel r idx memo = Ok (dir, memo1) →
  Dump.memo_consistent idx memo →
  Dump.memo_consistent idx memo1
  ∧ (dir = [Dump.rec_root r]
     ∨ ∃ fp, fp ≠ [] ∧ Forall is_safe_name fp
             ∧ dir = txt "_tree" :: fp ++ [Dump.rec_root r]).
Proof.
  unfold Dump.record_dir. intros Hrun Hmemo.
  destruct (Dump.rec_value r) as [ | | | | |d];
    try (injection Hrun as <- <-; split; [exact Hmemo|left; reflexivity]).
  destruct (dict_get (txt "folder") d) as [[ | | |fid| | ]|];
    try (injection Hrun as <- <-; split; [exact Hmemo|left; reflexivity]).
  destruct (negb (bool_decide (fid = [])));
    [|injection Hrun as <- <-; split; [exact Hmemo|left; reflexivity]].
  apply bind_Ok in Hrun as ([rel memo'] & Hrel & Hrun).
  destruct (compute_folder_path_sound _ _ _ _ _ _ Hrel Hmemo) as [Hmemo' Hres].
  destruct rel as [fp|]; injection Hrun as <- <-; (split; [exact Hmemo'|]).
  - right. destruct (resolves_safe _ _ _ Hres) as [Hne Hsafe]. exists fp. auto.
  - left. reflexivity.
Qed.

Lemma place_loop_shapes (fuel : nat) (idx : gmap pystr pydict) :
  ∀ (records : list Dump.record) (memo : gmap pystr (list pystr))
    (placed : list (list pystr * Dump.manifest_row)),
    Dump.place_loop fuel records idx memo = Ok placed →
    Dump.memo_consistent idx memo →
    Forall2 (λ r pm,
       ∃ dir, (dir = [Dump.rec_root r]
               ∨ ∃ fp, fp ≠ [] ∧ Forall is_safe_name fp
                       ∧ dir = txt "_tree" :: fp ++ [Dump.rec_root r])
              ∧ pm.1 = dir ++ [Dump.record_file_name r]
              ∧ Dump.m_path pm.2 = path_str pm.1
              ∧ Dump.m_root pm.2 = Dump.rec_root r
              ∧ Dump.m_key pm.2 = Dump.rec_key r
              ∧ Dump.m_id pm.2 = Dump.record_id r)
      records placed.
Proof.
  induction records as [|r rs IH]; intros memo placed Hrun Hmemo; simpl in Hrun.
  - injection Hrun as <-. constructor.
  - apply bind_Ok in Hrun as ([dir memo1] & Hdir & Hrun).
    apply bind_Ok in Hrun as (rows & Hrows & Hrun). injection Hrun as <-.
    destruct (record_dir_shape _ _ _ _ _ _ Hdir Hmemo) as [Hmemo1 Hshape].
    constructor; [|exact (IH _ _ Hrows Hmemo1)].
    exists dir. simpl. auto 10.
Qed.

Lemma record_title_safe (value : json) (fallback : pystr) :
  is_safe_name (Dump._record_title value fallback).
Proof.
  unfold Dump._record_title. destruct value; try apply safe_name_is_safe.
  destruct (Dump.first_text_field _ _); apply safe_name_is_safe.
Qed.

Lemma is_safe_name_last (x : pystr) : is_safe_name x → ∃ y c, x = y ++ [c] ∧ c ≠ 95%N.
Proof.
  intros (Hne & _ & _ & Hlast).
  destruct (last x) as [c|] eqn:Hl.
  - apply last_Some in Hl as [y ->]. exists y, c. split; [reflexivity|].
    intros ->. apply Hlast. reflexivity.
  - apply last_None in Hl. contradiction.
Qed.

(** The name of a record file, taken apart as the rebuild does. *)
Lemma record_file_name_parts (r : Dump.record) (dir : list pystr) :
  let p := dir ++ [Dump.record_file_name r] in
  Rebuild.path_name p = Dump.record_file_name r
  ∧ Rebuild.path_stem p
    = Dump._record_title (Dump.rec_value r) (Dump.record_id r)
        ++ txt "__" ++ Dump._safe_name (Dump.record_id r)
  ∧ Rebuild.path_suffix p = txt ".json"
  ∧ Rebuild._filename_has_id p = true
  ∧ (Rebuild.path_name p ∉ Rebuild._excluded_json_names)
  ∧ Rebuild.ends_with (txt ".json") (Rebuild.path_name p) = true
  ∧ Dump.record_file_name r ≠ [] ∧ (47%N ∉ Dump.record_file_name r)
  ∧ Dump.record_file_name r ≠ [46%N] ∧ Dump.record_file_name r ≠ txt "..".
Proof.
  intros p.
  set (T := Dump._record_title (Dump.rec_value r) (Dump.record_id r)).
  set (S := Dump._safe_name (Dump.record_id r)).
  assert (HT : is_safe_name T) by apply record_title_safe.
  assert (HS : is_safe_name S) by apply safe_name_is_safe.
  assert (Hname : Rebuild.path_name p = T ++ txt "__" ++ S ++ txt ".json").
  { unfold Rebuild.path_name, p. rewrite last_snoc. reflexivity. }
  assert (Hfile : Dump.record_file_name r = T ++ txt "__" ++ S ++ txt ".json") by reflexivity.
  assert (Hss : Rebuild.stem_suffix (T ++ txt "__" ++ S ++ txt ".json")
                = (T ++ txt "__" ++ S, txt ".json")).
  { unfold Rebuild.stem_suffix.
    assert (Hr : rsplit1 [46%N] (T ++ txt "__" ++ S ++ txt ".json")
                 = Some (T ++ txt "__" ++ S, txt "json")).
    { apply rsplit1_char. split.
      - rewrite <- !app_assoc. reflexivity.
      - apply (bool_decide_unpack _). vm_compute. exact I. }
    rewrite Hr. rewrite bool_decide_eq_false_2; [reflexivity|].
    destruct HT as (HTne & _). destruct T; [contradiction|discriminate]. }
  assert (Hstem : Rebuild.path_stem p = T ++ txt "__" ++ S).
  { unfold Rebuild.path_stem. rewrite Hname, Hss. reflexivity. }
  assert (Hhas : Rebuild._filename_has_id p = true).
  { unfold Rebuild._filename_has_id. rewrite Hstem.
    destruct (rsplit1_is_Some (txt "__") (T ++ txt "__" ++ S) T S eq_refl) as [[a g] Hr].
    rewrite Hr. apply rsplit1_Some in Hr as [Heq _].
    apply negb_true_iff, bool_decide_eq_false. intros ->.
    destruct (is_safe_name_last S HS) as (y & c & Hy & Hc).
    rewrite Hy in Heq. rewrite app_nil_r in Heq.
    change (txt "__") with ([95%N] ++ [95%N]) in Heq at 2.
    rewrite !app_assoc in Heq. apply app_inj_tail in Heq as [_ Heq]. congruence. }
  split; [exact Hname|]. split; [exact Hstem|].
  split; [unfold Rebuild.path_suffix; rewrite Hname, Hss; reflexivity|].
  split; [exact Hhas|].
  assert (Hchars : ∀ c, c ∈ Dump.record_file_name r → c ≠ 47%N).
  { intros c Hc. rewrite Hfile in Hc.
    destruct HT as (_ & HTall & _). destruct HS as (_ & HSall & _).
    rewrite Forall_forall in HTall, HSall.
    repeat (apply elem_of_app in Hc as [Hc|Hc]).
    - assert (Hcases : (128 ≤ c)%N ∨ (c < 128)%N) by lia.
      destruct Hcases as [Hbig|Hsmall]; [lia|].
      pose proof (safe_char_ascii c Hsmall (HTall c Hc)). lia.
    - apply list_elem_of_In in Hc. vm_compute in Hc. intuition lia.
    - assert (Hcases : (128 ≤ c)%N ∨ (c < 128)%N) by lia.
      destruct Hcases as [Hbig|Hsmall]; [lia|].
      pose proof (safe_char_ascii c Hsmall (HSall c Hc)). lia.
    - apply list_elem_of_In in Hc. vm_compute in Hc. intuition lia. }
  assert (Hlen : 7 ≤ length (Dump.record_file_name r)).
  { rewrite Hfile, !length_app. simpl. lia. }
  split.
  { rewrite Hname. intros Hin. unfold Rebuild._excluded_json_names in Hin.
    assert (Hstems : T ++ txt "__" ++ S = txt "full" ∨ T ++ txt "__" ++ S = txt "folders"
                     ∨ T ++ txt "__" ++ S = txt "manifest").
    { repeat (apply elem_of_cons in Hin as [Hin|Hin]);
        [| | |inversion Hin];
        change (T ++ txt "__" ++ S ++ txt ".json") with
          (T ++ txt "__" ++ S ++ txt ".json") in Hin;
        rewrite !app_assoc in Hin.
      - left. change (txt "full.json") with (txt "full" ++ txt ".json") in Hin.
        apply app_inv_tail in Hin. rewrite <- app_assoc in Hin. exact Hin.
      - right. left. change (txt "folders.json") with (txt "folders" ++ txt ".json") in Hin.
        apply app_inv_tail in Hin. rewrite <- app_assoc in Hin. exact Hin.
      - right. right. change (txt "manifest.json") with (txt "manifest" ++ txt ".json") in Hin.
        apply app_inv_tail in Hin. rewrite <- app_assoc in Hin. exact Hin. }
    destruct Hstems as [Hs|[Hs|Hs]]; symmetry in Hs;
      eapply (rsplit1_None (txt "__")); try exact Hs; vm_compute; reflexivity. }
  split.
  { rewrite Hname. unfold Rebuild.ends_with, startswith.
    rewrite !app_assoc, reverse_app.
    rewrite (proj2 (strip_prefix_Some _ _ _) eq_refl). reflexivity. }
  split; [intros Hnil; rewrite Hnil in Hlen; simpl in Hlen; lia|].
  split; [intros Hin; exact (Hchars _ Hin eq_refl)|].
  split; intros Heq; rewrite Heq in Hlen; simpl in Hlen; lia.
Qed.

Lemma infer_root_of_dir (root file : pystr) (dir : list pystr) :
  is_safe_name root →
  (dir = [root]
   ∨ ∃ fp, fp ≠ [] ∧ Forall is_safe_name fp ∧ dir = txt "_tree" :: fp ++ [root]) →
  Rebuild._infer_root_from_path (dir ++ [file]) = Some root
  ∧ 2 ≤ length (dir ++ [file])
  ∧ Forall (λ x, x ≠ [] ∧ (47%N ∉ x) ∧ x ≠ [46%N] ∧ x ≠ txt "..") dir.
Proof.
  intros Hroot Hdir. destruct (is_safe_name_plain root Hroot) as (Hr1 & Hr2 & Hr3 & Hr4 & _ & Hr5).
  destruct Hdir as [->|(fp & Hfp & Hsafe & ->)].
  - split; [|split; [simpl; lia|repeat constructor; auto]].
    unfold Rebuild._infer_root_from_path. cbn [app].
    rewrite bool_decide_eq_false_2; [rewrite Hr5; reflexivity|].
    intros ->. discriminate Hr5.
  - split; [|split].
    + unfold Rebuild._infer_root_from_path. cbn [app].
      rewrite bool_decide_eq_true_2 by reflexivity.
      destruct fp as [|f fp]; [contradiction|].
      assert (Hlen : (length (txt "_tree" :: ((f :: fp) ++ [root]) ++ [file]) <? 3) = false).
      { apply Nat.ltb_ge. simpl. rewrite !length_app. simpl. lia. }
      rewrite Hlen.
      change (txt "_tree" :: ((f :: fp) ++ [root]) ++ [file])
        with ((txt "_tree" :: (f :: fp) ++ [root]) ++ [file]).
      rewrite removelast_last.
      change (txt "_tree" :: (f :: fp) ++ [root]) with ((txt "_tree" :: f :: fp) ++ [root]).
      apply last_snoc.
    + simpl. rewrite !length_app. simpl. lia.
    + constructor; [repeat split; try discriminate; apply (bool_decide_unpack _); vm_compute; exact I|].
      apply Forall_app. split.
      * eapply Forall_impl; [exact Hsafe|]. intros x Hx.
        destruct (is_safe_name_plain x Hx) as (? & ? & ? & ? & _). auto.
      * repeat constructor; auto.
Qed.

(** X17. The dump and the rebuild agree on where a record file is: for
    records whose roots are safe names (as [_extract_records] makes them),
    every path that [_place_records] writes to the manifest parses back to
    the path of the file, lies below the top level, ends in [.json] with an
    id after the last [__], is none of the three reserved names, and lets
    [_infer_root_from_path] infer the record's root. *)
Theorem placed_paths_lead_back (fuel : nat) (records : list Dump.record)
    (folders : list Dump.folder_row)
    (placed : list (list pystr * Dump.manifest_row)) :
  Forall (λ r, is_safe_name (Dump.rec_root r)) records →
  Dump._place_records fuel records = Ok (folders, placed) →
  Forall2 (λ r pm,
     Dump.m_key pm.2 = Dump.rec_key r
     ∧ Dump.m_root pm.2 = Dump.rec_root r
     ∧ Rebuild.rel_of_str (Dump.m_path pm.2) = Some pm.1
     ∧ Rebuild._infer_root_from_path pm.1 = Some (Dump.rec_root r)
     ∧ Rebuild._filename_has_id pm.1 = true
     ∧ 2 ≤ length pm.1
     ∧ (Rebuild.path_name pm.1 ∉ Rebuild._excluded_json_names)
     ∧ Rebuild.ends_with (txt ".json") (Rebuild.path_name pm.1) = true)
    records placed.
Proof.
  intros Hroots Hrun. unfold Dump._place_records in Hrun.
  apply bind_Ok in Hrun as (idx & _ & Hrun).
  apply bind_Ok in Hrun as ([fm memo] & Hfolders & Hrun).
  apply bind_Ok in Hrun as (placed' & Hloop & Hrun). injection Hrun as _ <-.
  pose proof (resolve_folders_consistent _ _ _ _ _ _ Hfolders (memo_consistent_empty idx))
    as Hmemo.
  pose proof (place_loop_shapes _ _ _ _ _ Hloop Hmemo) as Hshapes.
  clear -Hroots Hshapes. induction Hshapes as [|r pm rs pms Hr _ IH]; [constructor|].
  apply Forall_cons in Hroots as [Hroot Hroots]. constructor; [|exact (IH Hroots)].
  destruct Hr as (dir & Hdir & Hp & Hpath & Hmroot & Hkey & _).
  destruct (infer_root_of_dir _ (Dump.record_file_name r) dir Hroot Hdir)
    as (Hinfer & Hlen & Hplain).
  destruct (record_file_name_parts r dir)
    as (_ & _ & _ & Hhas & Hexcl & Hends & Hf1 & Hf2 & Hf3 & Hf4).
  rewrite Hp. repeat split; try assumption.
  rewrite Hpath, Hp. apply rel_of_str_path_str; [destruct dir; discriminate|].
  apply Forall_app. split; [exact Hplain|]. repeat constructor; assumption.
Qed.

End placed_paths.

Lemma placed_paths_lead_back_witness :
  ∃ folders p1 m1 rest,
    @Dump._place_records ascii_db 2 two_swords = Ok (folders, (p1, m1) :: rest)
    ∧ Rebuild.rel_of_str (Dump.m_path m1) = Some p1
    ∧ Rebuild._infer_root_from_path p1 = Some (txt "items")
    ∧ Rebuild._filename_has_id p1 = true.
Proof.
  destruct (res_is_ok (@Dump._place_records ascii_db 2 two_swords))
    as [[folders placed] Hrun]; [vm_compute; reflexivity|].
  assert (Hroots : Forall (λ r, @is_safe_name ascii_db (Dump.rec_root r)) two_swords).
  { assert (Hitems : @is_safe_name ascii_db (txt "items")).
    { split; [discriminate|]. split; [|split; discriminate].
      apply Forall_forall. intros c Hc. apply list_elem_of_In in Hc.
      vm_compute in Hc. repeat (destruct Hc as [<-|Hc]; [reflexivity|]). destruct Hc. }
    constructor; [exact Hitems|]. constructor; [exact Hitems|constructor]. }
  pose proof (@placed_paths_lead_back ascii_db 2 two_swords folders placed Hroots Hrun)
    as Hall.
  unfold two_swords in Hall. apply Forall2_cons_inv_l in Hall
    as ([p1 m1] & rest & (_ & _ & Hrel & Hroot & Hid & _) & _ & ->).
  exists folders, p1, m1, rest. auto.
Defined.

(** ** The files of a dump *)

Section dump_files.
Context `{UnicodeDB}.

Lemma mkdir_parents_Ok (fs fs1 : gmap (list pystr) Rebuild.node) (p : list pystr) :
  DumpFiles.mkdir_parents fs p = Ok fs1 →
  (∀ q, q ∉ DumpFiles.ancestors p → fs1 !! q = fs !! q)
  ∧ (∀ q, q ∈ DumpFiles.ancestors p →
       fs1 !! q = Some Rebuild.Dir ∧ ∀ c, fs !! q ≠ Some (Rebuild.File c)).
Proof.
  unfold DumpFiles.mkdir_parents.
  destruct (forallb _ (DumpFiles.ancestors p)) eqn:Hall; [|discriminate].
  intros [= <-]. rewrite forallb_forall in Hall.
  split.
  - intros q Hq. induction (DumpFiles.ancestors p) as [|d ds IH]; [reflexivity|].
    simpl. apply not_elem_of_cons in Hq as [Hqd Hq].
    rewrite lookup_insert_ne by congruence. apply IH.
    + intros x Hx. apply Hall. right. exact Hx.
    + exact Hq.
  - intros q Hq. split.
    + clear Hall. induction (DumpFiles.ancestors p) as [|d ds IH]; [inversion Hq|].
      simpl. destruct (decide (d = q)) as [->|Hne]; [apply lookup_insert_eq|].
      rewrite lookup_insert_ne by exact Hne. apply IH.
      apply elem_of_cons in Hq as [->|Hq]; [contradiction|exact Hq].
    + intros c Hc. apply list_elem_of_In in Hq. specialize (Hall q Hq).
      rewrite Hc in Hall. discriminate Hall.
Qed.

(** What one [_write_json] of the dump does to the tree. *)
Lemma dump_write_json_Ok (fs fs' : gmap (list pystr) Rebuild.node) (p : list pystr)
    (v : json) :
  DumpFiles._write_json fs p v = Ok fs' →
  ∃ raw, utf8_encode (json_dumps_indent 0 v) = Ok raw
         ∧ fs' !! p = Some (Rebuild.File raw)
         ∧ (∀ q, q ≠ p → q ∉ DumpFiles.ancestors p → fs' !! q = fs !! q)
         ∧ (∀ q, q ≠ p → q ∈ DumpFiles.ancestors p →
              fs' !! q = Some Rebuild.Dir ∧ ∀ c, fs !! q ≠ Some (Rebuild.File c)).
Proof.
  unfold DumpFiles._write_json. intros Hrun.
  apply bind_Ok in Hrun as (fs1 & Hmk & Hrun).
  destruct (mkdir_parents_Ok _ _ _ Hmk) as [Hout Hin].
  assert (Hw : ∃ raw, utf8_encode (json_dumps_indent 0 v) = Ok raw
                      ∧ fs' = <[p := Rebuild.File raw]> fs1).
  { destruct (fs1 !! p) as [[c|]|]; try discriminate;
      apply bind_Ok in Hrun as (raw & Hraw & Hrun); injection Hrun as <-; eauto. }
  destruct Hw as (raw & Hraw & ->). exists raw.
  split; [exact Hraw|]. split; [apply lookup_insert_eq|]. split.
  - intros q Hq Hanc. rewrite lookup_insert_ne by congruence. apply Hout, Hanc.
  - intros q Hq Hanc. rewrite lookup_insert_ne by congruence. apply Hin, Hanc.
Qed.

(** A file that is not the one written stays as it is. *)
Lemma dump_write_json_file (fs fs' : gmap (list pystr) Rebuild.node)
    (p q : list pystr) (v : json) (c : bytes) :
  DumpFiles._write_json fs p v = Ok fs' → q ≠ p →
  (fs' !! q = Some (Rebuild.File c) ↔ fs !! q = Some (Rebuild.File c)).
Proof.
  intros Hrun Hq. destruct (dump_write_json_Ok _ _ _ _ Hrun) as (raw & _ & _ & Hout & Hin).
  destruct (decide (q ∈ DumpFiles.ancestors p)) as [Hanc|Hanc].
  - destruct (Hin q Hq Hanc) as [Hdir Hnofile]. rewrite Hdir.
    split; [discriminate|]. intros Hc. exfalso. exact (Hnofile c Hc).
  - rewrite (Hout q Hq Hanc). reflexivity.
Qed.

Lemma ancestors_top (name : pystr) : DumpFiles.ancestors [name] = [].
Proof. reflexivity. Qed.

Lemma dump_write_json_top (fs fs' : gmap (list pystr) Rebuild.node) (name : pystr)
    (v : json) :
  DumpFiles._write_json fs [name] v = Ok fs' →
  ∃ raw, utf8_encode (json_dumps_indent 0 v) = Ok raw
         ∧ fs' = <[ [name] := Rebuild.File raw ]> fs.
Proof.
  unfold DumpFiles._write_json, DumpFiles.mkdir_parents. rewrite ancestors_top. simpl.
  intros Hrun. destruct (fs !! [name]) as [[c|]|]; try discriminate;
    apply bind_Ok in Hrun as (raw & Hraw & Hrun); injection Hrun as <-; eauto.
Qed.

(** The grouped files: one per root, and nothing else is touched. *)
Lemma write_grouped_lookup (records : list Dump.record) (roots : list pystr) :
  ∀ fs fs' : gmap (list pystr) Rebuild.node,
    DumpFiles.write_grouped roots records fs = Ok fs' →
    (∀ root, root ∈ roots →
       ∃ raw, utf8_encode (json_dumps_indent 0 (DumpFiles.grouped_rows root records))
              = Ok raw
              ∧ fs' !! [root ++ txt ".json"] = Some (Rebuild.File raw))
    ∧ (∀ q, (∀ root, root ∈ roots → q ≠ [root ++ txt ".json"]) → fs' !! q = fs !! q).
Proof.
  induction roots as [|root roots IH]; intros fs fs' Hrun; simpl in Hrun.
  - injection Hrun as <-. split; [intros root Hin; inversion Hin|reflexivity].
  - apply bind_Ok in Hrun as (fs1 & Hw & Hrun).
    destruct (IH _ _ Hrun) as [Hin Hout].
    apply dump_write_json_top in Hw as (raw & Hraw & ->).
    split.
    + intros r Hr. destruct (decide (r ∈ roots)) as [Hr'|Hr']; [exact (Hin r Hr')|].
      apply elem_of_cons in Hr as [->|Hr]; [|contradiction].
      exists raw. split; [exact Hraw|]. rewrite Hout.
      * apply lookup_insert_eq.
      * intros r' Hr'' Heq. injection Heq as Heq. apply app_inv_tail in Heq. subst r'.
        contradiction.
    + intros q Hq. rewrite Hout.
      * apply lookup_insert_ne. intros Heq. symmetry in Heq.
        exact (Hq root (list_elem_of_here _ _) Heq).
      * intros r Hr. apply Hq. right. exact Hr.
Qed.

Lemma grouped_roots_elem (records : list Dump.record) (root : pystr) :
  root ∈ DumpFiles.grouped_roots records
  ↔ ∃ r, r ∈ records ∧ Dump.rec_root r = root.
Proof.
  unfold DumpFiles.grouped_roots. rewrite merge_sort_Permutation.
  rewrite elem_of_elements, elem_of_list_to_set, list_elem_of_fmap.
  split; intros (r & Hr & Hr'); exists r; auto.
Qed.

Lemma record_dir_nonempty (fuel : nat) (r : Dump.record) (idx : gmap pystr pydict)
    (memo memo1 : gmap pystr (list pystr)) (dir : list pystr) :
  Dump.record_dir fuel r idx memo = Ok (dir, memo1) → dir ≠ [].
Proof.
  unfold Dump.record_dir. intros Hrun.
  destruct (Dump.rec_value r) as [ | | | | |d]; try (injection Hrun as <- _; discriminate).
  destruct (dict_get (txt "folder") d) as [[ | | |fid| | ]|];
    try (injection Hrun as <- _; discriminate).
  destruct (negb (bool_decide (fid = []))); [|injection Hrun as <- _; discriminate].
  apply bind_Ok in Hrun as ([rel memo'] & _ & Hrun).
  destruct rel; injection Hrun as <- _; discriminate.
Qed.

(** The loop that writes the record files makes the rows of the placement,
    and leaves the files at the top level alone. *)
Lemma place_loop_files (fuel : nat) (idx : gmap pystr pydict) :
  ∀ (records : list Dump.record) (memo : gmap pystr (list pystr))
    (fs fs' : gmap (list pystr) Rebuild.node) (rows : list Dump.manifest_row),
    DumpFiles.place_loop fuel records idx memo fs = Ok (rows, fs') →
    (∃ placed, Dump.place_loop fuel records idx memo = Ok placed ∧ rows = placed.*2)
    ∧ ∀ name c, fs' !! [name] = Some (Rebuild.File c)
                ↔ fs !! [name] = Some (Rebuild.File c).
Proof.
  induction records as [|r rs IH]; intros memo fs fs' rows Hrun; simpl in Hrun.
  - injection Hrun as <- <-. split; [exists []; split; reflexivity|reflexivity].
  - apply bind_Ok in Hrun as ([dir memo1] & Hdir & Hrun).
    apply bind_Ok in Hrun as (fs1 & Hw & Hrun).
    apply bind_Ok in Hrun as ([rows' fs2] & Hloop & Hrun).
    injection Hrun as <- <-.
    destruct (IH _ _ _ _ Hloop) as [(placed & Hplaced & ->) Htop].
    split.
    + exists ((dir ++ [Dump.record_file_name r],
               {| Dump.m_key := Dump.rec_key r; Dump.m_root := Dump.rec_root r;
                  Dump.m_id := Dump.record_id r;
                  Dump.m_path := path_str (dir ++ [Dump.record_file_name r]) |})
              :: placed).
      split; [|reflexivity]. simpl.
      rewrite Hdir. simpl. rewrite Hplaced. reflexivity.
    + intros name c. rewrite Htop. apply (dump_write_json_file _ _ _ _ _ _ Hw).
      pose proof (record_dir_nonempty _ _ _ _ _ _ Hdir) as Hne.
      destruct dir as [|d [|d' dir]]; [contradiction|discriminate..].
Qed.

Lemma sorted_ids_empty : Dump.sorted_ids ∅ = [].
Proof. unfold Dump.sorted_ids. rewrite dom_empty_L, elements_empty. reflexivity. Qed.

(** X18. The file [folders.json] of a finished dump never holds the folder
    manifest with the computed paths: [_place_records] writes that first,
    and the loop over the grouped records then writes the records of root
    [folders] to the same file. What the file holds in the end is the list
    of those records (the empty list when the store has no folder). *)
Theorem folders_json_holds_grouped_records (fuel : nat)
    (fs fs' : gmap (list pystr) Rebuild.node) (entries : list (bytes * bytes))
    (parse_json_values : bool) (leveldb_meta : pydict) :
  DumpFiles.dump_store fuel fs entries parse_json_values leveldb_meta = Ok fs' →
  ∃ records raw,
    Dump._extract_records entries parse_json_values = Ok records
    ∧ utf8_encode
        (json_dumps_indent 0
           (JArr (DumpFiles.record_json
                    <$> filter (λ r, Dump.rec_root r = txt "folders") records)))
      = Ok raw
    ∧ fs' !! [txt "folders.json"] = Some (Rebuild.File raw).
Proof.
  unfold DumpFiles.dump_store. intros Hrun.
  apply bind_Ok in Hrun as (records & Hrecords & Hrun).
  apply bind_Ok in Hrun as (fs1 & _ & Hrun).
  unfold DumpFiles._place_records in Hrun.
  apply bind_Ok in Hrun as (idx & Hidx & Hrun).
  apply bind_Ok in Hrun as ([fm memo] & Hfolders & Hrun).
  apply bind_Ok in Hrun as (fs2 & Hw2 & Hrun).
  apply bind_Ok in Hrun as ([manifest fs3] & Hloop & Hrun).
  apply bind_Ok in Hrun as (fs4 & Hw4 & Hrun).
  exists records.
  destruct (write_grouped_lookup _ _ _ _ Hrun) as [Hin Hout].
  destruct (decide (txt "folders" ∈ DumpFiles.grouped_roots records)) as [Hroot|Hroot].
  - destruct (Hin _ Hroot) as (raw & Hraw & Hfile). exists raw. auto.
  - assert (Hnone : filter (λ r, Dump.rec_root r = txt "folders") records = []).
    { destruct (filter _ records) as [|r l] eqn:Hf; [reflexivity|]. exfalso.
      assert (Hr : r ∈ filter (λ r, Dump.rec_root r = txt "folders") records)
        by (rewrite Hf; apply list_elem_of_here).
      apply list_elem_of_filter in Hr as [Hroot' Hr].
      apply Hroot, grouped_roots_elem. exists r. auto. }
    rewrite Hnone in *. simpl in Hidx. injection Hidx as <-.
    rewrite sorted_ids_empty in Hfolders. simpl in Hfolders. injection Hfolders as <- <-.
    apply dump_write_json_top in Hw2 as (raw & Hraw & ->).
    apply dump_write_json_top in Hw4 as (raw4 & _ & ->).
    exists raw. split; [exact Hrecords|]. split; [exact Hraw|].
    rewrite Hout.
    + rewrite lookup_insert_ne by discriminate.
      apply (proj2 (place_loop_files _ _ _ _ _ _ _ Hloop)). apply lookup_insert_eq.
    + intros root Hr Heq. injection Heq as Heq.
      change (txt "folders.json") with (txt "folders" ++ txt ".json") in Heq.
      apply app_inv_tail in Heq. subst root. contradiction.
Qed.

End dump_files.

Lemma folders_json_holds_grouped_records_witness :
  ∃ fs' raw,
    @DumpFiles.dump_store ascii_db 5 ∅ folder_store true [] = Ok fs'
    ∧ fs' !! [txt "folders.json"] = Some (Rebuild.File raw)
    ∧ utf8_decode raw
      = Some (json_dumps_indent 0
                (JArr [DumpFiles.record_json
                         {| Dump.rec_root := txt "folders"; Dump.rec_id := txt "A";
                            Dump.rec_key := JStr (txt "!folders!A");
                            Dump.rec_value := JObj [(txt "name", JStr (txt "A"))] |}])).
Proof.
  destruct (res_is_ok (@DumpFiles.dump_store ascii_db 5 ∅ folder_store true []))
    as [fs' Hrun]; [vm_compute; reflexivity|].
  destruct (@folders_json_holds_grouped_records ascii_db 5 ∅ fs' folder_store true [] Hrun)
    as (records & raw & Hrecords & Hraw & Hfile).
  exists fs', raw. split; [exact Hrun|]. split; [exact Hfile|].
  assert (Hex : match @Dump._extract_records ascii_db folder_store true with
                | Ok rs => filter (λ r, Dump.rec_root r = txt "folders") rs
                | Raise _ => []
                end
                = [{| Dump.rec_root := txt "folders"; Dump.rec_id := txt "A";
                      Dump.rec_key := JStr (txt "!folders!A");
                      Dump.rec_value := JObj [(txt "name", JStr (txt "A"))] |}])
    by (vm_compute; reflexivity).
  rewrite Hrecords in Hex. rewrite Hex in Hraw.
  exact (utf8_decode_encode _ _ Hraw).
Defined.

(** ** The manifest of a dump, as the rebuild loads it *)

Lemma encode_bytes_wf (raw : bytes) : json_wf (Dump._encode_bytes raw).
Proof.
  unfold Dump._encode_bytes. destruct (utf8_decode raw); constructor.
  - apply NoDup_singleton.
  - repeat constructor.
Qed.

Lemma coerce_value_wf (raw : bytes) (parse_json_values : bool) (v : json) :
  Dump._coerce_value raw parse_json_values = Ok v → json_wf v.
Proof.
  unfold Dump._coerce_value.
  destruct (negb parse_json_values || negb (is_str (Dump._encode_bytes raw))).
  - intros [= <-]. apply encode_bytes_wf.
  - pose proof (encode_bytes_wf raw) as Hwf.
    destruct (Dump._encode_bytes raw) as [ | | |text| | ];
      try (intros [= <-]; exact Hwf).
    destruct (json_loads text) as [v'|e] eqn:Hload.
    + intros [= <-]. exact (json_loads_wf _ _ Hload).
    + destruct e; try discriminate. intros [= <-]. constructor.
Qed.

Section manifest.
Context `{UnicodeDB}.

Lemma extract_records_wf (entries : list (bytes * bytes)) (parse_json_values : bool)
    (records : list Dump.record) :
  Dump._extract_records entries parse_json_values = Ok records →
  Forall (λ r, json_wf (Dump.rec_key r) ∧ json_wf (Dump.rec_value r)
               ∧ is_safe_name (Dump.rec_root r)) records.
Proof.
  unfold Dump._extract_records. intros Hrun. apply mapM_res_Ok in Hrun.
  induction Hrun as [|[key value] r entries records Hr _ IH]; [constructor|].
  constructor; [|exact IH]. simpl in Hr.
  destruct (Dump._parse_key_parts key) as [[root id] text].
  apply bind_Ok in Hr as (v & Hv & Hr). injection Hr as <-. simpl.
  split; [|split; [exact (coerce_value_wf _ _ _ Hv)|apply safe_name_is_safe]].
  destruct (bool_decide (text = [])); [apply encode_bytes_wf|constructor].
Qed.

Lemma manifest_json_wf (leveldb_meta : pydict) (manifest : list Dump.manifest_row) :
  json_wf (JObj leveldb_meta) →
  Forall (λ m, json_wf (Dump.m_key m)) manifest →
  json_wf (DumpFiles.manifest_json leveldb_meta manifest).
Proof.
  intros Hmeta Hkeys. unfold DumpFiles.manifest_json. constructor.
  - apply (bool_decide_unpack _). vm_compute. exact I.
  - constructor; [constructor|]. constructor; [exact Hmeta|].
    constructor; [|constructor]. simpl. constructor.
    induction Hkeys as [|m l Hm _ IH]; [constructor|].
    simpl. constructor; [|exact IH]. unfold DumpFiles.manifest_row_json. constructor.
    + apply (bool_decide_unpack _). vm_compute. exact I.
    + repeat (constructor; simpl; try exact Hm).
Qed.

(** Reading a file that holds the serialisation of a value. *)
Lemma read_json_file (fs : gmap (list pystr) Rebuild.node) (p : list pystr)
    (raw : bytes) (v : json) :
  fs !! p = Some (Rebuild.File raw) →
  utf8_encode (json_dumps_indent 0 v) = Ok raw → json_wf v →
  Rebuild._read_json fs p = Ok v.
Proof.
  intros Hfile Hraw Hwf. unfold Rebuild._read_json, Rebuild.read_bytes.
  rewrite Hfile. simpl. rewrite (utf8_decode_encode _ _ Hraw).
  apply json_loads_dumps_indent. exact Hwf.
Qed.

(** The row of the manifest as the dictionary that the rebuild reads. *)
Lemma dicts_of_manifest_rows (manifest : list Dump.manifest_row) :
  Rebuild.dicts_of (DumpFiles.manifest_row_json <$> manifest)
  = (λ m, [(txt "key", Dump.m_key m); (txt "root", JStr (Dump.m_root m));
           (txt "id", JStr (Dump.m_id m)); (txt "path", JStr (Dump.m_path m))])
      <$> manifest.
Proof.
  unfold Rebuild.dicts_of. induction manifest as [|m l IH]; [reflexivity|].
  simpl. f_equal. exact IH.
Qed.

(** Taking the run of the dump apart. *)
Lemma dump_store_Ok (fuel : nat) (fs fs' : gmap (list pystr) Rebuild.node)
    (entries : list (bytes * bytes)) (parse_json_values : bool)
    (leveldb_meta : pydict) :
  DumpFiles.dump_store fuel fs entries parse_json_values leveldb_meta = Ok fs' →
  ∃ records folders placed fs1 fs2 fs3 fs4 idx memo,
    Dump._extract_records entries parse_json_values = Ok records
    ∧ Dump._place_records fuel records = Ok (folders, placed)
    ∧ DumpFiles._write_json fs [txt "full.json"]
        (JArr (DumpFiles.record_json <$> records)) = Ok fs1
    ∧ DumpFiles._write_json fs1 [txt "folders.json"]
        (JArr (DumpFiles.folder_row_json <$> folders)) = Ok fs2
    ∧ Dump.memo_consistent idx memo
    ∧ Dump.place_loop fuel records idx memo = Ok placed
    ∧ DumpFiles.place_loop fuel records idx memo fs2 = Ok (placed.*2, fs3)
    ∧ DumpFiles._write_json fs3 [txt "manifest.json"]
        (DumpFiles.manifest_json leveldb_meta placed.*2) = Ok fs4
    ∧ DumpFiles.write_grouped (DumpFiles.grouped_roots records) records fs4 = Ok fs'.
Proof.
  unfold DumpFiles.dump_store. intros Hrun.
  apply bind_Ok in Hrun as (records & Hrecords & Hrun).
  apply bind_Ok in Hrun as (fs1 & Hw1 & Hrun).
  unfold DumpFiles._place_records in Hrun.
  apply bind_Ok in Hrun as (idx & Hidx & Hrun).
  apply bind_Ok in Hrun as ([fm memo] & Hfolders & Hrun).
  apply bind_Ok in Hrun as (fs2 & Hw2 & Hrun).
  apply bind_Ok in Hrun as ([manifest fs3] & Hloop & Hrun).
  apply bind_Ok in Hrun as (fs4 & Hw4 & Hrun).
  destruct (place_loop_files _ _ _ _ _ _ _ Hloop) as [(placed & Hplaced & ->) _].
  exists records, fm, placed, fs1, fs2, fs3, fs4, idx, memo.
  split; [exact Hrecords|]. split.
  { unfold Dump._place_records. rewrite Hidx. simpl. rewrite Hfolders. simpl.
    rewrite Hplaced. reflexivity. }
  split; [exact Hw1|]. split; [exact Hw2|].
  split; [exact (resolve_folders_consistent _ _ _ _ _ _ Hfolders (memo_consistent_empty idx))|].
  auto.
Qed.

(** X19. The rebuild loads the manifest that the dump wrote: when no record
    has the root [manifest] (and the metadata holds no float and no key
    twice), [_load_manifest] on the dumped tree returns the metadata and one
    row per record, in order, with the key, root, id and path that
    [_place_records] gave the record. *)
Theorem dumped_manifest_loads (fuel : nat) (fs fs' : gmap (list pystr) Rebuild.node)
    (entries : list (bytes * bytes)) (parse_json_values : bool)
    (leveldb_meta : pydict) :
  DumpFiles.dump_store fuel fs entries parse_json_values leveldb_meta = Ok fs' →
  json_wf (JObj leveldb_meta) →
  (∀ records, Dump._extract_records entries parse_json_values = Ok records →
     Forall (λ r, Dump.rec_root r ≠ txt "manifest") records) →
  ∃ records folders placed,
    Dump._extract_records entries parse_json_values = Ok records
    ∧ Dump._place_records fuel records = Ok (folders, placed)
    ∧ Rebuild._load_manifest fs'
      = Ok ((λ m, [(txt "key", Dump.m_key m); (txt "root", JStr (Dump.m_root m));
                   (txt "id", JStr (Dump.m_id m)); (txt "path", JStr (Dump.m_path m))])
              <$> placed.*2,
            leveldb_meta).
Proof.
  intros Hrun Hmeta Hroots.
  destruct (dump_store_Ok _ _ _ _ _ _ Hrun)
    as (records & folders & placed & fs1 & fs2 & fs3 & fs4 & idx & memo
        & Hrecords & Hplace & _ & _ & Hmemo & Hplaced & _ & Hw4 & Hgrouped).
  exists records, folders, placed. split; [exact Hrecords|]. split; [exact Hplace|].
  specialize (Hroots records Hrecords).
  apply dump_write_json_top in Hw4 as (raw & Hraw & ->).
  destruct (write_grouped_lookup _ _ _ _ Hgrouped) as [_ Hout].
  assert (Hfile : fs' !! [txt "manifest.json"] = Some (Rebuild.File raw)).
  { rewrite Hout; [apply lookup_insert_eq|].
    intros root Hroot Heq. injection Heq as Heq.
    change (txt "manifest.json") with (txt "manifest" ++ txt ".json") in Heq.
    apply app_inv_tail in Heq. subst root.
    apply grouped_roots_elem in Hroot as (r & Hr & Hroot).
    rewrite Forall_forall in Hroots. exact (Hroots r Hr Hroot). }
  assert (Hwf : json_wf (DumpFiles.manifest_json leveldb_meta placed.*2)).
  { apply manifest_json_wf; [exact Hmeta|].
    pose proof (extract_records_wf _ _ _ Hrecords) as Hrwf.
    pose proof (place_loop_paths _ _ _ _ _ Hplaced) as Hall.
    clear -Hrwf Hall. induction Hall as [|r pm rs pms (dir & _ & _ & Hkey) _ IH];
      [constructor|].
    apply Forall_cons in Hrwf as [(Hk & _) Hrwf]. simpl.
    constructor; [rewrite Hkey; exact Hk|exact (IH Hrwf)]. }
  unfold Rebuild._load_manifest, Rebuild.fs_exists.
  rewrite Hfile. rewrite (bool_decide_eq_true_2 (is_Some _)) by eauto.
  rewrite orb_true_r. cbn [negb].
  rewrite (read_json_file _ _ _ _ Hfile Hraw Hwf). simpl.
  rewrite dicts_of_manifest_rows. reflexivity.
Qed.

End manifest.

Lemma dumped_manifest_loads_witness :
  ∃ fs' rows,
    @DumpFiles.dump_store ascii_db 5 ∅ folder_store true [] = Ok fs'
    ∧ Rebuild._load_manifest fs' = Ok (rows, [])
    ∧ length rows = 2.
Proof.
  destruct (res_is_ok (@DumpFiles.dump_store ascii_db 5 ∅ folder_store true []))
    as [fs' Hrun]; [vm_compute; reflexivity|].
  destruct (@dumped_manifest_loads ascii_db 5 ∅ fs' folder_store true [] Hrun)
    as (records & folders & placed & Hrecords & Hplace & Hload).
  - constructor; constructor.
  - intros records Hrecords.
    assert (Hall : match @Dump._extract_records ascii_db folder_store true with
                   | Ok rs => forallb (λ r, negb (bool_decide (Dump.rec_root r = txt "manifest"))) rs
                   | Raise _ => true
                   end = true) by (vm_compute; reflexivity).
    rewrite Hrecords in Hall. rewrite forallb_forall in Hall.
    apply Forall_forall. intros r Hr. apply list_elem_of_In in Hr.
    specialize (Hall r Hr). apply negb_true_iff, bool_decide_eq_false in Hall. exact Hall.
  - eexists fs', _. split; [exact Hrun|]. split; [exact Hload|].
    rewrite length_fmap, length_fmap.
    assert (Hlen : match @Dump._extract_records ascii_db folder_store true with
                   | Ok rs => length rs
                   | Raise _ => 0
                   end = 2) by (vm_compute; reflexivity).
    rewrite Hrecords in Hlen. rewrite <- Hlen. symmetry.
    unfold Dump._place_records in Hplace.
    apply bind_Ok in Hplace as (idx & _ & Hplace).
    apply bind_Ok in Hplace as ([fm memo] & _ & Hplace).
    apply bind_Ok in Hplace as (placed' & Hloop & Hplace). injection Hplace as _ <-.
    exact (Forall2_length _ _ _ (place_loop_paths _ _ _ _ _ Hloop)).
Defined.

(** ** A root named like the manifest *)

Section manifest_root.
Context `{UnicodeDB}.

Lemma record_json_wf (r : Dump.record) :
  json_wf (Dump.rec_key r) → json_wf (Dump.rec_value r) →
  json_wf (DumpFiles.record_json r).
Proof.
  intros Hk Hv. unfold DumpFiles.record_json. constructor.
  - apply (bool_decide_unpack _). vm_compute. exact I.
  - repeat (constructor; simpl; try assumption).
Qed.

Lemma grouped_rows_wf (root : pystr) (records : list Dump.record) :
  Forall (λ r, json_wf (Dump.rec_key r) ∧ json_wf (Dump.rec_value r)
               ∧ is_safe_name (Dump.rec_root r)) records →
  json_wf (DumpFiles.grouped_rows root records).
Proof.
  intros Hall. unfold DumpFiles.grouped_rows. constructor.
  induction Hall as [|r l (Hk & Hv & _) _ IH]; [constructor|].
  rewrite filter_cons. destruct (decide _); [|exact IH].
  simpl. constructor; [exact (record_json_wf r Hk Hv)|exact IH].
Qed.

(** Rows without a path are passed over in silence. *)
Lemma build_known_records_no_path (fs : gmap (list pystr) Rebuild.node)
    (manifest : list pydict) :
  Forall (λ item, dict_get (txt "path") item = None) manifest →
  Rebuild._build_known_records fs manifest = Ok ([], [])
  ∧ Rebuild.known_paths_of manifest = ∅.
Proof.
  induction 1 as [|item items Hitem _ [IHr IHp]]; [split; reflexivity|].
  split.
  - cbn [Rebuild._build_known_records]. rewrite Hitem.
    destruct (dict_get (txt "key") item) as [[ | | |k| | ]|]; exact IHr.
  - unfold Rebuild.known_paths_of in *. cbn [omap list_omap]. rewrite Hitem. exact IHp.
Qed.

(** X20. A store entry whose root is [manifest] costs the dump its manifest:
    the grouped file of that root is written to [manifest.json] after the
    manifest. What [_load_manifest] then returns from the dumped tree are
    the records of that root, which name no path, so
    [_build_known_records] passes over all of them without a warning and
    the rebuild knows no record and no path of the dump. *)
Theorem manifest_root_overwrites_manifest (fuel : nat)
    (fs fs' : gmap (list pystr) Rebuild.node) (entries : list (bytes * bytes))
    (parse_json_values : bool) (leveldb_meta : pydict)
    (records : list Dump.record) (r : Dump.record) :
  DumpFiles.dump_store fuel fs entries parse_json_values leveldb_meta = Ok fs' →
  Dump._extract_records entries parse_json_values = Ok records →
  r ∈ records → Dump.rec_root r = txt "manifest" →
  ∃ manifest,
    Rebuild._load_manifest fs' = Ok (manifest, [])
    ∧ JObj <$> manifest
      = DumpFiles.record_json
          <$> filter (λ r, Dump.rec_root r = txt "manifest") records
    ∧ Rebuild._build_known_records fs' manifest = Ok ([], [])
    ∧ Rebuild.known_paths_of manifest = ∅.
Proof.
  intros Hrun Hrecords Hr Hroot.
  destruct (dump_store_Ok _ _ _ _ _ _ Hrun)
    as (records' & folders & placed & fs1 & fs2 & fs3 & fs4 & idx & memo
        & Hrecords' & _ & _ & _ & _ & _ & _ & _ & Hgrouped).
  rewrite Hrecords in Hrecords'. injection Hrecords' as <-.
  destruct (write_grouped_lookup _ _ _ _ Hgrouped) as [Hin _].
  destruct (Hin (txt "manifest")) as (raw & Hraw & Hfile).
  { apply grouped_roots_elem. exists r. auto. }
  change (txt "manifest" ++ txt ".json") with (txt "manifest.json") in Hfile.
  pose proof (grouped_rows_wf (txt "manifest") records (extract_records_wf _ _ _ Hrecords))
    as Hwf.
  set (rows := filter (λ r, Dump.rec_root r = txt "manifest") records).
  exists ((λ r, [(txt "root", JStr (Dump.rec_root r)); (txt "id", JStr (Dump.rec_id r));
                 (txt "key", Dump.rec_key r); (txt "value", Dump.rec_value r)]) <$> rows).
  split; [|split].
  - unfold Rebuild._load_manifest, Rebuild.fs_exists.
    rewrite Hfile. rewrite (bool_decide_eq_true_2 (is_Some _)) by eauto.
    rewrite orb_true_r. cbn [negb].
    rewrite (read_json_file _ _ _ _ Hfile Hraw Hwf). unfold DumpFiles.grouped_rows.
    simpl. fold rows. do 2 f_equal. unfold Rebuild.dicts_of.
    induction rows as [|x l IH]; [reflexivity|]. simpl. f_equal. exact IH.
  - rewrite <- list_fmap_compose. reflexivity.
  - apply build_known_records_no_path. apply Forall_fmap, Forall_forall.
    intros x _. reflexivity.
Qed.

End manifest_root.

Lemma manifest_root_overwrites_manifest_witness :
  ∃ fs' manifest,
    @DumpFiles.dump_store ascii_db 5 ∅ manifest_store true [] = Ok fs'
    ∧ Rebuild._load_manifest fs' = Ok (manifest, [])
    ∧ Rebuild._build_known_records fs' manifest = Ok ([], []).
Proof.
  destruct (res_is_ok (@DumpFiles.dump_store ascii_db 5 ∅ manifest_store true []))
    as [fs' Hrun]; [vm_compute; reflexivity|].
  destruct (@manifest_root_overwrites_manifest ascii_db 5 ∅ fs' manifest_store true []
              [{| Dump.rec_root := txt "manifest"; Dump.rec_id := txt "m1";
                  Dump.rec_key := JStr (txt "!manifest!m1");
                  Dump.rec_value := JObj [(txt "name", JStr (txt "M"))] |}]
              {| Dump.rec_root := txt "manifest"; Dump.rec_id := txt "m1";
                 Dump.rec_key := JStr (txt "!manifest!m1");
                 Dump.rec_value := JObj [(txt "name", JStr (txt "M"))] |} Hrun)
    as (manifest & Hload & _ & Hknown & _).
  - vm_compute. reflexivity.
  - apply list_elem_of_here.
  - reflexivity.
  - exists fs', manifest. auto.
Defined.

(** ** The record files of a dump *)

Section record_files.
Context `{UnicodeDB}.

(** The loop over the records: each file holds the value of the last record
    placed at its path, and the other files stay as they are. *)
Lemma place_loop_files_spec (fuel : nat) (idx : gmap pystr pydict) :
  ∀ (records : list Dump.record) (memo : gmap pystr (list pystr))
    (fs fs' : gmap (list pystr) Rebuild.node) (rows : list Dump.manifest_row),
    DumpFiles.place_loop fuel records idx memo fs = Ok (rows, fs') →
    ∃ placed,
      Dump.place_loop fuel records idx memo = Ok placed ∧ rows = placed.*2
      ∧ (∀ q c, q ∉ placed.*1 →
           (fs' !! q = Some (Rebuild.File c) ↔ fs !! q = Some (Rebuild.File c)))
      ∧ (∀ i r pm, records !! i = Some r → placed !! i = Some pm →
           (∀ j pm', i < j → placed !! j = Some pm' → pm'.1 ≠ pm.1) →
           ∃ raw, utf8_encode (json_dumps_indent 0 (Dump.rec_value r)) = Ok raw
                  ∧ fs' !! pm.1 = Some (Rebuild.File raw)).
Proof.
  induction records as [|r rs IH]; intros memo fs fs' rows Hrun; simpl in Hrun.
  - injection Hrun as <- <-. exists []. split; [reflexivity|]. split; [reflexivity|].
    split; [reflexivity|]. intros i r pm Hi. rewrite lookup_nil in Hi. discriminate Hi.
  - apply bind_Ok in Hrun as ([dir memo1] & Hdir & Hrun).
    apply bind_Ok in Hrun as (fs1 & Hw & Hrun).
    apply bind_Ok in Hrun as ([rows' fs2] & Hloop & Hrun).
    injection Hrun as <- <-.
    destruct (IH _ _ _ _ Hloop) as (placed & Hplaced & -> & Hother & Hat).
    set (p := dir ++ [Dump.record_file_name r]) in *.
    set (row := {| Dump.m_key := Dump.rec_key r; Dump.m_root := Dump.rec_root r;
                   Dump.m_id := Dump.record_id r; Dump.m_path := path_str p |}).
    exists ((p, row) :: placed).
    split; [simpl; rewrite Hdir; simpl; rewrite Hplaced; reflexivity|].
    split; [reflexivity|]. split.
    + intros q c Hq. simpl in Hq. apply not_elem_of_cons in Hq as [Hqp Hq].
      rewrite (Hother q c Hq). exact (dump_write_json_file _ _ _ _ _ c Hw Hqp).
    + intros [|i] r' pm Hr Hpm Hlater.
      * injection Hr as <-. injection Hpm as <-. simpl.
        destruct (dump_write_json_Ok _ _ _ _ Hw) as (raw & Hraw & Hfile & _).
        exists raw. split; [exact Hraw|]. apply Hother; [|exact Hfile].
        intros Hin. apply list_elem_of_fmap in Hin as (pm' & Hp' & Hin).
        apply list_elem_of_lookup in Hin as [j Hj].
        apply (Hlater (S j) pm'); [lia|exact Hj|]. symmetry. exact Hp'.
      * apply (Hat i r' pm Hr Hpm). intros j pm' Hij Hj.
        apply (Hlater (S j) pm'); [lia|exact Hj].
Qed.

(** A record file after all the writes of the dump. *)
Lemma dumped_record_file_read (fuel : nat) (entries : list (bytes * bytes))
    (parse_json_values : bool) (records : list Dump.record)
    (idx : gmap pystr pydict) (memo : gmap pystr (list pystr))
    (placed : list (list pystr * Dump.manifest_row))
    (fs2 fs3 fs4 fs' : gmap (list pystr) Rebuild.node) (manifest : json) :
  Dump._extract_records entries parse_json_values = Ok records →
  Dump.memo_consistent idx memo →
  Dump.place_loop fuel records idx memo = Ok placed →
  DumpFiles.place_loop fuel records idx memo fs2 = Ok (placed.*2, fs3) →
  DumpFiles._write_json fs3 [txt "manifest.json"] manifest = Ok fs4 →
  DumpFiles.write_grouped (DumpFiles.grouped_roots records) records fs4 = Ok fs' →
  ∀ i r pm, records !! i = Some r → placed !! i = Some pm →
    (∀ j pm', i < j → placed !! j = Some pm' → pm'.1 ≠ pm.1) →
    Rebuild._read_json fs' pm.1 = Ok (Dump.rec_value r)
    ∧ Rebuild.fs_exists fs' pm.1 = true.
Proof.
  intros Hrecords Hmemo Hplaced Hloop Hw4 Hgrouped i r pm Hr Hpm Hlater.
  destruct (place_loop_files_spec _ _ _ _ _ _ _ Hloop)
    as (placed' & Hplaced' & _ & _ & Hat).
  rewrite Hplaced in Hplaced'. injection Hplaced' as <-.
  destruct (Hat i r pm Hr Hpm Hlater) as (raw & Hraw & Hfile3).
  assert (Hlen : 2 ≤ length pm.1).
  { pose proof (place_loop_shapes _ _ _ _ _ Hplaced Hmemo) as Hshapes.
    destruct (Forall2_lookup_lr _ _ _ _ _ _ Hshapes Hr Hpm) as (dir & Hdir & -> & _).
    rewrite length_app. simpl.
    destruct Hdir as [->|(fp & _ & _ & ->)]; simpl; lia. }
  assert (Hfile : fs' !! pm.1 = Some (Rebuild.File raw)).
  { destruct (write_grouped_lookup _ _ _ _ Hgrouped) as [_ Hout].
    rewrite Hout.
    - apply (dump_write_json_file _ _ _ _ _ raw Hw4); [|exact Hfile3].
      intros Heq. rewrite Heq in Hlen. simpl in Hlen. lia.
    - intros root _ Heq. rewrite Heq in Hlen. simpl in Hlen. lia. }
  split.
  - apply (read_json_file _ _ _ _ Hfile Hraw).
    pose proof (extract_records_wf _ _ _ Hrecords) as Hwf.
    rewrite Forall_forall in Hwf. apply (Hwf r). eapply list_elem_of_lookup_2. exact Hr.
  - unfold Rebuild.fs_exists. rewrite Hfile.
    rewrite (bool_decide_eq_true_2 (is_Some _)) by eauto. apply orb_true_r.
Qed.

(** X21. Every record file of a dump can be read by the rebuild and holds
    the value of the last record that was placed at its path: for a record
    after which no record gets the same path, [_read_json] on the dumped
    tree gives back the record's value (so of two records that collide,
    the earlier one's value is not in the tree). *)
Theorem dumped_record_files (fuel : nat) (fs fs' : gmap (list pystr) Rebuild.node)
    (entries : list (bytes * bytes)) (parse_json_values : bool)
    (leveldb_meta : pydict) :
  DumpFiles.dump_store fuel fs entries parse_json_values leveldb_meta = Ok fs' →
  ∃ records folders placed,
    Dump._extract_records entries parse_json_values = Ok records
    ∧ Dump._place_records fuel records = Ok (folders, placed)
    ∧ ∀ i r pm, records !! i = Some r → placed !! i = Some pm →
        (∀ j pm', i < j → placed !! j = Some pm' → pm'.1 ≠ pm.1) →
        Rebuild._read_json fs' pm.1 = Ok (Dump.rec_value r)
        ∧ Rebuild.fs_exists fs' pm.1 = true.
Proof.
  intros Hrun.
  destruct (dump_store_Ok _ _ _ _ _ _ Hrun)
    as (records & folders & placed & fs1 & fs2 & fs3 & fs4 & idx & memo
        & Hrecords & Hplace & _ & _ & Hmemo & Hplaced & Hloop & Hw4 & Hgrouped).
  exists records, folders, placed. split; [exact Hrecords|]. split; [exact Hplace|].
  exact (dumped_record_file_read _ _ _ _ _ _ _ _ _ _ _ _
           Hrecords Hmemo Hplaced Hloop Hw4 Hgrouped).
Qed.

End record_files.

Lemma dumped_record_files_witness :
  ∃ fs',
    @DumpFiles.dump_store ascii_db 5 ∅ folder_store true [] = Ok fs'
    ∧ Rebuild._read_json fs' [txt "_tree"; txt "A"; txt "items"; txt "Sword__i1.json"]
      = Ok (JObj [(txt "name", JStr (txt "Sword")); (txt "folder", JStr (txt "A"))]).
Proof.
  destruct (res_is_ok (@DumpFiles.dump_store ascii_db 5 ∅ folder_store true []))
    as [fs' Hrun]; [vm_compute; reflexivity|].
  destruct (@dumped_record_files ascii_db 5 ∅ fs' folder_store true [] Hrun)
    as (records & folders & placed & Hrecords & Hplace & Hfiles).
  exists fs'. split; [exact Hrun|].
  assert (Hr : match @Dump._extract_records ascii_db folder_store true with
               | Ok rs => Dump.rec_value <$> rs !! 1
               | Raise _ => None
               end
               = Some (JObj [(txt "name", JStr (txt "Sword")); (txt "folder", JStr (txt "A"))]))
    by (vm_compute; reflexivity).
  assert (Hp : match (rs ← @Dump._extract_records ascii_db folder_store true;
                      @Dump._place_records ascii_db 5 rs) with
               | Ok (_, pl) => (length pl, fst <$> pl !! 1)
               | Raise _ => (0, None)
               end
               = (2, Some [txt "_tree"; txt "A"; txt "items"; txt "Sword__i1.json"]))
    by (vm_compute; reflexivity).
  rewrite Hrecords in Hr, Hp. simpl in Hp. rewrite Hplace in Hp.
  injection Hp as Hlen Hp.
  destruct (records !! 1) as [r|] eqn:Hr1; [|discriminate Hr].
  destruct (placed !! 1) as [pm|] eqn:Hp1; [|discriminate Hp].
  injection Hr as Hr. injection Hp as Hp.
  destruct (Hfiles 1 r pm Hr1 Hp1) as [Hread _].
  - intros j pm' Hj Hpm'. apply lookup_lt_Some in Hpm'. lia.
  - rewrite Hp, Hr in Hread. exact Hread.
Defined.

(** ** The rebuild of a fresh dump *)

Section rebuild_of_dump.
Context `{UnicodeDB}.

(** What the loop over the records adds to the tree: the record files and
    the directories above them. *)
Lemma place_loop_dom (fuel : nat) (idx : gmap pystr pydict) :
  ∀ (records : list Dump.record) (memo : gmap pystr (list pystr))
    (fs fs' : gmap (list pystr) Rebuild.node) (placed : list (list pystr * Dump.manifest_row)),
    DumpFiles.place_loop fuel records idx memo fs = Ok (placed.*2, fs') →
    Dump.place_loop fuel records idx memo = Ok placed →
    ∀ q, is_Some (fs' !! q) →
      is_Some (fs !! q)
      ∨ ∃ p, p ∈ placed.*1 ∧ (q = p ∨ q ∈ DumpFiles.ancestors p).
Proof.
  induction records as [|r rs IH]; intros memo fs fs' placed Hrun Hplaced q Hq;
    simpl in Hrun, Hplaced.
  - injection Hrun as _ <-. left. exact Hq.
  - apply bind_Ok in Hrun as ([dir memo1] & Hdir & Hrun).
    apply bind_Ok in Hrun as (fs1 & Hw & Hrun).
    apply bind_Ok in Hrun as ([rows' fs2] & Hloop & Hrun).
    rewrite Hdir in Hplaced. simpl in Hplaced.
    apply bind_Ok in Hplaced as (placed' & Hplaced' & Hplaced).
    injection Hplaced as <-. simpl in Hrun. injection Hrun as -> <-.
    destruct (IH _ _ _ _ Hloop Hplaced' q Hq) as [Hq1|(p & Hp & Hqp)].
    + set (p := dir ++ [Dump.record_file_name r]) in *.
      destruct (dump_write_json_Ok _ _ _ _ Hw) as (raw & _ & _ & Hout & _).
      destruct (decide (q = p)) as [->|Hne].
      { right. exists p. split; [simpl; left|left; reflexivity]. }
      destruct (decide (q ∈ DumpFiles.ancestors p)) as [Hanc|Hanc].
      { right. exists p. split; [simpl; left|right; exact Hanc]. }
      left. rewrite <- (Hout q Hne Hanc). exact Hq1.
    + right. exists p. split; [simpl; right; exact Hp|exact Hqp].
Qed.

(** A directory above a file is named by one of the parts before the
    file's name. *)
Lemma ancestor_name (dir : list pystr) (file : pystr) (q : list pystr) :
  q ∈ DumpFiles.ancestors (dir ++ [file]) → Rebuild.path_name q ∈ dir.
Proof.
  unfold DumpFiles.ancestors. intros Hq.
  apply list_elem_of_fmap in Hq as (n & -> & Hn). apply elem_of_seq in Hn.
  rewrite length_app in Hn. simpl in Hn.
  rewrite take_app_le by lia. unfold Rebuild.path_name.
  rewrite last_lookup, length_take_le by lia.
  rewrite lookup_take_lt by lia.
  destruct (dir !! pred n) as [x|] eqn:Hx.
  - simpl. eapply list_elem_of_lookup_2. exact Hx.
  - apply lookup_ge_None in Hx. lia.
Qed.

Lemma ends_with_json_dot (x : pystr) :
  Rebuild.ends_with (txt ".json") x = true → 46%N ∈ x.
Proof.
  unfold Rebuild.ends_with, startswith.
  destruct (strip_prefix _ _) as [rest|] eqn:Hs; [|discriminate]. intros _.
  apply strip_prefix_Some in Hs.
  apply (f_equal reverse) in Hs. rewrite reverse_involutive, reverse_app in Hs.
  rewrite reverse_involutive in Hs. rewrite Hs.
  apply elem_of_app. right. left.
Qed.

(** No directory of a dump is named like a JSON file. *)
Lemma placed_dir_not_json (root : pystr) (dir : list pystr) (x : pystr) :
  is_safe_name root →
  (dir = [root]
   ∨ ∃ fp, fp ≠ [] ∧ Forall is_safe_name fp ∧ dir = txt "_tree" :: fp ++ [root]) →
  x ∈ dir → Rebuild.ends_with (txt ".json") x = false.
Proof.
  intros Hroot Hdir Hx.
  assert (Hcases : x = txt "_tree" ∨ is_safe_name x).
  { destruct Hdir as [->|(fp & _ & Hfp & ->)].
    - apply list_elem_of_singleton in Hx as ->. right. exact Hroot.
    - apply elem_of_cons in Hx as [->|Hx]; [left; reflexivity|]. right.
      apply elem_of_app in Hx as [Hx|Hx].
      + rewrite Forall_forall in Hfp. exact (Hfp x Hx).
      + apply list_elem_of_singleton in Hx as ->. exact Hroot. }
  destruct Hcases as [->|Hsafe]; [reflexivity|].
  destruct (Rebuild.ends_with (txt ".json") x) eqn:He; [|reflexivity].
  apply ends_with_json_dot in He.
  destruct (is_safe_name_plain x Hsafe) as (_ & _ & _ & _ & Hdot & _). contradiction.
Qed.

(** The manifest that the dump wrote, as the rebuild loads it. *)
Lemma load_manifest_of_dump (fuel : nat) (records : list Dump.record)
    (idx : gmap pystr pydict) (memo : gmap pystr (list pystr))
    (placed : list (list pystr * Dump.manifest_row))
    (fs3 fs4 fs' : gmap (list pystr) Rebuild.node) (leveldb_meta : pydict) :
  Forall (λ r, json_wf (Dump.rec_key r)) records →
  Forall (λ r, Dump.rec_root r ≠ txt "manifest") records →
  json_wf (JObj leveldb_meta) →
  Dump.place_loop fuel records idx memo = Ok placed →
  DumpFiles._write_json fs3 [txt "manifest.json"]
    (DumpFiles.manifest_json leveldb_meta placed.*2) = Ok fs4 →
  DumpFiles.write_grouped (DumpFiles.grouped_roots records) records fs4 = Ok fs' →
  Rebuild._load_manifest fs' = Ok (row_dict <$> placed.*2, leveldb_meta).
Proof.
  intros Hkeys Hroots Hmeta Hplaced Hw4 Hgrouped.
  apply dump_write_json_top in Hw4 as (raw & Hraw & ->).
  destruct (write_grouped_lookup _ _ _ _ Hgrouped) as [_ Hout].
  assert (Hfile : fs' !! [txt "manifest.json"] = Some (Rebuild.File raw)).
  { rewrite Hout; [apply lookup_insert_eq|].
    intros root Hroot Heq. injection Heq as Heq.
    change (txt "manifest.json") with (txt "manifest" ++ txt ".json") in Heq.
    apply app_inv_tail in Heq. subst root.
    apply grouped_roots_elem in Hroot as (r & Hr & Hroot).
    rewrite Forall_forall in Hroots. exact (Hroots r Hr Hroot). }
  assert (Hwf : json_wf (DumpFiles.manifest_json leveldb_meta placed.*2)).
  { apply manifest_json_wf; [exact Hmeta|].
    pose proof (place_loop_paths _ _ _ _ _ Hplaced) as Hall.
    clear -Hkeys Hall. induction Hall as [|r pm rs pms (dir & _ & _ & Hkey) _ IH];
      [constructor|].
    apply Forall_cons in Hkeys as [Hk Hkeys]. simpl.
    constructor; [rewrite Hkey; exact Hk|exact (IH Hkeys)]. }
  unfold Rebuild._load_manifest, Rebuild.fs_exists.
  rewrite Hfile. rewrite (bool_decide_eq_true_2 (is_Some _)) by eauto.
  rewrite orb_true_r. cbn [negb].
  rewrite (read_json_file _ _ _ _ Hfile Hraw Hwf). simpl.
  rewrite dicts_of_manifest_rows. reflexivity.
Qed.

(** The records that the rebuild takes from the rows of a manifest whose
    files hold the values of the records. *)
Lemma build_known_of_placed (fs : gmap (list pystr) Rebuild.node)
    (records : list Dump.record) (placed : list (list pystr * Dump.manifest_row)) :
  Forall2 (λ r pm, Dump.m_key pm.2 = Dump.rec_key r
                   ∧ Rebuild.rel_of_str (Dump.m_path pm.2) = Some pm.1
                   ∧ Rebuild.fs_exists fs pm.1 = true
                   ∧ Rebuild._read_json fs pm.1 = Ok (Dump.rec_value r))
          records placed →
  Rebuild._build_known_records fs (row_dict <$> placed.*2)
  = (known ← encode_records (text_records records); Ok (known, [])).
Proof.
  induction 1 as [|r pm rs pms (Hkey & Hrel & Hex & Hread) _ IH]; [reflexivity|].
  rewrite !fmap_cons. cbn [Rebuild._build_known_records].
  change (dict_get (txt "key") (row_dict pm.2)) with (Some (Dump.m_key pm.2)).
  change (dict_get (txt "path") (row_dict pm.2)) with (Some (JStr (Dump.m_path pm.2))).
  rewrite Hkey. unfold text_records. cbn [omap list_omap].
  fold (text_records rs).
  destruct (Dump.rec_key r) as [ | | |key| | ]; try exact IH.
  cbv beta iota. rewrite Hrel, Hex. cbn [negb]. rewrite Hread, IH.
  unfold encode_records. cbn [mapM fst snd]. fold (encode_records (text_records rs)).
  unfold mbind, res_mbind, res_bind.
  destruct (Rebuild._encode_value (Dump.rec_value r)) as [encoded|e]; [|reflexivity].
  destruct (encode_records (text_records rs)) as [known|e]; reflexivity.
Qed.

Lemma known_paths_of_rows (placed : list (list pystr * Dump.manifest_row))
    (pm : list pystr * Dump.manifest_row) :
  pm ∈ placed → Dump.m_path pm.2 ∈ Rebuild.known_paths_of (row_dict <$> placed.*2).
Proof.
  intros Hpm. unfold Rebuild.known_paths_of.
  apply elem_of_list_to_set, list_elem_of_omap. exists (row_dict pm.2).
  split; [|reflexivity].
  apply list_elem_of_fmap. exists pm.2. split; [reflexivity|].
  apply list_elem_of_fmap. exists pm. auto.
Qed.

(** What the rebuild finds in the tree of a dump that was written to an
    empty directory. *)
Lemma rebuild_reads_dump (fuel : nat) (fs' : gmap (list pystr) Rebuild.node)
    (entries : list (bytes * bytes)) (parse_json_values : bool)
    (leveldb_meta : pydict) (records : list Dump.record)
    (folders : list Dump.folder_row)
    (placed : list (list pystr * Dump.manifest_row)) :
  DumpFiles.dump_store fuel ∅ entries parse_json_values leveldb_meta = Ok fs' →
  json_wf (JObj leveldb_meta) →
  Dump._extract_records entries parse_json_values = Ok records →
  Dump._place_records fuel records = Ok (folders, placed) →
  Forall (λ r, Dump.rec_root r ≠ txt "manifest") records →
  NoDup placed.*1 →
  Rebuild._load_manifest fs' = Ok (row_dict <$> placed.*2, leveldb_meta)
  ∧ Rebuild._build_known_records fs' (row_dict <$> placed.*2)
    = (known ← encode_records (text_records records); Ok (known, []))
  ∧ Rebuild._record_files_for_new_entries fs'
      (Rebuild.known_paths_of (row_dict <$> placed.*2)) = [].
Proof.
  intros Hrun Hmeta Hrecords Hplace Hroots Hnodup.
  destruct (dump_store_Ok _ _ _ _ _ _ Hrun)
    as (records' & folders' & placed' & fs1 & fs2 & fs3 & fs4 & idx & memo
        & Hrecords' & Hplace' & Hw1 & Hw2 & Hmemo & Hplaced & Hloop & Hw4 & Hgrouped).
  rewrite Hrecords in Hrecords'. injection Hrecords' as <-.
  rewrite Hplace in Hplace'. injection Hplace' as <- <-.
  pose proof (extract_records_wf _ _ _ Hrecords) as Hwf.
  pose proof (place_loop_shapes _ _ _ _ _ Hplaced Hmemo) as Hshapes.
  assert (Hpaths : Forall2 (λ r pm,
            ∃ dir, (dir = [Dump.rec_root r]
                    ∨ ∃ fp, fp ≠ [] ∧ Forall is_safe_name fp
                            ∧ dir = txt "_tree" :: fp ++ [Dump.rec_root r])
                   ∧ is_safe_name (Dump.rec_root r)
                   ∧ pm.1 = dir ++ [Dump.record_file_name r]
                   ∧ Dump.m_path pm.2 = path_str pm.1
                   ∧ Dump.m_key pm.2 = Dump.rec_key r
                   ∧ Rebuild.rel_of_str (Dump.m_path pm.2) = Some pm.1
                   ∧ 2 ≤ length pm.1) records placed).
  { clear -Hwf Hshapes. induction Hshapes as [|r pm rs pms Hr _ IH]; [constructor|].
    apply Forall_cons in Hwf as [(_ & _ & Hroot) Hwf]. constructor; [|exact (IH Hwf)].
    destruct Hr as (dir & Hdir & Hp & Hpath & _ & Hkey & _).
    destruct (infer_root_of_dir _ (Dump.record_file_name r) dir Hroot Hdir)
      as (_ & Hlen & Hplain).
    destruct (record_file_name_parts r dir)
      as (_ & _ & _ & _ & _ & _ & Hf1 & Hf2 & Hf3 & Hf4).
    exists dir. split; [exact Hdir|]. split; [exact Hroot|]. split; [exact Hp|].
    split; [exact Hpath|]. split; [exact Hkey|]. split; [|rewrite Hp; exact Hlen].
    rewrite Hpath, Hp. apply rel_of_str_path_str; [destruct dir; discriminate|].
    apply Forall_app. split; [exact Hplain|]. repeat constructor; assumption. }
  split; [|split].
  - apply (load_manifest_of_dump fuel records idx memo placed fs3 fs4 fs');
      try assumption.
    eapply Forall_impl; [exact Hwf|]. intros r Hr. apply Hr.
  - apply build_known_of_placed.
    apply Forall2_same_length_lookup_2; [exact (Forall2_length _ _ _ Hshapes)|].
    intros i r pm Hr Hpm.
    destruct (Forall2_lookup_lr _ _ _ _ _ _ Hpaths Hr Hpm)
      as (dir & _ & _ & _ & _ & Hkey & Hrel & _).
    split; [exact Hkey|]. split; [exact Hrel|].
    apply and_comm.
    apply (dumped_record_file_read _ _ _ _ _ _ _ _ _ _ _ _
             Hrecords Hmemo Hplaced Hloop Hw4 Hgrouped i r pm Hr Hpm).
    intros j pm' Hij Hj Heq.
    assert (Hi' : placed.*1 !! i = Some pm.1) by (rewrite list_lookup_fmap, Hpm; reflexivity).
    assert (Hj' : placed.*1 !! j = Some pm.1)
      by (rewrite list_lookup_fmap, Hj; simpl; rewrite Heq; reflexivity).
    pose proof (NoDup_lookup _ _ _ _ Hnodup Hi' Hj'). lia.
  - destruct (Rebuild._record_files_for_new_entries fs' _) as [|p l] eqn:Hnew;
      [reflexivity|]. exfalso.
    assert (Hp : p ∈ Rebuild._record_files_for_new_entries fs'
                       (Rebuild.known_paths_of (row_dict <$> placed.*2)))
      by (rewrite Hnew; left).
    clear Hnew. unfold Rebuild._record_files_for_new_entries in Hp.
    apply list_elem_of_filter in Hp as [Hentry Hp].
    unfold Rebuild.rglob_json in Hp. rewrite merge_sort_Permutation in Hp.
    apply list_elem_of_filter in Hp as [Hjson Hp].
    apply elem_of_elements, elem_of_dom in Hp.
    apply Is_true_true in Hentry, Hjson.
    unfold Rebuild.is_new_entry in Hentry.
    apply andb_true_iff in Hentry as [Hentry _].
    apply andb_true_iff in Hentry as [Hentry Hknown].
    apply andb_true_iff in Hentry as [Hlen _].
    apply negb_true_iff, Nat.leb_gt in Hlen.
    apply negb_true_iff, bool_decide_eq_false in Hknown.
    destruct (write_grouped_lookup _ _ _ _ Hgrouped) as [_ Hout].
    rewrite Hout in Hp by (intros root _ ->; simpl in Hlen; lia).
    apply dump_write_json_top in Hw4 as (raw4 & _ & ->).
    rewrite lookup_insert_ne in Hp by (intros <-; simpl in Hlen; lia).
    destruct (place_loop_dom _ _ _ _ _ _ _ Hloop Hplaced p Hp) as [Hp2|(p0 & Hp0 & Hcases)].
    + apply dump_write_json_top in Hw2 as (raw2 & _ & ->).
      apply dump_write_json_top in Hw1 as (raw1 & _ & ->).
      rewrite lookup_insert_ne in Hp2 by (intros <-; simpl in Hlen; lia).
      rewrite lookup_insert_ne in Hp2 by (intros <-; simpl in Hlen; lia).
      rewrite lookup_empty in Hp2. destruct Hp2 as [x Hx]. discriminate Hx.
    + apply list_elem_of_fmap in Hp0 as (pm & -> & Hpm).
      apply list_elem_of_lookup in Hpm as [i Hpm].
      destruct (Forall2_lookup_r _ _ _ _ _ Hpaths Hpm)
        as (r & Hr & dir & Hdir & Hroot & Hpath & Hstr & _).
      destruct Hcases as [->|Hanc].
      * apply Hknown. rewrite <- Hstr. apply known_paths_of_rows.
        eapply list_elem_of_lookup_2. exact Hpm.
      * rewrite Hpath in Hanc. apply ancestor_name in Hanc.
        rewrite (placed_dir_not_json _ _ _ Hroot Hdir Hanc) in Hjson.
        discriminate Hjson.
Qed.

(** The run of [rebuild_store] on a tree in which the manifest is loaded,
    the known records are read and no file is new. *)
Lemma rebuild_store_known_only (fuel : nat) (rnd : nat → nat) (pos : nat)
    (fs : gmap (list pystr) Rebuild.node) (manifest : list pydict)
    (leveldb_meta : pydict) (known : list (pystr * bytes)) :
  Rebuild._load_manifest fs = Ok (manifest, leveldb_meta) →
  Rebuild._build_known_records fs manifest = Ok (known, []) →
  Rebuild._record_files_for_new_entries fs (Rebuild.known_paths_of manifest) = [] →
  ∃ log st,
    Rebuild.rebuild_store fuel rnd pos fs
    = Ok (Rebuild.merge_records known [], log, st)
    ∧ Rebuild.st_fs st = fs ∧ Rebuild.st_pos st = pos
    ∧ Rebuild.st_allocated st = []
    ∧ ∀ e, e ∈ log → ∃ c, e = Rebuild.ComparatorWarning c.
Proof.
  intros Hload Hknown Hnew. unfold Rebuild.rebuild_store.
  rewrite Hload. cbn [mbind res_mbind res_bind]. rewrite Hknown.
  cbn [mbind res_mbind res_bind]. unfold Rebuild._build_new_records.
  cbn [Rebuild.st_fs]. rewrite Hnew. cbn [Rebuild.new_records_loop mbind res_mbind res_bind].
  eexists _, _. split; [reflexivity|]. cbn [Rebuild.st_fs Rebuild.st_pos
    Rebuild.st_allocated Rebuild.st_log app].
  split; [reflexivity|]. split; [reflexivity|]. split; [reflexivity|].
  intros e He.
  destruct (dict_get (txt "comparator") leveldb_meta) as [[ | | |c| | ]|];
    try (inversion He; fail).
  destruct (negb _ && negb _); [|inversion He].
  apply list_elem_of_singleton in He as ->. eauto.
Qed.

Lemma last_binding_NoDup {V : Type} (k : pystr) (v : V) (l : list (pystr * V)) :
  NoDup l.*1 → (Rebuild.last_binding k l = Some v ↔ (k, v) ∈ l).
Proof.
  intros Hnd. unfold Rebuild.last_binding. split.
  - intros Hget. apply dict_get_elem in Hget. rewrite elem_of_reverse in Hget. exact Hget.
  - intros Hin. apply dict_get_NoDup.
    + rewrite fmap_reverse, reverse_Permutation. exact Hnd.
    + rewrite elem_of_reverse. exact Hin.
Qed.

Lemma text_entries_elem (entries : list (bytes * bytes)) (text : pystr) (v : bytes) :
  (text, v) ∈ text_entries entries
  ↔ ∃ k, (k, v) ∈ entries ∧ utf8_decode k = Some text.
Proof.
  unfold text_entries. rewrite list_elem_of_omap. split.
  - intros ([k v'] & Hin & Hdec). simpl in Hdec.
    destruct (utf8_decode k) as [t|] eqn:Hk; [|discriminate].
    injection Hdec as -> ->. exists k. auto.
  - intros (k & Hin & Hdec). exists (k, v). split; [exact Hin|].
    simpl. rewrite Hdec. reflexivity.
Qed.

(** Keys that differ as bytes differ as text. *)
Lemma text_entries_NoDup (entries : list (bytes * bytes)) :
  NoDup entries.*1 → NoDup (text_entries entries).*1.
Proof.
  induction entries as [|[k v] entries IH]; intros Hnd; [constructor|].
  simpl in Hnd. apply NoDup_cons in Hnd as [Hk Hnd].
  unfold text_entries. simpl. fold (text_entries entries).
  destruct (utf8_decode k) as [text|] eqn:Hdec; [|exact (IH Hnd)].
  simpl. apply NoDup_cons. split; [|exact (IH Hnd)].
  intros Hin. apply list_elem_of_fmap in Hin as ([t v'] & -> & Hin). simpl in Hdec.
  apply text_entries_elem in Hin as (k' & Hin & Hdec').
  apply utf8_encode_decode in Hdec, Hdec'. rewrite Hdec in Hdec'.
  injection Hdec' as <-. apply Hk. apply list_elem_of_fmap. exists (k, v'). auto.
Qed.

Lemma encode_value_encode_bytes (raw : bytes) :
  Rebuild._encode_value (Dump._encode_bytes raw) = Ok raw.
Proof.
  unfold Dump._encode_bytes. destruct (utf8_decode raw) as [text|] eqn:Hdec.
  - exact (utf8_encode_decode raw text Hdec).
  - rewrite encode_value_wrapper. apply b64decode_b64encode.
Qed.

(** Dumped without parsing, the records with a text key encode to the
    store entries with a text key. *)
Lemma encode_records_raw (entries : list (bytes * bytes)) :
  ∀ records, Dump._extract_records entries false = Ok records →
    encode_records (text_records records) = Ok (text_entries entries).
Proof.
  unfold Dump._extract_records. intros records Hrun. apply mapM_res_Ok in Hrun.
  induction Hrun as [|[k v] r entries records Hr _ IH]; [reflexivity|].
  simpl in Hr.
  assert (Hrec : Dump.rec_key r
                 = match utf8_decode k with
                   | Some text => JStr text
                   | None => JObj [(txt "base64", JStr (b64encode k))]
                   end
                 ∧ Dump.rec_value r = Dump._encode_bytes v).
  { unfold Dump._parse_key_parts, Dump._encode_bytes in *.
    destruct (utf8_decode k) as [text|] eqn:Hdec.
    - assert (Hkey : (if bool_decide (text = [])
                      then (JStr text : json) else JStr text) = JStr text)
        by (destruct (bool_decide _); reflexivity).
      destruct (startswith (txt "!") text).
      + destruct (split_on 33 text) as [|p0 [|p1 [|p2 parts]]];
          try (injection Hr as <-; split; [exact Hkey|reflexivity]).
        destruct (negb (bool_decide (p1 = [])));
          injection Hr as <-; (split; [exact Hkey|reflexivity]).
      + injection Hr as <-; split; [exact Hkey|reflexivity].
    - injection Hr as <-. split; reflexivity. }
  destruct Hrec as [Hkey Hval].
  unfold text_records, text_entries. cbn [omap list_omap fst snd].
  fold (text_records records). fold (text_entries entries). rewrite Hkey.
  destruct (utf8_decode k) as [text|]; [|exact IH].
  unfold encode_records. cbn [mapM fst snd]. fold (encode_records (text_records records)).
  rewrite Hval, encode_value_encode_bytes, IH. reflexivity.
Qed.

(** X22. The rebuild of a dump that was written to an empty directory
    takes everything from the manifest: when no record has the root
    [manifest] and no two records were placed at the same path, it finds no
    new file, renames nothing, draws no id and reports no missing file. The
    records it merges are those whose key is text, each with
    [_encode_value] of its dumped value, and it fails only when one of
    these encodings fails. A record whose key is not UTF-8 is left out. *)
Theorem rebuild_of_fresh_dump (fuel fuel' : nat) (rnd : nat → nat) (pos : nat)
    (fs' : gmap (list pystr) Rebuild.node) (entries : list (bytes * bytes))
    (parse_json_values : bool) (leveldb_meta : pydict)
    (records : list Dump.record) (folders : list Dump.folder_row)
    (placed : list (list pystr * Dump.manifest_row)) :
  DumpFiles.dump_store fuel ∅ entries parse_json_values leveldb_meta = Ok fs' →
  json_wf (JObj leveldb_meta) →
  Dump._extract_records entries parse_json_values = Ok records →
  Dump._place_records fuel records = Ok (folders, placed) →
  Forall (λ r, Dump.rec_root r ≠ txt "manifest") records →
  NoDup placed.*1 →
  match encode_records (text_records records) with
  | Ok known =>
    ∃ log st,
      Rebuild.rebuild_store fuel' rnd pos fs'
      = Ok (Rebuild.merge_records known [], log, st)
      ∧ Rebuild.st_fs st = fs' ∧ Rebuild.st_pos st = pos
      ∧ Rebuild.st_allocated st = []
      ∧ ∀ e, e ∈ log → ∃ c, e = Rebuild.ComparatorWarning c
  | Raise e => Rebuild.rebuild_store fuel' rnd pos fs' = Raise e
  end.
Proof.
  intros Hrun Hmeta Hrecords Hplace Hroots Hnodup.
  destruct (rebuild_reads_dump _ _ _ _ _ _ _ _ Hrun Hmeta Hrecords Hplace Hroots Hnodup)
    as (Hload & Hknown & Hnew).
  destruct (encode_records (text_records records)) as [known|e].
  - exact (rebuild_store_known_only fuel' rnd pos fs' _ _ known Hload Hknown Hnew).
  - unfold Rebuild.rebuild_store. rewrite Hload. cbn [mbind res_mbind res_bind].
    rewrite Hknown. reflexivity.
Qed.

(** X23. Dumped without parsing to an empty directory and rebuilt, a store
    comes back byte for byte, as far as its keys are UTF-8: when no record
    has the root [manifest] and no two records were placed at the same
    path, the mapping that the rebuild writes binds a key text to a value
    exactly when the store binds the UTF-8 encoding of that text to that
    value. The tree is left as the dump wrote it. Entries whose key is not
    UTF-8 are not in the rebuilt store. *)
Theorem raw_dump_rebuild_restores_store (fuel fuel' : nat) (rnd : nat → nat)
    (pos : nat) (fs' : gmap (list pystr) Rebuild.node)
    (entries : list (bytes * bytes)) (leveldb_meta : pydict)
    (records : list Dump.record) (folders : list Dump.folder_row)
    (placed : list (list pystr * Dump.manifest_row)) :
  DumpFiles.dump_store fuel ∅ entries false leveldb_meta = Ok fs' →
  json_wf (JObj leveldb_meta) →
  NoDup entries.*1 →
  Dump._extract_records entries false = Ok records →
  Dump._place_records fuel records = Ok (folders, placed) →
  Forall (λ r, Dump.rec_root r ≠ txt "manifest") records →
  NoDup placed.*1 →
  ∃ merged log st,
    Rebuild.rebuild_store fuel' rnd pos fs' = Ok (merged, log, st)
    ∧ Rebuild.st_fs st = fs'
    ∧ ∀ text v, merged !! text = Some v
                ↔ ∃ k, (k, v) ∈ entries ∧ utf8_decode k = Some text
                       ∧ utf8_encode text = Ok k.
Proof.
  intros Hrun Hmeta Hkeys Hrecords Hplace Hroots Hnodup.
  destruct (rebuild_reads_dump _ _ _ _ _ _ _ _ Hrun Hmeta Hrecords Hplace Hroots Hnodup)
    as (Hload & Hknown & Hnew).
  rewrite (encode_records_raw _ _ Hrecords) in Hknown.
  destruct (rebuild_store_known_only fuel' rnd pos fs' _ _ _ Hload Hknown Hnew)
    as (log & st & Hrebuild & Hfs & _).
  exists (Rebuild.merge_records (text_entries entries) []), log, st.
  split; [exact Hrebuild|]. split; [exact Hfs|].
  intros text v. rewrite merge_records_lookup. cbn [Rebuild.last_binding reverse dict_get].
  change (Rebuild.last_binding text [] : option bytes) with (@None bytes).
  rewrite (last_binding_NoDup _ _ _ (text_entries_NoDup _ Hkeys)), text_entries_elem.
  split; intros (k & Hin & Hdec); [|destruct Hdec as [Hdec _]]; exists k; auto.
  split; [exact Hin|]. split; [exact Hdec|]. exact (utf8_encode_decode _ _ Hdec).
Qed.

End rebuild_of_dump.

Lemma rebuild_of_fresh_dump_witness :
  ∃ fs' known log st,
    @DumpFiles.dump_store ascii_db 5 ∅ folder_store true [] = Ok fs'
    ∧ @Rebuild.rebuild_store ascii_db 0 in_turn 0 fs'
      = Ok (Rebuild.merge_records known [], log, st)
    ∧ Rebuild.st_fs st = fs' ∧ length known = 2.
Proof.
  destruct (res_is_ok (@DumpFiles.dump_store ascii_db 5 ∅ folder_store true []))
    as [fs' Hrun]; [vm_compute; reflexivity|].
  destruct (res_is_ok (@Dump._extract_records ascii_db folder_store true))
    as [records Hrecords]; [vm_compute; reflexivity|].
  destruct (res_is_ok (rs ← @Dump._extract_records ascii_db folder_store true;
                       @Dump._place_records ascii_db 5 rs))
    as [[folders placed] Hplace]; [vm_compute; reflexivity|].
  assert (Hnodup : match rs ← @Dump._extract_records ascii_db folder_store true;
                         @Dump._place_records ascii_db 5 rs with
                   | Ok (_, pl) => bool_decide (NoDup pl.*1)
                   | Raise _ => false
                   end = true) by (vm_compute; reflexivity).
  rewrite Hplace in Hnodup. apply bool_decide_eq_true in Hnodup.
  assert (Hroots : match @Dump._extract_records ascii_db folder_store true with
                   | Ok rs => forallb (λ r, negb (bool_decide (Dump.rec_root r = txt "manifest"))) rs
                   | Raise _ => true
                   end = true) by (vm_compute; reflexivity).
  assert (Hknown : match @Dump._extract_records ascii_db folder_store true with
                   | Ok rs => match @encode_records (text_records rs) with
                              | Ok known => length known
                              | Raise _ => 0
                              end
                   | Raise _ => 0
                   end = 2) by (vm_compute; reflexivity).
  rewrite Hrecords in Hplace, Hroots, Hknown. simpl in Hplace.
  pose proof (@rebuild_of_fresh_dump ascii_db 5 0 in_turn 0 fs' folder_store true []
                records folders placed Hrun) as Hthm.
  destruct (encode_records (text_records records)) as [known|e]; [|discriminate Hknown].
  destruct Hthm as (log & st & Hrebuild & Hfs & _).
  - constructor; constructor.
  - exact Hrecords.
  - exact Hplace.
  - rewrite forallb_forall in Hroots. apply Forall_forall. intros r Hr.
    apply list_elem_of_In in Hr. specialize (Hroots r Hr).
    apply negb_true_iff, bool_decide_eq_false in Hroots. exact Hroots.
  - exact Hnodup.
  - exists fs', known, log, st. auto.
Defined.

Lemma raw_dump_rebuild_restores_store_witness :
  ∃ fs' merged log st,
    @DumpFiles.dump_store ascii_db 5 ∅ folder_store false [] = Ok fs'
    ∧ @Rebuild.rebuild_store ascii_db 0 in_turn 0 fs' = Ok (merged, log, st)
    ∧ Rebuild.st_fs st = fs'
    ∧ ∀ text v, merged !! text = Some v
                ↔ ∃ k, (k, v) ∈ folder_store ∧ utf8_decode k = Some text
                       ∧ utf8_encode text = Ok k.
Proof.
  destruct (res_is_ok (@DumpFiles.dump_store ascii_db 5 ∅ folder_store false []))
    as [fs' Hrun]; [vm_compute; reflexivity|].
  destruct (res_is_ok (@Dump._extract_records ascii_db folder_store false))
    as [records Hrecords]; [vm_compute; reflexivity|].
  destruct (res_is_ok (rs ← @Dump._extract_records ascii_db folder_store false;
                       @Dump._place_records ascii_db 5 rs))
    as [[folders placed] Hplace]; [vm_compute; reflexivity|].
  assert (Hnodup : match rs ← @Dump._extract_records ascii_db folder_store false;
                         @Dump._place_records ascii_db 5 rs with
                   | Ok (_, pl) => bool_decide (NoDup pl.*1)
                   | Raise _ => false
                   end = true) by (vm_compute; reflexivity).
  rewrite Hplace in Hnodup. apply bool_decide_eq_true in Hnodup.
  assert (Hroots : match @Dump._extract_records ascii_db folder_store false with
                   | Ok rs => forallb (λ r, negb (bool_decide (Dump.rec_root r = txt "manifest"))) rs
                   | Raise _ => true
                   end = true) by (vm_compute; reflexivity).
  rewrite Hrecords in Hplace, Hroots. simpl in Hplace.
  destruct (@raw_dump_rebuild_restores_store ascii_db 5 0 in_turn 0 fs' folder_store []
              records folders placed Hrun) as (merged & log & st & Hrebuild & Hfs & Hall).
  - constructor; constructor.
  - apply (bool_decide_unpack _). vm_compute. exact I.
  - exact Hrecords.
  - exact Hplace.
  - rewrite forallb_forall in Hroots. apply Forall_forall. intros r Hr.
    apply list_elem_of_In in Hr. specialize (Hroots r Hr).
    apply negb_true_iff, bool_decide_eq_false in Hroots. exact Hroots.
  - exact Hnodup.
  - exists fs', merged, log, st. auto.
Defined.

(** ** A new record file whose name carries no id *)

Lemma ascii_alnum_plain (c : N) :
  ascii_isalnum c = true → isspace c = false ∧ c ≠ 95%N ∧ c ≠ 46%N.
Proof.
  unfold ascii_isalnum, isspace. intros Hc.
  assert (Hr : (48 ≤ c ≤ 57 ∨ 65 ≤ c ≤ 90 ∨ 97 ≤ c ≤ 122)%N).
  { repeat (apply orb_true_iff in Hc as [Hc|Hc]);
      apply andb_true_iff in Hc as [?%N.leb_le ?%N.leb_le]; lia. }
  split; [|lia].
  repeat (apply orb_false_iff; split);
    first [apply andb_false_iff; first [left; apply N.leb_gt; lia | right; apply N.leb_gt; lia]
          | apply N.eqb_neq; lia].
Qed.

Lemma alnum_id_plain (g : pystr) :
  Forall (λ c, ascii_isalnum c = true) g →
  py_strip g = g ∧ (95%N ∉ g) ∧ (46%N ∉ g).
Proof.
  intros Hall. rewrite Forall_forall in Hall. split; [|split].
  - apply strip_with_id.
    + destruct g as [|c t]; [exact I|]. apply ascii_alnum_plain, Hall. left.
    + destruct (last g) as [c|] eqn:Hl; [|exact I].
      apply ascii_alnum_plain, Hall. apply last_Some in Hl as [t ->].
      apply elem_of_app. right. left.
  - intros Hin. destruct (ascii_alnum_plain _ (Hall _ Hin)) as (_ & Hne & _). congruence.
  - intros Hin. destruct (ascii_alnum_plain _ (Hall _ Hin)) as (_ & _ & Hne). congruence.
Qed.

(** What [_random_id] returns. *)
Lemma random_id_shape (fuel : nat) (rnd : nat → nat) (used : gset pystr) :
  ∀ (pos pos' : nat) (c : pystr),
    Rebuild._random_id fuel rnd pos used = Ok (c, pos') →
    length c = 16 ∧ Forall (λ x, ascii_isalnum x = true) c ∧ c ∉ used.
Proof.
  induction fuel as [|fuel IH]; intros pos pos' c Hrun; simpl in Hrun.
  - discriminate Hrun.
  - destruct (bool_decide (Rebuild.candidate rnd pos ∈ used)) eqn:Hin.
    + exact (IH _ _ _ Hrun).
    + injection Hrun as <- _. apply bool_decide_eq_false in Hin.
      destruct (candidate_shape rnd pos) as [Hlen Hall]. auto.
Qed.

Lemma ends_with_json (name : pystr) :
  Rebuild.ends_with (txt ".json") name = true → ∃ x, name = x ++ txt ".json".
Proof.
  unfold Rebuild.ends_with, startswith.
  destruct (strip_prefix _ _) as [rest|] eqn:Hs; [|discriminate]. intros _.
  apply strip_prefix_Some in Hs.
  apply (f_equal reverse) in Hs. rewrite reverse_involutive, reverse_app in Hs.
  rewrite reverse_involutive in Hs. exists (reverse rest). exact Hs.
Qed.

(** The stem and the suffix of the name that [_build_new_records] gives a
    JSON file. *)
Lemma stem_suffix_with_id (name g : pystr) :
  Rebuild.ends_with (txt ".json") name = true → (46%N ∉ g) →
  name = (Rebuild.stem_suffix name).1 ++ (Rebuild.stem_suffix name).2
  ∧ Rebuild.stem_suffix
      ((Rebuild.stem_suffix name).1 ++ txt "__" ++ g ++ (Rebuild.stem_suffix name).2)
    = ((Rebuild.stem_suffix name).1 ++ txt "__" ++ g, (Rebuild.stem_suffix name).2).
Proof.
  intros Hjson Hg. apply ends_with_json in Hjson as [x ->].
  assert (Hr : rsplit1 [46%N] (x ++ txt ".json") = Some (x, txt "json")).
  { apply rsplit1_char. split; [reflexivity|].
    apply (bool_decide_unpack _). vm_compute. exact I. }
  destruct x as [|c x].
  - assert (Hss : Rebuild.stem_suffix ([] ++ txt ".json") = (txt ".json", []))
      by reflexivity.
    rewrite Hss. cbn [fst snd]. split; [reflexivity|].
    unfold Rebuild.stem_suffix.
    assert (Hr' : rsplit1 [46%N] (txt ".json" ++ txt "__" ++ g ++ [])
                  = Some ([], txt "json__" ++ g)).
    { apply rsplit1_char. split; [rewrite app_nil_r; reflexivity|].
      intros Hin. apply elem_of_app in Hin as [Hin|Hin]; [|contradiction].
      revert Hin. apply (bool_decide_unpack _). vm_compute. exact I. }
    rewrite Hr'. rewrite app_nil_r. reflexivity.
  - assert (Hss : Rebuild.stem_suffix ((c :: x) ++ txt ".json") = (c :: x, txt ".json")).
    { unfold Rebuild.stem_suffix. rewrite Hr. reflexivity. }
    rewrite Hss. cbn [fst snd]. split; [reflexivity|].
    unfold Rebuild.stem_suffix.
    assert (Hr' : rsplit1 [46%N] ((c :: x) ++ txt "__" ++ g ++ txt ".json")
                  = Some ((c :: x) ++ txt "__" ++ g, txt "json")).
    { apply rsplit1_char. split; [rewrite <- !app_assoc; reflexivity|].
      apply (bool_decide_unpack _). vm_compute. exact I. }
    rewrite Hr'. reflexivity.
Qed.

(** The part after the last [__] of a stem that ends in [__] and an id. *)
Lemma rsplit1_id (stem g : pystr) :
  (95%N ∉ g) → rsplit1 (txt "__") (stem ++ txt "__" ++ g) = Some (stem, g).
Proof.
  intros Hg.
  destruct (rsplit1_is_Some (txt "__") _ stem g eq_refl) as [[a b] Hr].
  rewrite Hr. destruct (rsplit1_Some _ _ _ _ Hr) as [Heq Hmin].
  specialize (Hmin stem g eq_refl).
  assert (Hlen : length stem + 2 + length g = length a + 2 + length b).
  { apply (f_equal length) in Heq. rewrite !length_app in Heq. simpl in Heq. lia. }
  assert (Hb : length b = length g).
  { destruct (decide (length b = length g)) as [|Hne]; [assumption|]. exfalso.
    apply Hg. apply (list_elem_of_lookup_2 _ (length g - length b - 1)).
    assert (Hat : (a ++ txt "__" ++ b) !! (length a + 1) = Some 95%N).
    { rewrite lookup_app_r by lia. replace (length a + 1 - length a) with 1 by lia.
      reflexivity. }
    rewrite <- Heq in Hat. rewrite lookup_app_r in Hat by lia.
    rewrite lookup_app_r in Hat by (simpl; lia). simpl in Hat.
    rewrite <- Hat. f_equal. lia. }
  assert (Ha : length stem = length a) by lia.
  apply app_inj_1 in Heq as [-> Heq]; [|exact Ha].
  apply app_inv_head in Heq. subst b. reflexivity.
Qed.

Lemma path_name_with_name (p : list pystr) (name : pystr) :
  Rebuild.path_name (Rebuild.with_name p name) = name.
Proof. unfold Rebuild.path_name, Rebuild.with_name. rewrite last_snoc. reflexivity. Qed.

Lemma with_name_path_name (p : list pystr) :
  p ≠ [] → Rebuild.with_name p (Rebuild.path_name p) = p.
Proof.
  intros Hp. unfold Rebuild.with_name, Rebuild.path_name.
  destruct (last p) as [x|] eqn:Hl.
  - apply last_Some in Hl as [t ->]. rewrite removelast_last. reflexivity.
  - apply last_None in Hl. contradiction.
Qed.

Lemma stamp_id_get (d : pydict) (g : pystr) :
  dict_get (txt "_id") (Rebuild.stamp_id d g) = Some (JStr g).
Proof.
  unfold Rebuild.stamp_id.
  destruct (dict_get (txt "_stats") (dict_set (txt "_id") (JStr g) d))
    as [[ | | | | |stats]|]; try (rewrite dict_get_set; reflexivity).
  rewrite !dict_get_set. reflexivity.
Qed.

Section renamed_files.
Context `{UnicodeDB}.

(** X24. A new JSON record file whose name carries no id is moved to
    [stem__id.suffix], where the id is fresh, sixteen characters long and
    recorded as allocated and in use. That id is the record's id: an
    object gets it as ["_id"] (with the back-reference in ["_stats"]), any
    other value is kept, the value is written to the new path, the old
    path is gone, and the key is [!root!id]. The new name has an id for
    [_filename_has_id], so a later pass does not rename the file again. *)
Theorem new_file_is_renamed_with_its_id (fuel : nat) (rnd : nat → nat)
    (p : list pystr) (st st' : Rebuild.state) (r : option (pystr * bytes))
    (root : pystr) (old : json) :
  Rebuild.new_record fuel rnd p st = Ok (r, st') →
  Rebuild._read_json (Rebuild.st_fs st) p = Ok old →
  Rebuild._infer_root_from_path p = Some root → root ≠ [] →
  Rebuild.ends_with (txt ".json") (Rebuild.path_name p) = true →
  Rebuild._filename_has_id p = false →
  ∃ id raw encoded,
    let q := Rebuild.with_name p
               (Rebuild.path_stem p ++ txt "__" ++ id ++ Rebuild.path_suffix p) in
    let value := match old with
                 | JObj d => JObj (Rebuild.stamp_id d id)
                 | _ => old
                 end in
    length id = 16 ∧ (id ∉ Rebuild.st_used st) ∧ id ∈ Rebuild.st_used st'
    ∧ Rebuild.st_allocated st' = Rebuild.st_allocated st ++ [id]
    ∧ Rebuild.st_log st'
      = Rebuild.st_log st
        ++ [Rebuild.AppendedGeneratedId
              (Rebuild._record_title old (Rebuild.path_stem q))]
    ∧ r = Some (txt "!" ++ root ++ txt "!" ++ id, encoded)
    ∧ Rebuild._encode_value value = Ok encoded
    ∧ utf8_encode (json_dumps_indent 0 value) = Ok raw
    ∧ Rebuild.st_fs st' = <[q := Rebuild.File raw]> (delete p (Rebuild.st_fs st))
    ∧ q ≠ p
    ∧ Rebuild._filename_has_id q = true
    ∧ Rebuild._infer_id value q = id.
Proof.
  intros Hrun Hread Hroot Hne Hjson Hhas.
  unfold Rebuild.new_record in Hrun. rewrite Hread, Hroot in Hrun.
  cbn [mbind res_mbind res_bind] in Hrun.
  destruct root as [|c0 root]; [contradiction|].
  unfold Rebuild.assign_file_id in Hrun. rewrite Hhas in Hrun. cbn [negb] in Hrun.
  apply bind_Ok in Hrun as ([[gen rel] st1] & Hfile & Hrun).
  apply bind_Ok in Hfile as ([g pos1] & Hrnd & Hfile).
  apply bind_Ok in Hfile as (fs1 & Hrename & Hfile).
  destruct (random_id_shape _ _ _ _ _ _ Hrnd) as (Hlen & Halnum & Hfresh).
  destruct (alnum_id_plain g Halnum) as (Hstrip & Hus & Hdot).
  set (q := Rebuild.with_name p
              (Rebuild.path_stem p ++ txt "__" ++ g ++ Rebuild.path_suffix p)) in *.
  assert (Hst1 : gen = Some g ∧ rel = q
                 ∧ st1 = {| Rebuild.st_fs := fs1;
                            Rebuild.st_used := {[g]} ∪ Rebuild.st_used st;
                            Rebuild.st_pos := pos1;
                            Rebuild.st_log := Rebuild.st_log st
                              ++ [Rebuild.AppendedGeneratedId
                                    (Rebuild._record_title old (Rebuild.path_stem q))];
                            Rebuild.st_allocated := Rebuild.st_allocated st ++ [g] |})
    by (injection Hfile as <- <- <-; repeat split).
  clear Hfile. destruct Hst1 as (-> & -> & ->).
  set (value := match old with
                | JObj d => JObj (Rebuild.stamp_id d g)
                | _ => old
                end).
  assert (Hp : p ≠ []) by (intros ->; discriminate Hroot).
  destruct (stem_suffix_with_id (Rebuild.path_name p) g Hjson Hdot) as [Hname Hss].
  assert (Hstem : Rebuild.path_stem q = Rebuild.path_stem p ++ txt "__" ++ g).
  { unfold Rebuild.path_stem at 1. unfold q. rewrite path_name_with_name.
    unfold Rebuild.path_stem, Rebuild.path_suffix. rewrite Hss. reflexivity. }
  assert (Hqhas : Rebuild._filename_has_id q = true).
  { unfold Rebuild._filename_has_id. rewrite Hstem, (rsplit1_id _ _ Hus).
    apply negb_true_iff, bool_decide_eq_false. intros ->. discriminate Hlen. }
  assert (Hqp : q ≠ p).
  { intros Heq. apply (f_equal Rebuild.path_name) in Heq.
    unfold q in Heq. rewrite path_name_with_name in Heq.
    apply (f_equal length) in Heq.
    pose proof (f_equal length Hname) as Hl. rewrite length_app in Hl.
    unfold Rebuild.path_stem, Rebuild.path_suffix in Heq.
    rewrite !length_app in Heq. simpl in Heq. lia. }
  assert (Hfrom_name : ∀ v, (∀ d, v ≠ JObj d) → Rebuild._infer_id v q = g).
  { intros v Hv. unfold Rebuild._infer_id. rewrite Hstem, (rsplit1_id _ _ Hus).
    rewrite (bool_decide_eq_false_2 (g = [])) by (intros ->; discriminate Hlen).
    destruct v; try reflexivity. exfalso. exact (Hv _ eq_refl). }
  assert (Hid : Rebuild._infer_id value q = g).
  { destruct old as [ | | | | |d]; try (apply Hfrom_name; discriminate).
    unfold value, Rebuild._infer_id. rewrite stamp_id_get, Hstrip.
    rewrite (bool_decide_eq_false_2 (g = [])) by (intros ->; discriminate Hlen).
    reflexivity. }
  assert (Hvalue : ∃ st2,
            Rebuild.assign_value_id fuel rnd old (Some g) q
              {| Rebuild.st_fs := fs1;
                 Rebuild.st_used := {[g]} ∪ Rebuild.st_used st;
                 Rebuild.st_pos := pos1;
                 Rebuild.st_log := Rebuild.st_log st
                   ++ [Rebuild.AppendedGeneratedId
                         (Rebuild._record_title old (Rebuild.path_stem q))];
                 Rebuild.st_allocated := Rebuild.st_allocated st ++ [g] |}
            = Ok (value, false, st2)
            ∧ st2 = {| Rebuild.st_fs := fs1;
                       Rebuild.st_used := {[g]} ∪ Rebuild.st_used st;
                       Rebuild.st_pos := pos1;
                       Rebuild.st_log := Rebuild.st_log st
                         ++ [Rebuild.AppendedGeneratedId
                               (Rebuild._record_title old (Rebuild.path_stem q))];
                       Rebuild.st_allocated := Rebuild.st_allocated st ++ [g] |}).
  { eexists. split; [|reflexivity]. unfold Rebuild.assign_value_id, value.
    destruct old as [ | | | | |d]; try reflexivity.
    rewrite stamp_id_get, Hstrip.
    rewrite (bool_decide_eq_false_2 (g = [])) by (intros ->; discriminate Hlen).
    reflexivity. }
  destruct Hvalue as (st2 & Hvalue & Hst2).
  rewrite Hvalue in Hrun. cbn [mbind res_mbind res_bind] in Hrun.
  assert (Hsome : bool_decide (is_Some (Some g)) = true)
    by (apply bool_decide_eq_true; eauto).
  rewrite Hsome in Hrun. cbn [orb] in Hrun.
  apply bind_Ok in Hrun as (fs3 & Hwrite & Hrun).
  apply bind_Ok in Hrun as (encoded & Hencoded & Hrun).
  injection Hrun as <- <-.
  unfold Rebuild._write_json in Hwrite.
  apply bind_Ok in Hwrite as (raw & Hraw & Hwrite). injection Hwrite as <-.
  unfold Rebuild.rename in Hrename.
  destruct (Rebuild.st_fs st !! p) as [n|] eqn:Hfile; [|discriminate Hrename].
  injection Hrename as <-.
  exists g, raw, encoded. cbv zeta. fold q. fold value. subst st2.
  cbn [Rebuild.st_fs Rebuild.st_used Rebuild.st_pos Rebuild.st_log Rebuild.st_allocated].
  rewrite Hid.
  split; [exact Hlen|]. split; [exact Hfresh|].
  split; [set_solver|]. split; [reflexivity|]. split; [reflexivity|].
  split; [reflexivity|]. split; [exact Hencoded|]. split; [exact Hraw|].
  split; [apply insert_insert_eq|]. auto.
Qed.
End renamed_files.

Lemma new_file_is_renamed_with_its_id_witness :
  ∃ r st' id encoded,
    @Rebuild.new_record ascii_db 5 in_turn [txt "items"; txt "New.json"] edited_state
    = Ok (r, st')
    ∧ length id = 16
    ∧ r = Some (txt "!" ++ txt "items" ++ txt "!" ++ id, encoded)
    ∧ Rebuild.st_allocated st' = [id]
    ∧ Rebuild.st_fs st' !! [txt "items"; txt "New.json"] = None.
Proof.
  destruct (res_is_ok (@Rebuild.new_record ascii_db 5 in_turn
                         [txt "items"; txt "New.json"] edited_state))
    as [[r st'] Hrun]; [vm_compute; reflexivity|].
  destruct (@new_file_is_renamed_with_its_id ascii_db 5 in_turn
              [txt "items"; txt "New.json"] edited_state st' r (txt "items")
              (JObj [(txt "name", JStr (txt "New"))]) Hrun)
    as (id & raw & encoded & Hlen & _ & _ & Halloc & _ & Hr & _ & _ & Hfs & Hq & _).
  - vm_compute. reflexivity.
  - vm_compute. reflexivity.
  - discriminate.
  - vm_compute. reflexivity.
  - vm_compute. reflexivity.
  - exists r, st', id, encoded. split; [exact Hrun|]. split; [exact Hlen|].
    split; [exact Hr|]. split; [exact Halloc|].
    rewrite Hfs. rewrite lookup_insert_ne by exact Hq. apply lookup_delete_eq.
Defined.

(** ** New record files that already carry their ids *)

Section complete_files.
Context `{UnicodeDB}.

(** One file whose name and value carry an id. *)
Lemma new_record_complete (fuel : nat) (rnd : nat → nat) (p : list pystr)
    (st st' : Rebuild.state) (r : option (pystr * bytes)) (value : json) :
  Rebuild.new_record fuel rnd p st = Ok (r, st') →
  Rebuild._read_json (Rebuild.st_fs st) p = Ok value →
  Rebuild._filename_has_id p = true →
  (∀ d, value = JObj d →
     ∃ id, dict_get (txt "_id") d = Some (JStr id) ∧ py_strip id ≠ []) →
  Rebuild.st_fs st' = Rebuild.st_fs st ∧ Rebuild.st_pos st' = Rebuild.st_pos st
  ∧ Rebuild.st_log st' = Rebuild.st_log st
  ∧ Rebuild.st_allocated st' = Rebuild.st_allocated st
  ∧ ∀ kv, r = Some kv →
      ∃ root encoded,
        Rebuild._infer_root_from_path p = Some root ∧ root ≠ []
        ∧ Rebuild._encode_value value = Ok encoded
        ∧ kv = (txt "!" ++ root ++ txt "!" ++ Rebuild._infer_id value p, encoded).
Proof.
  intros Hrun Hread Hhas Hid. unfold Rebuild.new_record in Hrun.
  rewrite Hread in Hrun. cbn [mbind res_mbind res_bind] in Hrun.
  destruct (Rebuild._infer_root_from_path p) as [[|c root]|] eqn:Hroot;
    try (injection Hrun as <- <-; repeat (split; [reflexivity|]); discriminate).
  unfold Rebuild.assign_file_id in Hrun. rewrite Hhas in Hrun.
  cbn [negb mbind res_mbind res_bind] in Hrun.
  assert (Hvalue : Rebuild.assign_value_id fuel rnd value None p st
                   = Ok (value, false, st)).
  { unfold Rebuild.assign_value_id. destruct value as [ | | | | |d]; try reflexivity.
    destruct (Hid d eq_refl) as (id & Hget & Hne). rewrite Hget.
    rewrite (bool_decide_eq_false_2 _ Hne). reflexivity. }
  rewrite Hvalue in Hrun. cbn [mbind res_mbind res_bind] in Hrun.
  assert (Hnone : bool_decide (is_Some (@None pystr)) = false).
  { apply bool_decide_eq_false. intros [x Hx]. discriminate Hx. }
  rewrite Hnone in Hrun. cbn [orb mbind res_mbind res_bind] in Hrun.
  apply bind_Ok in Hrun as (encoded & Hencoded & Hrun).
  assert (Hres : r = Some (txt "!" ++ (c :: root) ++ txt "!"
                             ++ Rebuild._infer_id value p, encoded)
                 ∧ Rebuild.st_fs st' = Rebuild.st_fs st
                 ∧ Rebuild.st_pos st' = Rebuild.st_pos st
                 ∧ Rebuild.st_log st' = Rebuild.st_log st
                 ∧ Rebuild.st_allocated st' = Rebuild.st_allocated st)
    by (injection Hrun as <- <-; repeat split).
  destruct Hres as (-> & Hfs & Hpos & Hlog & Halloc).
  repeat (split; [assumption|]).
  intros kv [= <-]. exists (c :: root), encoded.
  split; [reflexivity|]. split; [discriminate|]. split; [exact Hencoded|reflexivity].
Qed.

(** X25. The scan of new record files only reads the files that already
    carry their ids: when every new file has an id in its name and holds
    either a value that is no object or an object with a non-blank string
    ["_id"], a pass that returns leaves the tree as it was, draws no id,
    prints nothing, and makes every record from the unchanged content of a
    scanned file, under the key [!root!id] with the id that [_infer_id]
    takes from that content and path. *)
Theorem build_new_records_reads_complete_files (fuel : nat) (rnd : nat → nat)
    (known_paths : gset pystr) (st st' : Rebuild.state)
    (records : list (pystr * bytes)) :
  Rebuild._build_new_records fuel rnd known_paths st = Ok (records, st') →
  (∀ p, p ∈ Rebuild._record_files_for_new_entries (Rebuild.st_fs st) known_paths →
     Rebuild._filename_has_id p = true
     ∧ ∀ d, Rebuild._read_json (Rebuild.st_fs st) p = Ok (JObj d) →
         ∃ id, dict_get (txt "_id") d = Some (JStr id) ∧ py_strip id ≠ []) →
  Rebuild.st_fs st' = Rebuild.st_fs st ∧ Rebuild.st_pos st' = Rebuild.st_pos st
  ∧ Rebuild.st_log st' = Rebuild.st_log st
  ∧ Rebuild.st_allocated st' = Rebuild.st_allocated st
  ∧ ∀ kv, kv ∈ records →
      ∃ p root value encoded,
        p ∈ Rebuild._record_files_for_new_entries (Rebuild.st_fs st) known_paths
        ∧ Rebuild._read_json (Rebuild.st_fs st) p = Ok value
        ∧ Rebuild._infer_root_from_path p = Some root ∧ root ≠ []
        ∧ Rebuild._encode_value value = Ok encoded
        ∧ kv = (txt "!" ++ root ++ txt "!" ++ Rebuild._infer_id value p, encoded).
Proof.
  unfold Rebuild._build_new_records.
  generalize (Rebuild._record_files_for_new_entries (Rebuild.st_fs st) known_paths).
  intros files. revert st records.
  induction files as [|p files IH]; intros st records Hrun Hfiles; simpl in Hrun.
  - injection Hrun as <- <-. repeat (split; [reflexivity|]).
    intros kv Hkv. inversion Hkv.
  - apply bind_Ok in Hrun as ([r st1] & Hone & Hrun).
    apply bind_Ok in Hrun as ([records' st2] & Hrest & Hrun).
    assert (Hres : records = match r with Some kv => kv :: records' | None => records' end
                   ∧ st2 = st') by (injection Hrun as <- <-; split; reflexivity).
    destruct Hres as [-> ->]. clear Hrun.
    destruct (Hfiles p (list_elem_of_here _ _)) as [Hhas Hid].
    assert (Hread : ∃ value, Rebuild._read_json (Rebuild.st_fs st) p = Ok value).
    { unfold Rebuild.new_record in Hone. apply bind_Ok in Hone as (value & Hv & _). eauto. }
    destruct Hread as [value Hread].
    destruct (new_record_complete _ _ _ _ _ _ value Hone Hread Hhas)
      as (Hfs & Hpos & Hlog & Halloc & Hkv).
    { intros d ->. exact (Hid d Hread). }
    destruct (IH st1 records' Hrest) as (Hfs' & Hpos' & Hlog' & Halloc' & Hkvs).
    { intros p' Hp'. rewrite Hfs. apply Hfiles. right. exact Hp'. }
    split; [congruence|]. split; [congruence|]. split; [congruence|].
    split; [congruence|].
    intros kv Hin.
    assert (Hcases : r = Some kv ∨ kv ∈ records').
    { destruct r as [kv'|]; [|right; exact Hin].
      apply elem_of_cons in Hin as [->|Hin]; [left; reflexivity|right; exact Hin]. }
    destruct Hcases as [Hr|Hin'].
    + destruct (Hkv kv Hr) as (root & encoded & Hroot & Hne & Henc & ->).
      exists p, root, value, encoded. split; [left|]. auto.
    + destruct (Hkvs kv Hin') as (p' & root & value' & encoded & Hp' & Hread' & Hrest').
      exists p', root, value', encoded. split; [right; exact Hp'|].
      split; [rewrite <- Hfs; exact Hread'|exact Hrest'].
Qed.

End complete_files.

Lemma build_new_records_reads_complete_files_witness :
  ∃ records st',
    @Rebuild._build_new_records ascii_db 0 in_turn ∅
      {| Rebuild.st_fs := complete_tree; Rebuild.st_used := ∅; Rebuild.st_pos := 0;
         Rebuild.st_log := []; Rebuild.st_allocated := [] |} = Ok (records, st')
    ∧ Rebuild.st_fs st' = complete_tree ∧ Rebuild.st_allocated st' = []
    ∧ length records = 1.
Proof.
  set (st := {| Rebuild.st_fs := complete_tree; Rebuild.st_used := ∅; Rebuild.st_pos := 0;
                Rebuild.st_log := []; Rebuild.st_allocated := [] |}).
  destruct (res_is_ok (@Rebuild._build_new_records ascii_db 0 in_turn ∅ st))
    as [[records st'] Hrun]; [vm_compute; reflexivity|].
  assert (Hfiles : Rebuild._record_files_for_new_entries (Rebuild.st_fs st) ∅
                   = [[txt "items"; txt "Sword__i1.json"]]) by (vm_compute; reflexivity).
  destruct (@build_new_records_reads_complete_files ascii_db 0 in_turn ∅ st st' records Hrun)
    as (Hfs & _ & _ & Halloc & _).
  - intros p Hp. rewrite Hfiles in Hp. apply list_elem_of_singleton in Hp as ->.
    split; [vm_compute; reflexivity|]. intros d Hd.
    assert (Hread : Rebuild._read_json (Rebuild.st_fs st) [txt "items"; txt "Sword__i1.json"]
                    = Ok (JObj [(txt "_id", JStr (txt "i1"))])) by (vm_compute; reflexivity).
    rewrite Hread in Hd. injection Hd as <-.
    exists (txt "i1"). split; [reflexivity|]. vm_compute. discriminate.
  - exists records, st'. split; [exact Hrun|]. split; [exact Hfs|]. split; [exact Halloc|].
    assert (Hlen : match @Rebuild._build_new_records ascii_db 0 in_turn ∅ st with
                   | Ok (rs, _) => length rs | Raise _ => 0 end = 1) by (vm_compute; reflexivity).
    rewrite Hrun in Hlen. exact Hlen.
Defined.

(** ** Record files that an earlier dump left in the output directory *)

Section stale_files.
Context `{UnicodeDB}.

(** X26. The dump removes nothing: a JSON file that lies below the top
    level of the output directory before the dump, and at which the dump
    places no record, is still there afterwards with the same content.
    The manifest of the dump does not list it, so if its path lets
    [_infer_root_from_path] infer a root, the rebuild takes it for a new
    record file. A record that was deleted from the store since an earlier
    dump to the same directory is thus written to the rebuilt store
    again. *)
Theorem stale_record_file_is_new_entry (fuel : nat)
    (fs fs' : gmap (list pystr) Rebuild.node) (entries : list (bytes * bytes))
    (parse_json_values : bool) (leveldb_meta : pydict)
    (records : list Dump.record) (folders : list Dump.folder_row)
    (placed : list (list pystr * Dump.manifest_row))
    (q : list pystr) (content : bytes) (root : pystr) :
  DumpFiles.dump_store fuel fs entries parse_json_values leveldb_meta = Ok fs' →
  json_wf (JObj leveldb_meta) →
  Dump._extract_records entries parse_json_values = Ok records →
  Dump._place_records fuel records = Ok (folders, placed) →
  Forall (λ r, Dump.rec_root r ≠ txt "manifest") records →
  fs !! q = Some (Rebuild.File content) →
  2 ≤ length q →
  Forall (λ x, x ≠ [] ∧ (47%N ∉ x) ∧ x ≠ [46%N] ∧ x ≠ txt "..") q →
  Rebuild.ends_with (txt ".json") (Rebuild.path_name q) = true →
  (Rebuild.path_name q ∉ Rebuild._excluded_json_names) →
  Rebuild._infer_root_from_path q = Some root → root ≠ [] →
  (q ∉ placed.*1) →
  fs' !! q = Some (Rebuild.File content)
  ∧ ∃ manifest,
      Rebuild._load_manifest fs' = Ok (manifest, leveldb_meta)
      ∧ q ∈ Rebuild._record_files_for_new_entries fs' (Rebuild.known_paths_of manifest).
Proof.
  intros Hrun Hmeta Hrecords Hplace Hroots Hq Hlen Hplain Hjson Hexcl Hroot Hne Hnew.
  destruct (dump_store_Ok _ _ _ _ _ _ Hrun)
    as (records' & folders' & placed' & fs1 & fs2 & fs3 & fs4 & idx & memo
        & Hrecords' & Hplace' & Hw1 & Hw2 & Hmemo & Hplaced & Hloop & Hw4 & Hgrouped).
  rewrite Hrecords in Hrecords'. injection Hrecords' as <-.
  rewrite Hplace in Hplace'. injection Hplace' as <- <-.
  pose proof (extract_records_wf _ _ _ Hrecords) as Hwf.
  assert (Hload : Rebuild._load_manifest fs' = Ok (row_dict <$> placed.*2, leveldb_meta)).
  { apply (load_manifest_of_dump fuel records idx memo placed fs3 fs4 fs');
      try assumption.
    eapply Forall_impl; [exact Hwf|]. intros r Hr. apply Hr. }
  assert (Hfile : fs' !! q = Some (Rebuild.File content)).
  { destruct (write_grouped_lookup _ _ _ _ Hgrouped) as [_ Hout].
    rewrite Hout by (intros r _ ->; simpl in Hlen; lia).
    apply (dump_write_json_file _ _ _ _ _ content Hw4);
      [intros ->; simpl in Hlen; lia|].
    destruct (place_loop_files_spec _ _ _ _ _ _ _ Hloop)
      as (placed' & Hplaced' & _ & Hother & _).
    rewrite Hplaced in Hplaced'. injection Hplaced' as <-.
    apply (Hother q content Hnew).
    apply (dump_write_json_file _ _ _ _ _ content Hw2);
      [intros ->; simpl in Hlen; lia|].
    apply (dump_write_json_file _ _ _ _ _ content Hw1);
      [intros ->; simpl in Hlen; lia|].
    exact Hq. }
  split; [exact Hfile|]. exists (row_dict <$> placed.*2). split; [exact Hload|].
  unfold Rebuild._record_files_for_new_entries. apply list_elem_of_filter. split.
  - apply Is_true_true. unfold Rebuild.is_new_entry. rewrite Hroot.
    rewrite (proj2 (Nat.leb_gt _ _)) by lia.
    rewrite (bool_decide_eq_false_2 _ Hexcl).
    rewrite (bool_decide_eq_false_2 (root = []) Hne).
    rewrite bool_decide_eq_false_2; [reflexivity|].
    intros Hknown. unfold Rebuild.known_paths_of in Hknown.
    apply elem_of_list_to_set, list_elem_of_omap in Hknown as (item & Hitem & Hpath).
    apply list_elem_of_fmap in Hitem as (m & -> & Hm).
    apply list_elem_of_fmap in Hm as (pm & -> & Hpm).
    change (dict_get (txt "path") (row_dict pm.2)) with (Some (JStr (Dump.m_path pm.2)))
      in Hpath.
    injection Hpath as Hpath.
    apply list_elem_of_lookup in Hpm as [i Hpm].
    pose proof (place_loop_shapes _ _ _ _ _ Hplaced Hmemo) as Hshapes.
    destruct (Forall2_lookup_r _ _ _ _ _ Hshapes Hpm)
      as (r & Hr & dir & Hdir & Hp & Hstr & _).
    assert (Hsafe : is_safe_name (Dump.rec_root r)).
    { rewrite Forall_forall in Hwf. apply (Hwf r). eapply list_elem_of_lookup_2. exact Hr. }
    destruct (infer_root_of_dir _ (Dump.record_file_name r) dir Hsafe Hdir)
      as (_ & _ & Hdplain).
    destruct (record_file_name_parts r dir)
      as (_ & _ & _ & _ & _ & _ & Hf1 & Hf2 & Hf3 & Hf4).
    assert (Hback : Rebuild.rel_of_str (path_str pm.1) = Some pm.1).
    { rewrite Hp. apply rel_of_str_path_str; [destruct dir; discriminate|].
      apply Forall_app. split; [exact Hdplain|]. repeat constructor; assumption. }
    assert (Hback' : Rebuild.rel_of_str (path_str q) = Some q).
    { apply rel_of_str_path_str; [intros ->; simpl in Hlen; lia|exact Hplain]. }
    rewrite <- Hstr, Hpath, Hback' in Hback. injection Hback as ->.
    apply Hnew. apply list_elem_of_fmap. exists pm. split; [reflexivity|].
    eapply list_elem_of_lookup_2. exact Hpm.
  - unfold Rebuild.rglob_json. rewrite merge_sort_Permutation.
    apply list_elem_of_filter. split; [apply Is_true_true; exact Hjson|].
    apply elem_of_elements, elem_of_dom. rewrite Hfile. eauto.
Qed.

End stale_files.

Lemma stale_record_file_is_new_entry_witness :
  ∃ fs' manifest,
    @DumpFiles.dump_store ascii_db 5 sword_tree folder_store true [] = Ok fs'
    ∧ fs' !! [txt "items"; txt "Sword__i1.json"]
      = Some (Rebuild.File (map to_byte (named "Sword")))
    ∧ Rebuild._load_manifest fs' = Ok (manifest, [])
    ∧ [txt "items"; txt "Sword__i1.json"]
      ∈ Rebuild._record_files_for_new_entries fs' (Rebuild.known_paths_of manifest).
Proof.
  destruct (res_is_ok (@DumpFiles.dump_store ascii_db 5 sword_tree folder_store true []))
    as [fs' Hrun]; [vm_compute; reflexivity|].
  destruct (res_is_ok (@Dump._extract_records ascii_db folder_store true))
    as [records Hrecords]; [vm_compute; reflexivity|].
  destruct (res_is_ok (rs ← @Dump._extract_records ascii_db folder_store true;
                       @Dump._place_records ascii_db 5 rs))
    as [[folders placed] Hplace]; [vm_compute; reflexivity|].
  assert (Hnew : match rs ← @Dump._extract_records ascii_db folder_store true;
                       @Dump._place_records ascii_db 5 rs with
                 | Ok (_, pl) =>
                   bool_decide ([txt "items"; txt "Sword__i1.json"] ∉ pl.*1)
                 | Raise _ => false
                 end = true) by (vm_compute; reflexivity).
  rewrite Hplace in Hnew. apply bool_decide_eq_true in Hnew.
  assert (Hroots : match @Dump._extract_records ascii_db folder_store true with
                   | Ok rs => forallb (λ r, negb (bool_decide (Dump.rec_root r = txt "manifest"))) rs
                   | Raise _ => true
                   end = true) by (vm_compute; reflexivity).
  rewrite Hrecords in Hplace, Hroots. simpl in Hplace.
  destruct (@stale_record_file_is_new_entry ascii_db 5 sword_tree fs' folder_store true []
              records folders placed [txt "items"; txt "Sword__i1.json"]
              (map to_byte (named "Sword")) (txt "items") Hrun)
    as (Hfile & manifest & Hload & Hin).
  - constructor; constructor.
  - exact Hrecords.
  - exact Hplace.
  - rewrite forallb_forall in Hroots. apply Forall_forall. intros r Hr.
    apply list_elem_of_In in Hr. specialize (Hroots r Hr).
    apply negb_true_iff, bool_decide_eq_false in Hroots. exact Hroots.
  - reflexivity.
  - simpl. lia.
  - constructor; [|constructor; [|constructor]];
      (split; [discriminate|]; split; [|split; discriminate]);
      apply (bool_decide_unpack _); vm_compute; exact I.
  - vm_compute. reflexivity.
  - apply (bool_decide_unpack _). vm_compute. exact I.
  - reflexivity.
  - discriminate.
  - exact Hnew.
  - exists fs', manifest. auto.
Defined.
